(** * cdp-gdb-bridge: the debug session layer (core/DebugSession.ts)

    A shallow embedding of the session layer that sits between the Chrome
    DevTools protocol and the DWARF model of the loaded WebAssembly modules:
    the module registry ([DebugSession]), the two session states
    ([NormalSessionState], [PausedSessionState]) and the command dispatcher
    with its breakpoint registry ([DebugSessionManager]).

    The file has three parts: the JavaScript values and builtins the code
    relies on (module [JS]), the embedding of the classes, and the
    properties proved about them. *)

From Stdlib Require Import ZArith List String Ascii Bool Lia.
From Stdlib Require Import Floats.SpecFloat.
Import ListNotations.

Local Open Scope string_scope.

(* ===================================================================== *)
(** * JavaScript values and builtins                                      *)
(* ===================================================================== *)

Module JS.

(** ** Numbers

    A JavaScript number is an IEEE 754 binary64 value.  The Standard
    Library's [spec_float] is that model (without NaN payloads); its
    operations are instantiated at precision 53 and maximal exponent 1024. *)

Definition number : Type := spec_float.

Definition prec : Z := 53.
Definition emax : Z := 1024.

Definition NaN : number := S754_nan.
Definition Infinity : number := S754_infinity false.
Definition neg_Infinity : number := S754_infinity true.
Definition pos_zero : number := S754_zero false.
Definition neg_zero : number := S754_zero true.

(** The number nearest to an integer (ties to even). *)
Definition of_Z (z : Z) : number := binary_normalize prec emax z 0 false.
Definition of_nat (n : nat) : number := of_Z (Z.of_nat n).

Definition one : number := of_Z 1.

(** [x + y], [x - y] *)
Definition add (x y : number) : number := SFadd prec emax x y.
Definition sub (x y : number) : number := SFsub prec emax x y.

(** [x == y], [x != y], [x < y], [x <= y] on numbers *)
Definition eqb (x y : number) : bool := SFeqb x y.
Definition neb (x y : number) : bool := negb (eqb x y).
Definition ltb (x y : number) : bool := SFltb x y.
Definition leb (x y : number) : bool := SFleb x y.

Definition is_nan (x : number) : bool :=
  match x with S754_nan => true | _ => false end.

Definition is_pos_zero (x : number) : bool :=
  match x with S754_zero false => true | _ => false end.

Definition is_neg_zero (x : number) : bool :=
  match x with S754_zero true => true | _ => false end.

(** [Object.is(x, y)] on numbers: the same value, [NaN] included, the two
    zeros apart. *)
Definition same_value (x y : number) : bool :=
  match x, y with
  | S754_zero s, S754_zero s' => Bool.eqb s s'
  | S754_infinity s, S754_infinity s' => Bool.eqb s s'
  | S754_nan, S754_nan => true
  | S754_finite s m e, S754_finite s' m' e' =>
      Bool.eqb s s' && Pos.eqb m m' && Z.eqb e e'
  | _, _ => false
  end.

(** ToBoolean on a number: false for [+0], [-0] and [NaN]. *)
Definition truthy_number (x : number) : bool :=
  match x with
  | S754_zero _ | S754_nan => false
  | _ => true
  end.

(** ToBoolean on a string: false for the empty string. *)
Definition truthy_string (s : string) : bool :=
  match s with EmptyString => false | String _ _ => true end.

(** [a || b] on numbers and on strings. *)
Definition or_number (a b : number) : number := if truthy_number a then a else b.
Definition or_string (a b : string) : string := if truthy_string a then a else b.

(** [Math.max(...l)]: starts from [-Infinity]; a [NaN] argument makes the
    result [NaN]; [+0] is larger than [-0]. *)
Fixpoint Math_max_from (highest : number) (l : list number) : number :=
  match l with
  | [] => highest
  | x :: rest =>
      if is_nan x then NaN
      else
        let highest' :=
          if (is_pos_zero x && is_neg_zero highest) || ltb highest x
          then x else highest in
        Math_max_from highest' rest
  end.

Definition Math_max (l : list number) : number := Math_max_from neg_Infinity l.

(** [Math.min(...l)]: starts from [+Infinity]; [-0] is smaller than [+0]. *)
Fixpoint Math_min_from (lowest : number) (l : list number) : number :=
  match l with
  | [] => lowest
  | x :: rest =>
      if is_nan x then NaN
      else
        let lowest' :=
          if (is_neg_zero x && is_pos_zero lowest) || ltb x lowest
          then x else lowest in
        Math_min_from lowest' rest
  end.

Definition Math_min (l : list number) : number := Math_min_from Infinity l.

(** ** Arrays

    [a[i]] for a number [i]: the element when [i] is a non-negative integer
    below the length ([-0] reads element 0), [undefined] otherwise. *)
Definition array_index (i : number) : option nat :=
  match i with
  | S754_zero _ => Some 0%nat
  | S754_finite false m e =>
      match e with
      | Z0 => Some (Pos.to_nat m)
      | Zpos p => Some (Z.to_nat (Z.shiftl (Zpos m) (Zpos p)))
      | Zneg p =>
          if Z.eqb (Z.land (Zpos m) (Z.ones (Zpos p))) 0
          then Some (Z.to_nat (Z.shiftr (Zpos m) (Zpos p)))
          else None
      end
  | _ => None
  end.

Definition array_get {A : Type} (a : list A) (i : number) : option A :=
  match array_index i with
  | Some n => nth_error a n
  | None => None
  end.

(** [a.map((v, i) => f v i)] *)
Fixpoint mapi_from {A B : Type} (f : A -> nat -> B) (i : nat) (a : list A) : list B :=
  match a with
  | [] => []
  | v :: rest => f v i :: mapi_from f (S i) rest
  end.

Definition mapi {A B : Type} (f : A -> nat -> B) (a : list A) : list B :=
  mapi_from f 0 a.

(** ** Strings

    A string is a sequence of code units; the development reads a Rocq
    [string] as the code units below 256. *)

(** [s.split(sep)] for a one-character separator: never empty. *)
Fixpoint split (sep : ascii) (s : string) : list string :=
  match s with
  | EmptyString => [EmptyString]
  | String c rest =>
      if Ascii.eqb c sep then EmptyString :: split sep rest
      else match split sep rest with
           | [] => [String c EmptyString]
           | piece :: pieces => String c piece :: pieces
           end
  end.

(** [s.includes(c)] for a one-character [c]. *)
Fixpoint includes (c : ascii) (s : string) : bool :=
  match s with
  | EmptyString => false
  | String d rest => Ascii.eqb d c || includes c rest
  end.

(** [s.replace(/c/g, by)] for a one-character pattern. *)
Fixpoint replace_all (c : ascii) (by_ : string) (s : string) : string :=
  match s with
  | EmptyString => EmptyString
  | String d rest =>
      if Ascii.eqb d c then by_ ++ replace_all c by_ rest
      else String d (replace_all c by_ rest)
  end.

(** ** [Number(s)]: the StringToNumber conversion

    White space is trimmed at both ends; the empty string is [+0]; a
    [0x], [0o] or [0b] literal (no sign) is read in its radix; otherwise an
    optional sign followed by [Infinity] or a decimal literal with optional
    fraction and exponent; everything else is [NaN].  The mathematical
    value is rounded once, to nearest with ties to even. *)

Definition code (c : ascii) : nat := nat_of_ascii c.

(** TAB, LF, VT, FF, CR, SP and NBSP: the white space and line terminators
    among the code units below 256. *)
Definition is_white_space (c : ascii) : bool :=
  let n := code c in
  (Nat.leb 9 n && Nat.leb n 13) || Nat.eqb n 32 || Nat.eqb n 160.

Fixpoint drop_white_space (l : list ascii) : list ascii :=
  match l with
  | c :: rest => if is_white_space c then drop_white_space rest else l
  | [] => []
  end.

Definition trim (l : list ascii) : list ascii :=
  rev (drop_white_space (rev (drop_white_space l))).

(** The value of a digit in a radix up to 16, when it is one. *)
Definition digit_value (radix : Z) (c : ascii) : option Z :=
  let n := Z.of_nat (code c) in
  let v :=
    if Z.leb 48 n && Z.leb n 57 then Some (n - 48)%Z
    else if Z.leb 97 n && Z.leb n 102 then Some (n - 87)%Z
    else if Z.leb 65 n && Z.leb n 70 then Some (n - 55)%Z
    else None in
  match v with
  | Some d => if Z.ltb d radix then Some d else None
  | None => None
  end.

(** The longest run of digits at the head of [l]: its value continuing
    [acc], how many digits were read, and what follows. *)
Fixpoint read_digits (radix : Z) (l : list ascii) (acc : Z) (count : nat)
  : Z * nat * list ascii :=
  match l with
  | c :: rest =>
      match digit_value radix c with
      | Some d => read_digits radix rest (acc * radix + d)%Z (S count)
      | None => (acc, count, l)
      end
  | [] => (acc, count, [])
  end.

(** The number nearest to [(-1)^sign * m * 10^k]. *)
Definition decimal_to_number (sign : bool) (m : Z) (k : Z) : number :=
  match m with
  | Zpos p =>
      match k with
      | Zneg q => SFdiv prec emax (S754_finite sign p 0)
                                   (S754_finite false (Pos.pow 10 q) 0)
      | _ => binary_round prec emax sign (p * Z.to_pos (10 ^ k)) 0
      end
  | _ => S754_zero sign
  end.

(** ExponentPart, optional: [e] or [E], an optional sign, at least one digit;
    [None] when [l] is neither empty nor an exponent part. *)
Definition read_exponent (l : list ascii) : option Z :=
  match l with
  | [] => Some 0%Z
  | c :: rest =>
      if Ascii.eqb c "e"%char || Ascii.eqb c "E"%char then
        let '(neg, digits) :=
          match rest with
          | s :: rest' =>
              if Ascii.eqb s "-"%char then (true, rest')
              else if Ascii.eqb s "+"%char then (false, rest')
              else (false, rest)
          | [] => (false, rest)
          end in
        match read_digits 10 digits 0 0 with
        | (_, O, _) => None
        | (e, S _, []) => Some (if neg then - e else e)%Z
        | (_, S _, _ :: _) => None
        end
      else None
  end.

(** StrUnsignedDecimalLiteral *)
Definition unsigned_decimal (sign : bool) (l : list ascii) : number :=
  if list_eq_dec ascii_dec l (list_ascii_of_string "Infinity")
  then S754_infinity sign
  else
    let '(ip, n1, rest1) := read_digits 10 l 0 0 in
    let '(m, n2, rest2) :=
      match rest1 with
      | c :: after_dot =>
          if Ascii.eqb c "."%char then read_digits 10 after_dot ip 0
          else (ip, O, rest1)
      | [] => (ip, O, rest1)
      end in
    match (n1 + n2)%nat with
    | O => NaN
    | S _ =>
        match read_exponent rest2 with
        | Some e => decimal_to_number sign m (e - Z.of_nat n2)
        | None => NaN
        end
    end.

(** NonDecimalIntegerLiteral: the radix and the digits after the prefix. *)
Definition radix_prefix (l : list ascii) : option (Z * list ascii) :=
  match l with
  | z :: r :: digits =>
      if Ascii.eqb z "0"%char then
        if Ascii.eqb r "x"%char || Ascii.eqb r "X"%char then Some (16%Z, digits)
        else if Ascii.eqb r "o"%char || Ascii.eqb r "O"%char then Some (8%Z, digits)
        else if Ascii.eqb r "b"%char || Ascii.eqb r "B"%char then Some (2%Z, digits)
        else None
      else None
  | _ => None
  end.

Definition Number (s : string) : number :=
  match trim (list_ascii_of_string s) with
  | [] => pos_zero
  | (c :: rest) as l =>
      match radix_prefix l with
      | Some (radix, digits) =>
          match read_digits radix digits 0 0 with
          | (v, S _, []) => of_Z v
          | _ => NaN
          end
      | None =>
          if Ascii.eqb c "-"%char then unsigned_decimal true rest
          else if Ascii.eqb c "+"%char then unsigned_decimal false rest
          else unsigned_decimal false l
      end
  end.

End JS.

(* ===================================================================== *)
(** * The protocol gateway and the other collaborators                    *)
(* ===================================================================== *)

Module Protocol.

(** [Protocol.Debugger.Location] *)
Record Location := {
  scriptId : string;
  lineNumber : JS.number;
  columnNumber : option JS.number
}.

(** [Protocol.Runtime.RemoteObject], the field the session reads. *)
Record RemoteObject := { objectId : option string }.

(** [Protocol.Debugger.Scope] *)
Record Scope := { object : RemoteObject }.

(** [Protocol.Debugger.CallFrame] *)
Record CallFrame := {
  callFrameId : string;
  functionName : string;
  location : Location;
  url : string;
  scopeChain : list Scope
}.

(** [Protocol.Debugger.PausedEvent] *)
Record PausedEvent := { callFrames : list CallFrame }.

(** [Protocol.Runtime.PropertyDescriptor] *)
Record PropertyDescriptor := {
  name : string;
  value : option RemoteObject
}.

(** The one expression the session evaluates on a call frame,
    [new Uint8Array(memories[0].buffer).subarray(${from}, ${to})]. *)
Inductive Expression :=
| Uint8Array_subarray (from to : JS.number).

(** The requests of the Debugger, Runtime and Page domains.  The fields of
    [Debugger_setBreakpoint] are those of its [location]; the session passes
    them on unchecked, so each may be [undefined]. *)
Inductive Request :=
| Debugger_setBreakpoint (scriptId : option string)
                         (lineNumber columnNumber : option JS.number)
| Debugger_removeBreakpoint (breakpointId : string)
| Debugger_stepOver
| Debugger_stepInto
| Debugger_stepOut
| Debugger_resume
| Debugger_evaluateOnCallFrame (callFrameId : string) (expression : Expression)
| Runtime_getProperties (objectId : option string)
| Page_navigate (url : string).

Inductive Error :=
| TypeError (message : string)
| ProtocolError (message : string).

(** How an awaited call ends: the promise resolves or rejects. *)
Inductive Completion (A : Type) :=
| Normal (value : A)
| Throw (error : Error).
Arguments Normal {A} value.
Arguments Throw {A} error.

(** What a resolved request carries: the [breakpointId] of
    [setBreakpoint], the [result] of [getProperties], the [result.value] of
    [evaluateOnCallFrame] ([undefined], or an object whose values are
    numbers, listed as [Object.values] lists them). *)
Definition Reply (r : Request) : Type :=
  match r with
  | Debugger_setBreakpoint _ _ _ => string
  | Runtime_getProperties _ => list PropertyDescriptor
  | Debugger_evaluateOnCallFrame _ _ => option (list JS.number)
  | _ => unit
  end.

(** The gateway answers a request knowing the requests issued before it. *)
Definition Gateway : Type :=
  forall (history : list Request) (r : Request), Completion (Reply r).

(** [vscode-debugadapter]'s [StoppedEvent(reason, threadId)] *)
Inductive AdapterEvent :=
| StoppedEvent (reason : string) (threadId : JS.number).

Inductive ConsoleEntry :=
| console_log (text : string)
| console_warn (text : string)
(** [console.log((arrow ? '->' : '  ') + ` ${lineNo}  ${text}`)] of
    [showLine]; [text] is [None] when [lines[i]] is [undefined]. *)
| console_log_line (arrow : bool) (lineNo : JS.number) (text : option string).

(** A program that can only talk to the Runtime domain: the shape of
    a function that is handed [this.runtime] and nothing else. *)
Inductive RuntimeProg (A : Type) :=
| RRet (a : A)
| RThrow (e : Error)
| RGetProperties (objectId : option string)
                 (k : Completion (list PropertyDescriptor) -> RuntimeProg A).
Arguments RRet {A} a.
Arguments RThrow {A} e.
Arguments RGetProperties {A} objectId k.

End Protocol.
Import Protocol.

(** What the session does to the outside, oldest first: console output,
    gateway requests, events sent to the debug adapter, and the modules
    whose [free()] was called (by script id). *)
Record Effects := {
  console : list ConsoleEntry;
  requests : list Request;
  adapterEvents : list AdapterEvent;
  freed : list string
}.

Definition no_effects : Effects :=
  {| console := []; requests := []; adapterEvents := []; freed := [] |}.

(** * Plain data of DebugSession.ts *)

Module Variable_.
Record t := { name : string; type : string }.
End Variable_.

Module IBreakPoint.
Record t := {
  id : option JS.number;
  line : option JS.number;
  column : option JS.number;
  verified : bool
}.
End IBreakPoint.

(** [RuntimeBreakPoint = BreakPointMapping & FileLocation] *)
Module RuntimeBreakPoint.
Record t := {
  id : JS.number;
  rawId : string;
  file : string;
  line : JS.number;
  column : option JS.number
}.
End RuntimeBreakPoint.

(** [IRuntimeStackFrame = StackFrameFunction & FileLocation] *)
Module IRuntimeStackFrame.
Record t := {
  index : nat;
  name : string;
  instruction : option JS.number;
  file : string;
  line : JS.number;
  column : option JS.number
}.
End IRuntimeStackFrame.

(** What [getBreakPointsList] returns: [{...x, verified: true}]. *)
Module ListedBreakPoint.
Record t := {
  breakPoint : RuntimeBreakPoint.t;
  verified : bool
}.
End ListedBreakPoint.

(* ===================================================================== *)
(** * The module registry                                                 *)
(* ===================================================================== *)

(** Modelled from the spec: the class [WebAssemblyFile] (./Source) and the
    DWARF package (crates/dwarf/pkg) are not part of the sources.  A module
    is its script id and the answers of its debug-info handle; a source
    location is the spec's [{file, line}], read through [file()] and
    [line()]; an address handle is given by its [address()]; a variable list
    by the pairs [(at_name i, at_type_name i)]; a variable descriptor by its
    [address], its [byte_size] and what [print()] shows once
    [set_memory_slice] was given the numbers read from memory. *)
Module DwarfSourceLocation.
Record t := { file : string; line : JS.number }.
End DwarfSourceLocation.

Module VariableInfo.
Record t := {
  address : JS.number;
  byte_size : JS.number;
  print : list JS.number -> option string
}.
End VariableInfo.

Module WebAssemblyFile.
Section WithStore.
(** [WasmValueVector] of the DWARF package *)
Context {WasmValueVector : Type}.

Record t := {
  scriptID : string;
  findFileFromLocation : Location -> option DwarfSourceLocation.t;
  findAddressFromFileLocation : string -> JS.number -> option JS.number;
  (** [dwarf.variable_name_list(address)] *)
  variable_name_list : option JS.number -> option (list Variable_.t);
  (** [dwarf.get_variable_info(expr, locals, globals, stacks, address)] *)
  get_variable_info :
    string -> WasmValueVector -> WasmValueVector -> WasmValueVector ->
    option JS.number -> option VariableInfo.t
}.

(** The protocol address of byte offset [address] in module [x]. *)
Definition at_address (x : t) (address : JS.number) : Location :=
  {| scriptId := scriptID x;
     lineNumber := JS.pos_zero;
     columnNumber := Some address |}.

(** The two directions of the module's debug information agree: [file:line]
    is at [address] exactly when [address] is [file:line]. *)
Definition mutually_inverse (x : t) : Prop :=
  forall (file : string) (line address : JS.number),
    findAddressFromFileLocation x file line = Some address <->
    findFileFromLocation x (at_address x address) =
      Some {| DwarfSourceLocation.file := file; DwarfSourceLocation.line := line |}.
End WithStore.
Arguments t : clear implicits.
End WebAssemblyFile.

Module WebAssemblyDebugState.
Section WithStore.
Context {WasmValueVector : Type}.
Record t := {
  stacks : WasmValueVector;
  locals : WasmValueVector;
  globals : WasmValueVector
}.
End WithStore.
Arguments t : clear implicits.
End WebAssemblyDebugState.

(** What [findAddressFromFileLocation] of the session returns. *)
Module WasmLocation.
Record t := { scriptId : string; line : JS.number; column : JS.number }.

(** The protocol location with these fields, as [setBreakPoint] hands them
    to the gateway. *)
Definition toLocation (w : t) : Location :=
  {| Protocol.scriptId := scriptId w;
     Protocol.lineNumber := line w;
     Protocol.columnNumber := Some (column w) |}.
End WasmLocation.

Module DebugSession.
Section WithStore.
Context {WasmValueVector : Type}.
Local Abbreviation WebAssemblyFile := (WebAssemblyFile.t WasmValueVector).
Local Abbreviation WebAssemblyDebugState := (WebAssemblyDebugState.t WasmValueVector).

Record t := { sources : list WebAssemblyFile }.

(** [constructor()] *)
Definition new : t := {| sources := [] |}.

(** [reset()]: frees every module, in order, and empties the list.  The
    result lists the script ids of the freed modules. *)
Definition reset (this : t) : list string * t :=
  (map WebAssemblyFile.scriptID (sources this), {| sources := [] |}).

Definition loadedWebAssembly (this : t) (wasm : WebAssemblyFile) : t :=
  {| sources := sources this ++ [wasm] |}.

(** [filter(x => x.scriptID == loc.scriptId)[0]?.findFileFromLocation(loc)] *)
Definition findFileFromLocation (this : t) (loc : Location)
  : option DwarfSourceLocation.t :=
  match filter (fun x => String.eqb (WebAssemblyFile.scriptID x) (scriptId loc))
               (sources this) with
  | x :: _ => WebAssemblyFile.findFileFromLocation x loc
  | [] => None
  end.

Fixpoint findAddress_loop (xs : list WebAssemblyFile) (file : string)
         (line : JS.number) : option WasmLocation.t :=
  match xs with
  | [] => None
  | x :: rest =>
      match WebAssemblyFile.findAddressFromFileLocation x file line with
      | Some address =>
          Some {| WasmLocation.scriptId := WebAssemblyFile.scriptID x;
                  WasmLocation.line := JS.pos_zero;
                  WasmLocation.column := address |}
      | None => findAddress_loop rest file line
      end
  end.

Definition findAddressFromFileLocation (this : t) (file : string)
           (line : JS.number) : option WasmLocation.t :=
  findAddress_loop (sources this) file line.

Fixpoint getVariablelist_loop (xs : list WebAssemblyFile)
         (address : option JS.number) : option (list Variable_.t) :=
  match xs with
  | [] => None
  | x :: rest =>
      match WebAssemblyFile.variable_name_list x address with
      | Some (v :: vs) => Some (v :: vs)
      | _ => getVariablelist_loop rest address
      end
  end.

(** The first module whose list is defined and not empty. *)
Definition getVariablelistFromAddress (this : t) (address : option JS.number)
  : option (list Variable_.t) :=
  getVariablelist_loop (sources this) address.

Fixpoint getVariableValue_loop (xs : list WebAssemblyFile) (expr : string)
         (address : option JS.number) (state : WebAssemblyDebugState)
  : option VariableInfo.t :=
  match xs with
  | [] => None
  | x :: rest =>
      match WebAssemblyFile.get_variable_info x expr
              (WebAssemblyDebugState.locals state)
              (WebAssemblyDebugState.globals state)
              (WebAssemblyDebugState.stacks state) address with
      | Some info => Some info
      | None => getVariableValue_loop rest expr address state
      end
  end.

Definition getVariableValue (this : t) (expr : string)
           (address : option JS.number) (state : WebAssemblyDebugState)
  : option VariableInfo.t :=
  getVariableValue_loop (sources this) expr address state.
End WithStore.
Arguments t : clear implicits.
End DebugSession.

(* ===================================================================== *)
(** * Commands: state, effects and exceptions                             *)
(* ===================================================================== *)

(** An [async] method of an object with fields [S] is run to completion:
    it reads the collaborators, updates the fields and the effects, and
    resolves to a value or rejects.  Commands never overlap (one is in
    flight at a time), so a reply is taken where the call is awaited. *)
Module Cmd.
Section WithStore.
Context {WasmValueVector : Type}.

(** The collaborators outside this file: the protocol gateway, InterOp's
    [createWasmValueStore(runtime, args)] (it is handed the Runtime domain
    only) and the two [fs] functions of [showLine]. *)
Record Env := {
  gateway : Gateway;
  createWasmValueStore : list PropertyDescriptor -> RuntimeProg WasmValueVector;
  existsSync : string -> bool;
  readFileSync : string -> string
}.

Record Outcome (S A : Type) := {
  completion : Completion A;
  state : S;
  effects : Effects
}.
Arguments completion {S A} o.
Arguments state {S A} o.
Arguments effects {S A} o.

Definition t (S A : Type) : Type := Env -> S -> Effects -> Outcome S A.

Definition ret {S A} (a : A) : t S A :=
  fun _ s fx => {| completion := Normal a; state := s; effects := fx |}.

Definition throw {S A} (e : Error) : t S A :=
  fun _ s fx => {| completion := Throw e; state := s; effects := fx |}.

Definition bind {S A B} (c : t S A) (k : A -> t S B) : t S B :=
  fun env s fx =>
    let o := c env s fx in
    match completion o with
    | Normal a => k a env (state o) (effects o)
    | Throw e => {| completion := Throw e; state := state o; effects := effects o |}
    end.

Definition get {S} : t S S :=
  fun _ s fx => {| completion := Normal s; state := s; effects := fx |}.

Definition put {S} (s : S) : t S unit :=
  fun _ _ fx => {| completion := Normal tt; state := s; effects := fx |}.

Definition ask {S} : t S Env :=
  fun env s fx => {| completion := Normal env; state := s; effects := fx |}.

Definition emit {S} (f : Effects -> Effects) : t S unit :=
  fun _ s fx => {| completion := Normal tt; state := s; effects := f fx |}.

(** [fx] followed by the console output [entries] *)
Definition with_console (entries : list ConsoleEntry) (fx : Effects) : Effects :=
  {| console := console fx ++ entries;
     requests := requests fx;
     adapterEvents := adapterEvents fx;
     freed := freed fx |}.

(** [console.log(text)], [console.warn(text)] *)
Definition log {S} (entry : ConsoleEntry) : t S unit :=
  emit (with_console [entry]).

(** [debugAdapter.sendEvent(e)] *)
Definition sendEvent {S} (e : AdapterEvent) : t S unit :=
  emit (fun fx => {| console := console fx;
                     requests := requests fx;
                     adapterEvents := adapterEvents fx ++ [e];
                     freed := freed fx |}).

(** [item.free()] for the modules with these script ids *)
Definition free {S} (ids : list string) : t S unit :=
  emit (fun fx => {| console := console fx;
                     requests := requests fx;
                     adapterEvents := adapterEvents fx;
                     freed := freed fx ++ ids |}).

Definition issue (r : Request) (fx : Effects) : Effects :=
  {| console := console fx;
     requests := requests fx ++ [r];
     adapterEvents := adapterEvents fx;
     freed := freed fx |}.

(** [fx] followed by the requests [rs] *)
Definition with_requests (rs : list Request) (fx : Effects) : Effects :=
  {| console := console fx;
     requests := requests fx ++ rs;
     adapterEvents := adapterEvents fx;
     freed := freed fx |}.

(** [await api.method(params)]: the request is issued, the reply awaited. *)
Definition request {S} (r : Request) : t S (Reply r) :=
  fun env s fx =>
    {| completion := gateway env (requests fx) r; state := s; effects := issue r fx |}.

(** [api.method(params)] with the promise dropped. *)
Definition request_forget {S} (r : Request) : t S unit :=
  fun _ s fx => {| completion := Normal tt; state := s; effects := issue r fx |}.

(** Calling an [async] function without awaiting it: its body runs, and how
    it ends is kept in the promise. *)
Definition promise {S A} (c : t S A) : t S (Completion A) :=
  fun env s fx =>
    let o := c env s fx in
    {| completion := Normal (completion o); state := state o; effects := effects o |}.

(** [await Promise.all(promises)], the values dropped: the first rejection
    is thrown (the promises settle in the order they were made). *)
Fixpoint Promise_all {S A} (promises : list (Completion A)) : t S unit :=
  match promises with
  | [] => ret tt
  | Normal _ :: rest => Promise_all rest
  | Throw e :: _ => throw e
  end.

(** [xs.map(f)] for an effectful [f]. *)
Fixpoint mapM {S A B} (f : A -> t S B) (xs : list A) : t S (list B) :=
  match xs with
  | [] => ret []
  | x :: rest =>
      bind (f x) (fun y => bind (mapM f rest) (fun ys => ret (y :: ys)))
  end.

(** A Runtime-only program run against the gateway. *)
Fixpoint run_runtime {S A} (p : RuntimeProg A) : t S A :=
  match p with
  | RRet a => ret a
  | RThrow e => throw e
  | RGetProperties objectId k =>
      fun env s fx =>
        run_runtime (k (gateway env (requests fx) (Runtime_getProperties objectId)))
                    env s (issue (Runtime_getProperties objectId) fx)
  end.

(** A method of an object stored in a field: [c] runs on the object [inner]
    and [store] writes the object back into its owner, however [c] ends. *)
Definition zoom {S I A} (inner : I) (store : I -> S -> S) (c : t I A) : t S A :=
  fun env s fx =>
    let o := c env inner fx in
    {| completion := completion o; state := store (state o) s; effects := effects o |}.

(** [a[i]] followed by a property read: a [TypeError] on [undefined]. *)
Definition defined {S A} (x : option A) : t S A :=
  match x with
  | Some a => ret a
  | None => throw (TypeError "Cannot read properties of undefined")
  end.

End WithStore.
Arguments Env : clear implicits.
Arguments completion {S A} o.
Arguments state {S A} o.
Arguments effects {S A} o.
End Cmd.

Notation "x <- c1 ;; c2" := (Cmd.bind c1 (fun x => c2))
  (at level 61, c1 at next level, right associativity).
Notation "c1 ;; c2" := (Cmd.bind c1 (fun _ => c2))
  (at level 61, right associativity).

(* ===================================================================== *)
(** * The session states                                                  *)
(* ===================================================================== *)

Definition not_paused : ConsoleEntry := console_warn "Debugger not paused!".
Definition not_available : ConsoleEntry := console_log "not available.".

(** [class NormalSessionState]: it has no fields, so its methods run on any
    state [S] and leave it alone. *)
Module NormalSessionState.
Section WithStore.
Context {WasmValueVector : Type} {S : Type}.
Local Abbreviation Cmd A := (Cmd.t (WasmValueVector := WasmValueVector) S A).

Definition stepOver : Cmd unit := Cmd.log not_paused.
Definition stepIn : Cmd unit := Cmd.log not_paused.
Definition stepOut : Cmd unit := Cmd.log not_paused.
Definition continue : Cmd unit := Cmd.log not_paused.

Definition getStackFrames : Cmd (list IRuntimeStackFrame.t) :=
  Cmd.log not_paused ;; Cmd.ret [].

Definition showLine : Cmd unit := Cmd.log not_paused.

Definition listVariable : Cmd (list Variable_.t) :=
  Cmd.log not_paused ;; Cmd.ret [].

Definition dumpVariable : Cmd (option string) :=
  Cmd.log not_paused ;; Cmd.ret None.

Definition setFocusedFrame : Cmd unit := Cmd.log not_paused.

End WithStore.
End NormalSessionState.

Module RuntimeStackFrame.
Section WithStore.
Context {WasmValueVector : Type}.
Record t := {
  frame : CallFrame;
  stack : IRuntimeStackFrame.t;
  state : option (WebAssemblyDebugState.t WasmValueVector)
}.

(** [frame.state = st] *)
Definition set_state (st : WebAssemblyDebugState.t WasmValueVector) (f : t) : t :=
  {| frame := frame f; stack := stack f; state := Some st |}.
End WithStore.
Arguments t : clear implicits.
End RuntimeStackFrame.

(** [class PausedSessionState].  Its [debugger] and [runtime] fields are the
    gateway.  Its [debugSession] field is a reference to the session object
    the manager owns: the methods that read it take the object as their
    first argument, and the manager passes its own. *)
Module PausedSessionState.
Section WithStore.
Context {WasmValueVector : Type}.
Local Abbreviation RuntimeStackFrame := (RuntimeStackFrame.t WasmValueVector).
Local Abbreviation WebAssemblyDebugState := (WebAssemblyDebugState.t WasmValueVector).
Local Abbreviation DebugSession := (DebugSession.t WasmValueVector).

Record t := {
  stackFrames : list RuntimeStackFrame;
  selectedFrameIndex : JS.number
}.

Local Abbreviation Cmd A := (Cmd.t (WasmValueVector := WasmValueVector) t A).

(** [constructor(_debugger, _runtime, _debugSession, _stackFrames)] *)
Definition new (_stackFrames : list RuntimeStackFrame) : t :=
  {| stackFrames := _stackFrames; selectedFrameIndex := JS.pos_zero |}.

Definition stepOver : Cmd unit := Cmd.request Debugger_stepOver.
Definition stepIn : Cmd unit := Cmd.request Debugger_stepOver.
Definition stepOut : Cmd unit := Cmd.request Debugger_stepOut.
Definition continue : Cmd unit := Cmd.request Debugger_resume.

Definition getStackFrames : Cmd (list IRuntimeStackFrame.t) :=
  this <- Cmd.get ;;
  Cmd.ret (map RuntimeStackFrame.stack (stackFrames this)).

Definition setFocusedFrame (index : JS.number) : Cmd unit :=
  this <- Cmd.get ;;
  Cmd.put {| stackFrames := stackFrames this; selectedFrameIndex := index |}.

(** [this.stackFrames[this.selectedFrameIndex]], about to be dereferenced *)
Definition selectedFrame : Cmd RuntimeStackFrame :=
  this <- Cmd.get ;;
  Cmd.defined (JS.array_get (stackFrames this) (selectedFrameIndex this)).

(** The loop of [showLine]: [for (let i = startLine; i <= endLine; i++)].
    [fuel] bounds the iterations; the lines of the file plus one is enough,
    since [endLine] is below the number of lines. *)
Fixpoint showLine_loop (fuel : nat) (lines : list string) (line : JS.number)
         (i endLine : JS.number) : Cmd unit :=
  match fuel with
  | O => Cmd.ret tt
  | S fuel' =>
      if JS.leb i endLine then
        Cmd.log (console_log_line (JS.eqb (JS.add i JS.one) line)
                                  (JS.add i JS.one) (JS.array_get lines i)) ;;
        showLine_loop fuel' lines line (JS.add i JS.one) endLine
      else Cmd.ret tt
  end.

Definition showLine : Cmd unit :=
  frame <- selectedFrame ;;
  env <- Cmd.ask ;;
  let file := IRuntimeStackFrame.file (RuntimeStackFrame.stack frame) in
  let line := IRuntimeStackFrame.line (RuntimeStackFrame.stack frame) in
  if Cmd.existsSync env file then
    let lines :=
      JS.split "010"%char
        (JS.replace_all "009"%char "    " (Cmd.readFileSync env file)) in
    let startLine := JS.Math_max [JS.pos_zero; JS.sub line (JS.of_Z 10)] in
    let endLine :=
      JS.Math_min [JS.sub (JS.of_nat (List.length lines)) JS.one;
                   JS.add line (JS.of_Z 10)] in
    showLine_loop (Datatypes.S (List.length lines)) lines line startLine endLine
  else Cmd.log not_available.

Definition listVariable (debugSession : DebugSession) : Cmd (list Variable_.t) :=
  frame <- selectedFrame ;;
  match DebugSession.getVariablelistFromAddress debugSession
          (IRuntimeStackFrame.instruction (RuntimeStackFrame.stack frame)) with
  | None => Cmd.log not_available ;; Cmd.ret []
  | Some varlist =>
      Cmd.ret (map (fun v => {| Variable_.name := Variable_.name v;
                                Variable_.type := Variable_.type v |}) varlist)
  end.

(** [evaluateMemory(address, size)]: the call frame is [this.stackFrames[0]]. *)
Definition evaluateMemory (address size : JS.number) : Cmd (list JS.number) :=
  this <- Cmd.get ;;
  frame0 <- Cmd.defined (nth_error (stackFrames this) 0) ;;
  value <- Cmd.request
             (Debugger_evaluateOnCallFrame
                (callFrameId (RuntimeStackFrame.frame frame0))
                (Uint8Array_subarray address (JS.add address size))) ;;
  (* Object.values(evalResult.result.value) *)
  Cmd.defined value.

(** [createWasmValueStore(frame)]: the scope chain is read at the fixed
    positions 0 (stack), 1 (locals) and 2 (module, whose [globals] entry is
    followed). *)
Definition createWasmValueStore (frame : CallFrame) : Cmd WebAssemblyDebugState :=
  env <- Cmd.ask ;;
  scope0 <- Cmd.defined (nth_error (scopeChain frame) 0) ;;
  wasmStackObject <- Cmd.request (Runtime_getProperties (objectId (object scope0))) ;;
  first <- Cmd.defined (nth_error wasmStackObject 0) ;;
  firstValue <- Cmd.defined (value first) ;;
  wasmStacks <- Cmd.request (Runtime_getProperties (objectId firstValue)) ;;
  StacksStore <- Cmd.run_runtime (Cmd.createWasmValueStore env wasmStacks) ;;
  scope1 <- Cmd.defined (nth_error (scopeChain frame) 1) ;;
  wasmLocalObject <- Cmd.request (Runtime_getProperties (objectId (object scope1))) ;;
  LocalsStore <- Cmd.run_runtime (Cmd.createWasmValueStore env wasmLocalObject) ;;
  scope2 <- Cmd.defined (nth_error (scopeChain frame) 2) ;;
  wasmModuleObject <- Cmd.request (Runtime_getProperties (objectId (object scope2))) ;;
  wasmGlobalsObject <-
    Cmd.defined (nth_error (filter (fun x => String.eqb (name x) "globals")
                                   wasmModuleObject) 0) ;;
  globalsValue <- Cmd.defined (value wasmGlobalsObject) ;;
  wasmGlobals <- Cmd.request (Runtime_getProperties (objectId globalsValue)) ;;
  GlobalsStore <- Cmd.run_runtime (Cmd.createWasmValueStore env wasmGlobals) ;;
  Cmd.ret {| WebAssemblyDebugState.stacks := StacksStore;
             WebAssemblyDebugState.globals := GlobalsStore;
             WebAssemblyDebugState.locals := LocalsStore |}.

(** [a[n] = f a[n]] on the frame objects of the list *)
Fixpoint update_frame (n : nat) (f : RuntimeStackFrame -> RuntimeStackFrame)
         (frames : list RuntimeStackFrame) : list RuntimeStackFrame :=
  match frames, n with
  | [], _ => []
  | x :: rest, O => f x :: rest
  | x :: rest, Datatypes.S n' => x :: update_frame n' f rest
  end.

(** [frame.state = st], for the frame object read at [index] *)
Definition cache_state (index : JS.number) (st : WebAssemblyDebugState) : Cmd unit :=
  this <- Cmd.get ;;
  match JS.array_index index with
  | Some n =>
      Cmd.put {| stackFrames := update_frame n (RuntimeStackFrame.set_state st)
                                             (stackFrames this);
                 selectedFrameIndex := selectedFrameIndex this |}
  | None => Cmd.ret tt
  end.

Definition dumpVariable (debugSession : DebugSession) (expr : string)
  : Cmd (option string) :=
  this <- Cmd.get ;;
  frame <- selectedFrame ;;
  state <- match RuntimeStackFrame.state frame with
           | Some st => Cmd.ret st
           | None =>
               st <- createWasmValueStore (RuntimeStackFrame.frame frame) ;;
               cache_state (selectedFrameIndex this) st ;;
               Cmd.ret st
           end ;;
  match DebugSession.getVariableValue debugSession expr
          (IRuntimeStackFrame.instruction (RuntimeStackFrame.stack frame)) state with
  | None => Cmd.log not_available ;; Cmd.ret None
  | Some wasmVariable =>
      result <- evaluateMemory (VariableInfo.address wasmVariable)
                               (VariableInfo.byte_size wasmVariable) ;;
      Cmd.ret (VariableInfo.print wasmVariable result)
  end.

End WithStore.
Arguments t : clear implicits.
End PausedSessionState.

(* ===================================================================== *)
(** * The session manager                                                 *)
(* ===================================================================== *)

Module DebugSessionManager.
Section WithStore.
Context {WasmValueVector : Type}.
Local Abbreviation RuntimeStackFrame := (RuntimeStackFrame.t WasmValueVector).
Local Abbreviation PausedSessionState := (PausedSessionState.t WasmValueVector).
Local Abbreviation DebugSession := (DebugSession.t WasmValueVector).

(** The object held by the [sessionState] field: a [NormalSessionState]
    (the session runs) or a [PausedSessionState] with its fields. *)
Inductive SessionState :=
| Running
| Paused (this : PausedSessionState).

(** The fields the manager owns; [debugger], [page], [runtime] and
    [debugAdapter] are the collaborators of [Cmd.Env] and [Effects]. *)
Record t := {
  session : DebugSession;
  breakPoints : list RuntimeBreakPoint.t;
  sessionState : SessionState
}.

Local Abbreviation Cmd A := (Cmd.t (WasmValueVector := WasmValueVector) t A).

Definition DummyThreadID : JS.number := JS.one.

(** [constructor(...)] *)
Definition new : t :=
  {| session := DebugSession.new; breakPoints := []; sessionState := Running |}.

Definition set_session (s : DebugSession) (this : t) : t :=
  {| session := s; breakPoints := breakPoints this; sessionState := sessionState this |}.

Definition set_breakPoints (bps : list RuntimeBreakPoint.t) (this : t) : t :=
  {| session := session this; breakPoints := bps; sessionState := sessionState this |}.

Definition set_sessionState (st : SessionState) (this : t) : t :=
  {| session := session this; breakPoints := breakPoints this; sessionState := st |}.

(** [this.sessionState.method(...)]: the method of the class of the object
    in the field; a paused state reads the manager's session object. *)
Definition dispatch {A}
           (normal : Cmd A)
           (paused : DebugSession -> Cmd.t PausedSessionState A) : Cmd A :=
  this <- Cmd.get ;;
  match sessionState this with
  | Running => normal
  | Paused p =>
      Cmd.zoom p (fun p' => set_sessionState (Paused p')) (paused (session this))
  end.

Definition stepOver : Cmd unit :=
  dispatch NormalSessionState.stepOver (fun _ => PausedSessionState.stepOver).

(** [await this.sessionState.stepOver()] *)
Definition stepIn : Cmd unit :=
  dispatch NormalSessionState.stepOver (fun _ => PausedSessionState.stepOver).

Definition stepOut : Cmd unit :=
  dispatch NormalSessionState.stepOut (fun _ => PausedSessionState.stepOut).

Definition continue : Cmd unit :=
  dispatch NormalSessionState.continue (fun _ => PausedSessionState.continue).

Definition getStackFrames : Cmd (list IRuntimeStackFrame.t) :=
  dispatch NormalSessionState.getStackFrames (fun _ => PausedSessionState.getStackFrames).

(** The call is not awaited. *)
Definition setFocusedFrame (index : JS.number) : Cmd unit :=
  _ <- Cmd.promise (dispatch NormalSessionState.setFocusedFrame
                             (fun _ => PausedSessionState.setFocusedFrame index)) ;;
  Cmd.ret tt.

Definition showLine : Cmd unit :=
  dispatch NormalSessionState.showLine (fun _ => PausedSessionState.showLine).

Definition listVariable : Cmd (list Variable_.t) :=
  dispatch NormalSessionState.listVariable PausedSessionState.listVariable.

Definition dumpVariable (expr : string) : Cmd (option string) :=
  dispatch NormalSessionState.dumpVariable
           (fun debugSession => PausedSessionState.dumpVariable debugSession expr).

Definition setBreakPoint (location : string) : Cmd IBreakPoint.t :=
  let fileInfo := JS.split ":"%char location in
  if Nat.ltb (List.length fileInfo) 2 then
    Cmd.ret {| IBreakPoint.id := None; IBreakPoint.line := None;
               IBreakPoint.column := None; IBreakPoint.verified := false |}
  else
    let debugfilename := nth 0 fileInfo EmptyString in
    let debugline := JS.Number (nth 1 fileInfo EmptyString) in
    this <- Cmd.get ;;
    let wasmLocation :=
      DebugSession.findAddressFromFileLocation (session this) debugfilename debugline in
    bp <- Cmd.request
            (Debugger_setBreakpoint
               (option_map WasmLocation.scriptId wasmLocation)
               (option_map WasmLocation.line wasmLocation)
               (option_map WasmLocation.column wasmLocation)) ;;
    this <- Cmd.get ;;
    let bpID :=
      JS.add (JS.Math_max (map RuntimeBreakPoint.id (breakPoints this))) JS.one in
    Cmd.put (set_breakPoints
               (breakPoints this ++
                [{| RuntimeBreakPoint.id := bpID;
                    RuntimeBreakPoint.rawId := bp;
                    RuntimeBreakPoint.file := debugfilename;
                    RuntimeBreakPoint.line := debugline;
                    RuntimeBreakPoint.column := None |}])
               this) ;;
    Cmd.ret {| IBreakPoint.id := Some bpID; IBreakPoint.line := Some debugline;
               IBreakPoint.column := None; IBreakPoint.verified := true |}.

(** [await this.debugger.removeBreakpoint({ breakpointId: x.rawId })] *)
Definition unregister (x : RuntimeBreakPoint.t) : Cmd unit :=
  Cmd.request (Debugger_removeBreakpoint (RuntimeBreakPoint.rawId x)).

(** The removal requests are issued first (one [async] arrow per matching
    record), then the list is replaced, then the promises are awaited. *)
Definition removeBreakPoint (id : JS.number) : Cmd unit :=
  this <- Cmd.get ;;
  promises <-
    Cmd.mapM (fun x => Cmd.promise (unregister x))
             (filter (fun x => JS.eqb (RuntimeBreakPoint.id x) id) (breakPoints this)) ;;
  this <- Cmd.get ;;
  Cmd.put (set_breakPoints
             (filter (fun x => JS.neb (RuntimeBreakPoint.id x) id) (breakPoints this))
             this) ;;
  Cmd.Promise_all promises.

Definition removeAllBreakPoints (path : string) : Cmd unit :=
  this <- Cmd.get ;;
  promises <-
    Cmd.mapM (fun x => Cmd.promise (unregister x))
             (filter (fun x => String.eqb (RuntimeBreakPoint.file x) path) (breakPoints this)) ;;
  this <- Cmd.get ;;
  Cmd.put (set_breakPoints
             (filter (fun x => negb (String.eqb (RuntimeBreakPoint.file x) path))
                     (breakPoints this))
             this) ;;
  Cmd.Promise_all promises.

Definition getBreakPointsList (location : string) : Cmd (list ListedBreakPoint.t) :=
  let fileInfo := JS.split ":"%char location in
  if Nat.ltb (List.length fileInfo) 2 then Cmd.ret []
  else
    let debugfilename := nth 0 fileInfo EmptyString in
    let debugline := JS.Number (nth 1 fileInfo EmptyString) in
    this <- Cmd.get ;;
    Cmd.ret (map (fun x => {| ListedBreakPoint.breakPoint := x;
                              ListedBreakPoint.verified := true |})
                 (filter (fun x => String.eqb (RuntimeBreakPoint.file x) debugfilename
                                   && JS.eqb (RuntimeBreakPoint.line x) debugline)
                         (breakPoints this))).

Definition jumpToPage (url : string) : Cmd unit :=
  Cmd.request_forget (Page_navigate url).

(** The frame built for call frame [v] at position [i] of a pause. *)
Definition stackFrame_of (session : DebugSession) (v : CallFrame) (i : nat)
  : RuntimeStackFrame :=
  let dwarfLocation := DebugSession.findFileFromLocation session (location v) in
  {| RuntimeStackFrame.frame := v;
     RuntimeStackFrame.stack :=
       {| IRuntimeStackFrame.index := i;
          IRuntimeStackFrame.name := functionName v;
          IRuntimeStackFrame.instruction := columnNumber (location v);
          IRuntimeStackFrame.file :=
            match dwarfLocation with
            | Some d => JS.or_string (DwarfSourceLocation.file d) (url v)
            | None => url v
            end;
          IRuntimeStackFrame.line :=
            match dwarfLocation with
            | Some d => JS.or_number (DwarfSourceLocation.line d)
                                     (lineNumber (location v))
            | None => lineNumber (location v)
            end;
          IRuntimeStackFrame.column := None |};
     RuntimeStackFrame.state := None |}.

Definition onPaused (e : PausedEvent) : Cmd unit :=
  Cmd.log (console_log "Hit BreakPointMapping") ;;
  this <- Cmd.get ;;
  let stackFrames := JS.mapi (stackFrame_of (session this)) (callFrames e) in
  Cmd.put (set_sessionState (Paused (PausedSessionState.new stackFrames)) this) ;;
  Cmd.sendEvent (StoppedEvent "BreakPointMapping" DummyThreadID).

Definition onResumed : Cmd unit :=
  this <- Cmd.get ;;
  Cmd.put (set_sessionState Running this).

Definition onLoad : Cmd unit :=
  Cmd.log (console_log "Page navigated.") ;;
  this <- Cmd.get ;;
  let '(ids, session') := DebugSession.reset (session this) in
  Cmd.free ids ;;
  Cmd.put (set_session session' this).

End WithStore.
Arguments t : clear implicits.
Arguments SessionState : clear implicits.
End DebugSessionManager.

(* ===================================================================== *)
(** * Concrete collaborators, for the examples                            *)
(* ===================================================================== *)

Module Examples.

(** A gateway that resolves every request: breakpoint ids are [bp], objects
    have no properties and evaluations yield the bytes 1, 2. *)
Definition resolving : Gateway :=
  fun _ r =>
    match r return Completion (Reply r) with
    | Debugger_setBreakpoint _ _ _ => Normal "bp"
    | Runtime_getProperties _ => Normal []
    | Debugger_evaluateOnCallFrame _ _ => Normal (Some [JS.of_Z 1; JS.of_Z 2])
    | _ => Normal tt
    end.

(** A gateway that rejects every request. *)
Definition rejecting : Gateway :=
  fun _ r =>
    match r return Completion (Reply r) with
    | Debugger_setBreakpoint _ _ _ => Throw (ProtocolError "rejected")
    | Runtime_getProperties _ => Throw (ProtocolError "rejected")
    | Debugger_evaluateOnCallFrame _ _ => Throw (ProtocolError "rejected")
    | _ => Throw (ProtocolError "rejected")
    end.

(** The store of values is left abstract by the session; [unit] will do. *)
Definition env (g : Gateway) : Cmd.Env unit :=
  {| Cmd.gateway := g;
     Cmd.createWasmValueStore := fun _ => RRet tt;
     Cmd.existsSync := fun _ => false;
     Cmd.readFileSync := fun _ => EmptyString |}.

(** A module with script id [id] whose debug information knows one
    address: [address] is [file:line], and back. *)
Definition module_ (id : string) (address : JS.number) (file : string)
           (line : JS.number) : WebAssemblyFile.t unit :=
  {| WebAssemblyFile.scriptID := id;
     WebAssemblyFile.findFileFromLocation := fun loc =>
       match columnNumber loc with
       | Some a =>
           if JS.same_value a address
           then Some {| DwarfSourceLocation.file := file;
                        DwarfSourceLocation.line := line |}
           else None
       | None => None
       end;
     WebAssemblyFile.findAddressFromFileLocation := fun f l =>
       if String.eqb f file && JS.same_value l line then Some address else None;
     WebAssemblyFile.variable_name_list := fun _ => None;
     WebAssemblyFile.get_variable_info := fun expr _ _ _ _ =>
       if String.eqb expr "x"
       then Some {| VariableInfo.address := JS.of_Z 1024;
                    VariableInfo.byte_size := JS.of_Z 4;
                    VariableInfo.print := fun _ => Some "x = 1" |}
       else None |}.

(** A module that knows nothing. *)
Definition silent_module (id : string) : WebAssemblyFile.t unit :=
  {| WebAssemblyFile.scriptID := id;
     WebAssemblyFile.findFileFromLocation := fun _ => None;
     WebAssemblyFile.findAddressFromFileLocation := fun _ _ => None;
     WebAssemblyFile.variable_name_list := fun _ => None;
     WebAssemblyFile.get_variable_info := fun _ _ _ _ _ => None |}.

(** A call frame of script [id] stopped at byte offset [offset], reported
    by the protocol at line [line] of [url]. *)
Definition callFrame (frameId id : string) (line : JS.number) (offset : Z)
  : CallFrame :=
  {| callFrameId := frameId;
     functionName := "main";
     location := {| scriptId := id; lineNumber := line;
                    columnNumber := Some (JS.of_Z offset) |};
     url := "wasm://wasm/module";
     scopeChain := [] |}.

(** A manager as two [setBreakPoint] calls leave it: both records carry
    the id [-Infinity]. *)
Definition two_breakPoints : DebugSessionManager.t unit :=
  DebugSessionManager.set_breakPoints
    [{| RuntimeBreakPoint.id := JS.neg_Infinity; RuntimeBreakPoint.rawId := "1:0:16";
        RuntimeBreakPoint.file := "main.c"; RuntimeBreakPoint.line := JS.of_Z 5;
        RuntimeBreakPoint.column := None |};
     {| RuntimeBreakPoint.id := JS.neg_Infinity; RuntimeBreakPoint.rawId := "1:0:32";
        RuntimeBreakPoint.file := "main.c"; RuntimeBreakPoint.line := JS.of_Z 6;
        RuntimeBreakPoint.column := None |}]
    DebugSessionManager.new.

(** A session with one module, paused in two frames of it; the user has
    focused frame 1, whose value store is already cached. *)
Definition one_module : DebugSession.t unit :=
  DebugSession.loadedWebAssembly DebugSession.new
    (module_ "1" (JS.of_Z 16) "main.c" (JS.of_Z 5)).

Definition store : WebAssemblyDebugState.t unit :=
  {| WebAssemblyDebugState.stacks := tt;
     WebAssemblyDebugState.locals := tt;
     WebAssemblyDebugState.globals := tt |}.

Definition two_frames : PausedSessionState.t unit :=
  {| PausedSessionState.stackFrames :=
       [DebugSessionManager.stackFrame_of one_module
          (callFrame "frame-0" "1" JS.pos_zero 16) 0;
        RuntimeStackFrame.set_state store
          (DebugSessionManager.stackFrame_of one_module
             (callFrame "frame-1" "1" JS.pos_zero 40) 1)];
     PausedSessionState.selectedFrameIndex := JS.of_Z 1 |}.

Definition paused_in_two_frames : DebugSessionManager.t unit :=
  {| DebugSessionManager.session := one_module;
     DebugSessionManager.breakPoints := [];
     DebugSessionManager.sessionState := DebugSessionManager.Paused two_frames |}.

End Examples.

(** The id a [setBreakPoint] call handed out, if it did. *)
Definition allocated {S : Type} (o : Cmd.Outcome S IBreakPoint.t) : option JS.number :=
  match Cmd.completion o with
  | Normal b => IBreakPoint.id b
  | Throw _ => None
  end.

(** ** Specifications of commands *)

(** The call frame id of [this.stackFrames[0]], when there is one. *)
Definition frame0_id {WasmValueVector : Type}
           (this : PausedSessionState.t WasmValueVector) : option string :=
  option_map (fun f => callFrameId (RuntimeStackFrame.frame f))
             (nth_error (PausedSessionState.stackFrames this) 0).

(** Started in a state that satisfies [I], the command [c] ends in one that
    does, and every request it issues satisfies [P]. *)
Definition issues {WasmValueVector S A : Type} (I : S -> Prop) (P : Request -> Prop)
           (c : Cmd.t (WasmValueVector := WasmValueVector) S A) : Prop :=
  forall env s fx,
    I s ->
    I (Cmd.state (c env s fx)) /\
    exists new, requests (Cmd.effects (c env s fx)) = (requests fx ++ new)%list /\
                Forall P new.

(** The request reads memory on the call frame [id], or reads no memory. *)
Definition on_frame (id : option string) (r : Request) : Prop :=
  match r with
  | Debugger_evaluateOnCallFrame callFrameId _ => id = Some callFrameId
  | _ => True
  end.

(** ** Further fixtures *)

Module MoreExamples.

(** A module that lists [vars] at every address and resolves nothing. *)
Definition listing (id : string) (vars : list Variable_.t) : WebAssemblyFile.t unit :=
  {| WebAssemblyFile.scriptID := id;
     WebAssemblyFile.findFileFromLocation := fun _ => None;
     WebAssemblyFile.findAddressFromFileLocation := fun _ _ => None;
     WebAssemblyFile.variable_name_list := fun _ => Some vars;
     WebAssemblyFile.get_variable_info := fun _ _ _ _ _ => None |}.

Definition argc : Variable_.t := {| Variable_.name := "argc"; Variable_.type := "int" |}.
Definition argv : Variable_.t := {| Variable_.name := "argv"; Variable_.type := "char**" |}.

(** Three modules: the first lists nothing, the second an empty list, the
    third two variables. *)
Definition three_modules : DebugSession.t unit :=
  DebugSession.loadedWebAssembly
    (DebugSession.loadedWebAssembly
       (DebugSession.loadedWebAssembly DebugSession.new (Examples.silent_module "1"))
       (listing "2" []))
    (listing "3" [argc; argv]).

(** Paused in one frame of the third module, focus on it. *)
Definition paused_in_third : DebugSessionManager.t unit :=
  {| DebugSessionManager.session := three_modules;
     DebugSessionManager.breakPoints := [];
     DebugSessionManager.sessionState :=
       DebugSessionManager.Paused
         (PausedSessionState.new
            [DebugSessionManager.stackFrame_of three_modules
               (Examples.callFrame "frame-0" "3" JS.pos_zero 64) 0]) |}.

(** A call frame with the three scopes the session expects: the stack
    scope, the locals scope and the module scope. *)
Definition scoped_frame : CallFrame :=
  {| callFrameId := "frame-0";
     functionName := "main";
     location := {| scriptId := "1"; lineNumber := JS.pos_zero;
                    columnNumber := Some (JS.of_Z 16) |};
     url := "wasm://wasm/module";
     scopeChain := [{| object := {| objectId := Some "stack" |} |};
                    {| object := {| objectId := Some "locals" |} |};
                    {| object := {| objectId := Some "module" |} |}] |}.

(** A gateway for [scoped_frame]: the stack scope has one property, the
    module scope has a [globals] property, every other object has none;
    breakpoints and evaluations are answered as by [Examples.resolving]. *)
Definition scoped : Gateway :=
  fun history r =>
    match r return Completion (Reply r) with
    | Runtime_getProperties (Some id) =>
        if String.eqb id "stack"
        then Normal [{| name := "stack";
                        value := Some {| objectId := Some "stack-values" |} |}]
        else if String.eqb id "module"
        then Normal [{| name := "memories"; value := None |};
                     {| name := "globals";
                        value := Some {| objectId := Some "global-values" |} |}]
        else Normal []
    | r' => Examples.resolving history r'
    end.

(** Paused in [scoped_frame], whose store is not built yet. *)
Definition paused_unbuilt : DebugSessionManager.t unit :=
  {| DebugSessionManager.session := Examples.one_module;
     DebugSessionManager.breakPoints := [];
     DebugSessionManager.sessionState :=
       DebugSessionManager.Paused
         (PausedSessionState.new
            [DebugSessionManager.stackFrame_of Examples.one_module scoped_frame 0]) |}.





End MoreExamples.

(** ** Decimal literals *)

(** The character of the decimal digit [d]. *)
Definition digit (d : nat) : ascii := ascii_of_nat (48 + d).

(** The string of the digits [ds], most significant first, and the integer
    it denotes. *)
Definition digits_string (ds : list nat) : string :=
  string_of_list_ascii (map digit ds).

Definition digits_value (ds : list nat) : Z :=
  fold_left (fun acc d => (acc * 10 + Z.of_nat d)%Z) ds 0%Z.

(** The string is made of white space only. *)
Definition blank (s : string) : bool :=
  forallb JS.is_white_space (list_ascii_of_string s).

(** ** What a command leaves alone *)

(** The paused state [p'] holds the call frames and the stack entries of
    [p], in the same order (the focus and the cached stores may differ). *)
Definition same_stack {WasmValueVector : Type}
           (p p' : PausedSessionState.t WasmValueVector) : Prop :=
  map RuntimeStackFrame.frame (PausedSessionState.stackFrames p') =
    map RuntimeStackFrame.frame (PausedSessionState.stackFrames p) /\
  map RuntimeStackFrame.stack (PausedSessionState.stackFrames p') =
    map RuntimeStackFrame.stack (PausedSessionState.stackFrames p).

(** The manager [m'] is in the session state of [m]: running, or paused on
    the same stack. *)
Definition same_mode {WasmValueVector : Type}
           (m m' : DebugSessionManager.t WasmValueVector) : Prop :=
  match DebugSessionManager.sessionState m, DebugSessionManager.sessionState m' with
  | DebugSessionManager.Running, DebugSessionManager.Running => True
  | DebugSessionManager.Paused p, DebugSessionManager.Paused p' => same_stack p p'
  | _, _ => False
  end.

(** The command never touches the module list and never leaves the session
    state it was started in. *)
Definition keeps_session_and_mode {WasmValueVector A : Type}
           (c : Cmd.t (WasmValueVector := WasmValueVector)
                      (DebugSessionManager.t WasmValueVector) A) : Prop :=
  forall env m fx,
    DebugSessionManager.session (Cmd.state (c env m fx)) = DebugSessionManager.session m /\
    same_mode m (Cmd.state (c env m fx)).

(** The command never touches the breakpoint registry. *)
Definition keeps_registry {WasmValueVector A : Type}
           (c : Cmd.t (WasmValueVector := WasmValueVector)
                      (DebugSessionManager.t WasmValueVector) A) : Prop :=
  forall env m fx,
    DebugSessionManager.breakPoints (Cmd.state (c env m fx)) =
    DebugSessionManager.breakPoints m.

(** The command issues no request at all. *)
Definition no_request (r : Request) : Prop := False.

(** The command issues requests of the Runtime domain only. *)
Definition runtime_only (r : Request) : Prop :=
  match r with
  | Runtime_getProperties _ => True
  | _ => False
  end.

(** The request does not read memory. *)
Definition no_memory_read (r : Request) : Prop :=
  match r with
  | Debugger_evaluateOnCallFrame _ _ => False
  | _ => True
  end.

(* ===================================================================== *)
(** * Properties                                                          *)
(* ===================================================================== *)

(** ** Splitting a location *)

Lemma split_not_nil (sep : ascii) (s : string) : JS.split sep s <> [].
Proof.
  destruct s as [|c rest]; simpl; [discriminate|].
  destruct (Ascii.eqb c sep); [discriminate|].
  destruct (JS.split sep rest); discriminate.
Qed.

(** Without a separator the string is the only piece. *)
Lemma split_without_separator (sep : ascii) (s : string) :
  JS.includes sep s = false -> JS.split sep s = [s].
Proof.
  induction s as [|c rest IH]; simpl; intros H; [reflexivity|].
  apply orb_false_iff in H. destruct H as [Hc Hrest].
  rewrite Hc, (IH Hrest). reflexivity.
Qed.

(** With a separator there are at least two pieces. *)
Lemma split_with_separator (sep : ascii) (s : string) :
  JS.includes sep s = true -> 2 <= List.length (JS.split sep s).
Proof.
  induction s as [|c rest IH]; simpl; intros H; [discriminate|].
  destruct (Ascii.eqb c sep) eqn:Hc; simpl in *.
  - pose proof (split_not_nil sep rest) as Hn.
    destruct (JS.split sep rest); [congruence | simpl; lia].
  - specialize (IH H).
    destruct (JS.split sep rest); simpl in *; lia.
Qed.

(** ** Setting a breakpoint *)

Section SetBreakPoint.
Context {WasmValueVector : Type}.
Implicit Types (env : Cmd.Env WasmValueVector)
               (m : DebugSessionManager.t WasmValueVector)
               (fx : Effects).

(** The early return of [setBreakPoint]. *)
Lemma setBreakPoint_malformed env m fx (location : string) :
  JS.includes ":"%char location = false ->
  DebugSessionManager.setBreakPoint location env m fx =
  {| Cmd.completion :=
       Normal {| IBreakPoint.id := None; IBreakPoint.line := None;
                 IBreakPoint.column := None; IBreakPoint.verified := false |};
     Cmd.state := m;
     Cmd.effects := fx |}.
Proof.
  intros Hsep. unfold DebugSessionManager.setBreakPoint.
  rewrite (split_without_separator _ _ Hsep). reflexivity.
Qed.

(** The path of [setBreakPoint] past the early return, when the gateway
    resolves the request with [bp]. *)
Lemma setBreakPoint_resolved env m fx (location bp : string) :
  let fileInfo := JS.split ":"%char location in
  let debugfilename := nth 0 fileInfo EmptyString in
  let debugline := JS.Number (nth 1 fileInfo EmptyString) in
  let wasmLocation :=
    DebugSession.findAddressFromFileLocation
      (DebugSessionManager.session m) debugfilename debugline in
  let r := Debugger_setBreakpoint
             (option_map WasmLocation.scriptId wasmLocation)
             (option_map WasmLocation.line wasmLocation)
             (option_map WasmLocation.column wasmLocation) in
  let bpID :=
    JS.add (JS.Math_max (map RuntimeBreakPoint.id (DebugSessionManager.breakPoints m)))
           JS.one in
  JS.includes ":"%char location = true ->
  Cmd.gateway env (requests fx) r = Normal bp ->
  DebugSessionManager.setBreakPoint location env m fx =
  {| Cmd.completion :=
       Normal {| IBreakPoint.id := Some bpID; IBreakPoint.line := Some debugline;
                 IBreakPoint.column := None; IBreakPoint.verified := true |};
     Cmd.state :=
       DebugSessionManager.set_breakPoints
         (DebugSessionManager.breakPoints m ++
          [{| RuntimeBreakPoint.id := bpID;
              RuntimeBreakPoint.rawId := bp;
              RuntimeBreakPoint.file := debugfilename;
              RuntimeBreakPoint.line := debugline;
              RuntimeBreakPoint.column := None |}]) m;
     Cmd.effects := Cmd.issue r fx |}.
Proof.
  intros fileInfo debugfilename debugline wasmLocation r bpID Hsep Hreply.
  unfold DebugSessionManager.setBreakPoint.
  pose proof (split_with_separator _ _ Hsep) as Hlen.
  fold fileInfo in Hlen |- *.
  destruct (Nat.ltb_spec (List.length fileInfo) 2) as [Hlt|_]; [lia|].
  unfold Cmd.bind, Cmd.get, Cmd.request, Cmd.put, Cmd.ret. cbn.
  fold debugfilename debugline wasmLocation r.
  rewrite Hreply. reflexivity.
Qed.

(** When the gateway rejects the request the rejection is thrown on, and
    nothing is allocated or stored. *)
Lemma setBreakPoint_rejected env m fx (location : string) (e : Error) :
  let fileInfo := JS.split ":"%char location in
  let debugfilename := nth 0 fileInfo EmptyString in
  let debugline := JS.Number (nth 1 fileInfo EmptyString) in
  let wasmLocation :=
    DebugSession.findAddressFromFileLocation
      (DebugSessionManager.session m) debugfilename debugline in
  let r := Debugger_setBreakpoint
             (option_map WasmLocation.scriptId wasmLocation)
             (option_map WasmLocation.line wasmLocation)
             (option_map WasmLocation.column wasmLocation) in
  JS.includes ":"%char location = true ->
  Cmd.gateway env (requests fx) r = Throw e ->
  DebugSessionManager.setBreakPoint location env m fx =
  {| Cmd.completion := Throw e; Cmd.state := m; Cmd.effects := Cmd.issue r fx |}.
Proof.
  intros fileInfo debugfilename debugline wasmLocation r Hsep Hreply.
  unfold DebugSessionManager.setBreakPoint.
  pose proof (split_with_separator _ _ Hsep) as Hlen.
  fold fileInfo in Hlen |- *.
  destruct (Nat.ltb_spec (List.length fileInfo) 2) as [Hlt|_]; [lia|].
  unfold Cmd.bind, Cmd.get, Cmd.request, Cmd.put, Cmd.ret. cbn.
  fold debugfilename debugline wasmLocation r.
  rewrite Hreply. reflexivity.
Qed.

(** C5: a location without a [:] gives [{ verified: false }] (no id), no
    request reaches the gateway and the manager, its breakpoint registry
    included, is left as it was. *)
Theorem setBreakPoint_without_separator env m fx (location : string) :
  JS.includes ":"%char location = false ->
  let o := DebugSessionManager.setBreakPoint location env m fx in
  Cmd.completion o =
    Normal {| IBreakPoint.id := None; IBreakPoint.line := None;
              IBreakPoint.column := None; IBreakPoint.verified := false |} /\
  requests (Cmd.effects o) = requests fx /\
  Cmd.effects o = fx /\
  DebugSessionManager.breakPoints (Cmd.state o) = DebugSessionManager.breakPoints m /\
  Cmd.state o = m.
Proof.
  intros Hsep o. subst o. rewrite (setBreakPoint_malformed env m fx location Hsep).
  repeat split.
Qed.

(** C10, as amended: for a location with a [:], when the gateway resolves
    the [setBreakpoint] request with [bp], the manager allocates
    [Math.max(ids) + 1], appends the record and returns it with
    [verified: true]; the line is whatever [Number] makes of the second
    piece ([NaN] when it is no numeric literal) and the request carries the
    fields of the resolved address, each [undefined] when no module
    resolves the location. *)
Theorem setBreakPoint_with_separator env m fx (location bp : string) :
  let fileInfo := JS.split ":"%char location in
  let debugfilename := nth 0 fileInfo EmptyString in
  let debugline := JS.Number (nth 1 fileInfo EmptyString) in
  let wasmLocation :=
    DebugSession.findAddressFromFileLocation
      (DebugSessionManager.session m) debugfilename debugline in
  let r := Debugger_setBreakpoint
             (option_map WasmLocation.scriptId wasmLocation)
             (option_map WasmLocation.line wasmLocation)
             (option_map WasmLocation.column wasmLocation) in
  let bpID :=
    JS.add (JS.Math_max (map RuntimeBreakPoint.id (DebugSessionManager.breakPoints m)))
           JS.one in
  let o := DebugSessionManager.setBreakPoint location env m fx in
  JS.includes ":"%char location = true ->
  Cmd.gateway env (requests fx) r = Normal bp ->
  Cmd.completion o =
    Normal {| IBreakPoint.id := Some bpID; IBreakPoint.line := Some debugline;
              IBreakPoint.column := None; IBreakPoint.verified := true |} /\
  DebugSessionManager.breakPoints (Cmd.state o) =
    (DebugSessionManager.breakPoints m ++
     [{| RuntimeBreakPoint.id := bpID;
         RuntimeBreakPoint.rawId := bp;
         RuntimeBreakPoint.file := debugfilename;
         RuntimeBreakPoint.line := debugline;
         RuntimeBreakPoint.column := None |}])%list /\
  Cmd.effects o = Cmd.issue r fx /\
  (wasmLocation = None -> r = Debugger_setBreakpoint None None None).
Proof.
  intros fileInfo debugfilename debugline wasmLocation r bpID o Hsep Hreply.
  subst o. rewrite (setBreakPoint_resolved env m fx location bp Hsep Hreply).
  repeat split. intros Hnone. subst r. rewrite Hnone. reflexivity.
Qed.

End SetBreakPoint.

Lemma setBreakPoint_without_separator_witness :
  let o := DebugSessionManager.setBreakPoint "main.c"
             (Examples.env Examples.resolving) DebugSessionManager.new no_effects in
  JS.includes ":"%char "main.c" = false /\
  Cmd.completion o =
    Normal {| IBreakPoint.id := None; IBreakPoint.line := None;
              IBreakPoint.column := None; IBreakPoint.verified := false |} /\
  requests (Cmd.effects o) = [] /\
  Cmd.effects o = no_effects /\
  DebugSessionManager.breakPoints (Cmd.state o) = [] /\
  Cmd.state o = DebugSessionManager.new.
Proof.
  split; [reflexivity|].
  apply (setBreakPoint_without_separator
           (Examples.env Examples.resolving) DebugSessionManager.new no_effects "main.c").
  reflexivity.
Defined.

(** No module is loaded and [abc] is no number: the request goes out with
    undefined fields, the line is [NaN], and the result is verified. *)
Lemma setBreakPoint_with_separator_witness :
  let o := DebugSessionManager.setBreakPoint "main.c:abc"
             (Examples.env Examples.resolving) DebugSessionManager.new no_effects in
  JS.includes ":"%char "main.c:abc" = true /\
  (Cmd.completion o =
     Normal {| IBreakPoint.id := Some JS.neg_Infinity;
               IBreakPoint.line := Some JS.NaN;
               IBreakPoint.column := None; IBreakPoint.verified := true |} /\
   DebugSessionManager.breakPoints (Cmd.state o) =
     [{| RuntimeBreakPoint.id := JS.neg_Infinity;
         RuntimeBreakPoint.rawId := "bp";
         RuntimeBreakPoint.file := "main.c";
         RuntimeBreakPoint.line := JS.NaN;
         RuntimeBreakPoint.column := None |}] /\
   Cmd.effects o = Cmd.issue (Debugger_setBreakpoint None None None) no_effects).
Proof.
  split; [reflexivity|].
  destruct (setBreakPoint_with_separator
              (Examples.env Examples.resolving) DebugSessionManager.new no_effects
              "main.c:abc" "bp" eq_refl eq_refl) as (Hresult & Hstored & Hrequest & _).
  repeat split; assumption.
Defined.

(** C10, as stated, fails when the gateway rejects the request: the
    rejection is what the caller gets and no record is stored. *)
Lemma setBreakPoint_rejected_by_gateway :
  let o := DebugSessionManager.setBreakPoint "main.c:5"
             (Examples.env Examples.rejecting) DebugSessionManager.new no_effects in
  JS.includes ":"%char "main.c:5" = true /\
  Cmd.completion o = Throw (ProtocolError "rejected") /\
  DebugSessionManager.breakPoints (Cmd.state o) = [] /\
  ~ (exists b, Cmd.completion o = Normal b /\ IBreakPoint.verified b = true).
Proof.
  cbv zeta. repeat split.
  intros [b [H _]]. discriminate H.
Qed.

(** C1: on an empty registry the allocated id is [-Infinity], not 1
    ([Math.max()] of nothing is [-Infinity], and [-Infinity + 1] is
    [-Infinity]); the next id is [-Infinity] again, so two calls without a
    removal between them do not hand out increasing ids. *)
Theorem setBreakPoint_ids_on_empty_registry :
  let env := Examples.env Examples.resolving in
  let first := DebugSessionManager.setBreakPoint "main.c:5" env
                 DebugSessionManager.new no_effects in
  let second := DebugSessionManager.setBreakPoint "main.c:6" env
                  (Cmd.state first) (Cmd.effects first) in
  allocated first = Some JS.neg_Infinity /\
  allocated first <> Some JS.one /\
  allocated second = allocated first /\
  (forall id1 id2, allocated first = Some id1 -> allocated second = Some id2 ->
                   JS.ltb id1 id2 = false).
Proof.
  cbv zeta. split; [reflexivity|]. split; [discriminate|]. split; [reflexivity|].
  intros id1 id2 H1 H2. injection H1 as <-. injection H2 as <-. reflexivity.
Qed.

(** From a registry whose ids are all [-Infinity], the empty one included,
    every id handed out is [-Infinity] again. *)
Lemma Math_max_neg_Infinity (l : list JS.number) :
  Forall (fun x => x = JS.neg_Infinity) l ->
  JS.add (JS.Math_max l) JS.one = JS.neg_Infinity.
Proof.
  unfold JS.Math_max. induction 1 as [|x l Hx _ IH]; [reflexivity|].
  subst x. simpl. exact IH.
Qed.

Lemma setBreakPoint_keeps_neg_Infinity {WasmValueVector : Type}
      (env : Cmd.Env WasmValueVector) m fx (location : string) :
  let o := DebugSessionManager.setBreakPoint location env m fx in
  Forall (fun b => RuntimeBreakPoint.id b = JS.neg_Infinity)
         (DebugSessionManager.breakPoints m) ->
  Forall (fun b => RuntimeBreakPoint.id b = JS.neg_Infinity)
         (DebugSessionManager.breakPoints (Cmd.state o)) /\
  (allocated o = None \/ allocated o = Some JS.neg_Infinity).
Proof.
  intros o Hall. subst o.
  assert (Hmax : JS.add (JS.Math_max (map RuntimeBreakPoint.id
                                          (DebugSessionManager.breakPoints m)))
                        JS.one = JS.neg_Infinity).
  { apply Math_max_neg_Infinity. rewrite Forall_map. exact Hall. }
  destruct (JS.includes ":"%char location) eqn:Hsep.
  - pose proof (setBreakPoint_resolved env m fx location) as Hset.
    cbv zeta in Hset.
    match type of Hset with
    | forall bp, _ -> Cmd.gateway env ?h ?r = _ -> _ =>
        destruct (Cmd.gateway env h r) as [bp|e] eqn:Hreply; clear Hset
    end.
    + rewrite (setBreakPoint_resolved env m fx location bp Hsep Hreply).
      unfold allocated.
      cbn [Cmd.completion Cmd.state Cmd.effects IBreakPoint.id
           DebugSessionManager.set_breakPoints DebugSessionManager.breakPoints].
      rewrite Hmax. split; [|right; reflexivity].
      apply Forall_app. split; [exact Hall|]. constructor; [reflexivity|constructor].
    + rewrite (setBreakPoint_rejected env m fx location e Hsep Hreply).
      split; [exact Hall|left; reflexivity].
  - rewrite (setBreakPoint_malformed env m fx location Hsep).
    split; [exact Hall|left; reflexivity].
Qed.

(** ** Running a command *)

Lemma bind_eval {WasmValueVector S A B : Type}
      (c : Cmd.t (WasmValueVector := WasmValueVector) S A) (k : A -> Cmd.t S B)
      (env : Cmd.Env WasmValueVector) (s : S) (fx : Effects) :
  (x <- c ;; k x) env s fx =
  match Cmd.completion (c env s fx) with
  | Normal a => k a env (Cmd.state (c env s fx)) (Cmd.effects (c env s fx))
  | Throw e => {| Cmd.completion := Throw e;
                  Cmd.state := Cmd.state (c env s fx);
                  Cmd.effects := Cmd.effects (c env s fx) |}
  end.
Proof. reflexivity. Qed.

(** ** Removing a breakpoint *)

Lemma with_requests_nil (fx : Effects) : Cmd.with_requests [] fx = fx.
Proof.
  destruct fx. unfold Cmd.with_requests. simpl. rewrite app_nil_r. reflexivity.
Qed.

Lemma with_requests_issue (r : Request) (rs : list Request) (fx : Effects) :
  Cmd.with_requests rs (Cmd.issue r fx) = Cmd.with_requests (r :: rs) fx.
Proof.
  unfold Cmd.with_requests, Cmd.issue. simpl. rewrite <- app_assoc. reflexivity.
Qed.

Lemma filter_filter_negb {A : Type} (p : A -> bool) (l : list A) :
  filter p (filter (fun x => negb (p x)) l) = [].
Proof.
  induction l as [|x l IH]; simpl; [reflexivity|].
  destruct (p x) eqn:Hp; simpl; [exact IH|].
  rewrite Hp. exact IH.
Qed.

(** [x == x] holds for every number but [NaN]. *)
Lemma eqb_refl (x : JS.number) : JS.is_nan x = false -> JS.eqb x x = true.
Proof.
  unfold JS.eqb, SFeqb. destruct x as [s|s| |s m e]; simpl; intros H;
    try discriminate; try reflexivity.
  - destruct s; reflexivity.
  - rewrite Z.compare_refl, Pos.compare_cont_refl. destruct s; reflexivity.
Qed.

Section RemoveBreakPoint.
Context {WasmValueVector : Type}.
Implicit Types (env : Cmd.Env WasmValueVector)
               (m : DebugSessionManager.t WasmValueVector)
               (fx : Effects).

Lemma promise_unregister env m fx (x : RuntimeBreakPoint.t) :
  Cmd.promise (DebugSessionManager.unregister x) env m fx =
  {| Cmd.completion :=
       Normal (Cmd.gateway env (requests fx)
                           (Debugger_removeBreakpoint (RuntimeBreakPoint.rawId x)));
     Cmd.state := m;
     Cmd.effects := Cmd.issue (Debugger_removeBreakpoint (RuntimeBreakPoint.rawId x)) fx |}.
Proof. reflexivity. Qed.

(** The [map] of [removeBreakPoint]: one request per record, in order; the
    manager is not touched and one promise per record comes back. *)
Lemma unregister_each env m fx (xs : list RuntimeBreakPoint.t) :
  let o := Cmd.mapM (fun x => Cmd.promise (DebugSessionManager.unregister x)) xs env m fx in
  (exists promises, Cmd.completion o = Normal promises /\
                    List.length promises = List.length xs) /\
  Cmd.state o = m /\
  Cmd.effects o =
    Cmd.with_requests
      (map (fun x => Debugger_removeBreakpoint (RuntimeBreakPoint.rawId x)) xs) fx.
Proof.
  revert fx. induction xs as [|x xs IH]; intros fx; cbv zeta; cbn [Cmd.mapM map].
  - split; [exists []; split; reflexivity|].
    split; [reflexivity|]. symmetry. apply with_requests_nil.
  - specialize (IH (Cmd.issue (Debugger_removeBreakpoint (RuntimeBreakPoint.rawId x)) fx)).
    cbv zeta in IH. destruct IH as ((promises & Hp & Hlen) & Hstate & Hfx).
    rewrite bind_eval, promise_unregister.
    cbn [Cmd.completion Cmd.state Cmd.effects].
    rewrite bind_eval, Hp, Hstate, Hfx.
    cbn [Cmd.completion Cmd.state Cmd.effects Cmd.ret].
    rewrite with_requests_issue.
    split; [|split; reflexivity].
    eexists. split; [reflexivity|]. simpl. rewrite Hlen. reflexivity.
Qed.

(** What [removeBreakPoint] leaves behind, however its promises settle. *)
Lemma removeBreakPoint_outcome env m fx (id : JS.number) :
  let o := DebugSessionManager.removeBreakPoint id env m fx in
  Cmd.state o =
    DebugSessionManager.set_breakPoints
      (filter (fun x => JS.neb (RuntimeBreakPoint.id x) id)
              (DebugSessionManager.breakPoints m)) m /\
  Cmd.effects o =
    Cmd.with_requests
      (map (fun x => Debugger_removeBreakpoint (RuntimeBreakPoint.rawId x))
           (filter (fun x => JS.eqb (RuntimeBreakPoint.id x) id)
                   (DebugSessionManager.breakPoints m))) fx.
Proof.
  cbv zeta. unfold DebugSessionManager.removeBreakPoint.
  destruct (unregister_each env m fx
              (filter (fun x => JS.eqb (RuntimeBreakPoint.id x) id)
                      (DebugSessionManager.breakPoints m)))
    as ((promises & Hp & _) & Hstate & Hfx).
  rewrite bind_eval. cbn [Cmd.get Cmd.completion Cmd.state Cmd.effects].
  rewrite bind_eval, Hp, Hstate, Hfx.
  rewrite bind_eval. cbn [Cmd.get Cmd.completion Cmd.state Cmd.effects].
  rewrite bind_eval. cbn [Cmd.put Cmd.completion Cmd.state Cmd.effects].
  clear Hp. induction promises as [|[v|e] promises IH]; cbn; auto.
Qed.

(** C6: [removeBreakPoint(id)] keeps exactly the records whose id is not
    [== id], so no record with that id is left; it issues one
    [removeBreakpoint] request per removed record, in registry order, and
    nothing else; and the registry is the filtered one however the command
    completes, in particular when it rejects because a removal failed. *)
Theorem removeBreakPoint_removes_and_unregisters env m fx (id : JS.number) :
  let o := DebugSessionManager.removeBreakPoint id env m fx in
  let removed := filter (fun x => JS.eqb (RuntimeBreakPoint.id x) id)
                        (DebugSessionManager.breakPoints m) in
  let left := DebugSessionManager.breakPoints (Cmd.state o) in
  left = filter (fun x => JS.neb (RuntimeBreakPoint.id x) id)
                (DebugSessionManager.breakPoints m) /\
  filter (fun x => JS.eqb (RuntimeBreakPoint.id x) id) left = [] /\
  (JS.is_nan id = false -> Forall (fun x => RuntimeBreakPoint.id x <> id) left) /\
  requests (Cmd.effects o) =
    (requests fx ++
     map (fun x => Debugger_removeBreakpoint (RuntimeBreakPoint.rawId x)) removed)%list /\
  (forall e, Cmd.completion o = Throw e ->
             left = filter (fun x => JS.neb (RuntimeBreakPoint.id x) id)
                           (DebugSessionManager.breakPoints m)) /\
  DebugSessionManager.session (Cmd.state o) = DebugSessionManager.session m /\
  DebugSessionManager.sessionState (Cmd.state o) = DebugSessionManager.sessionState m.
Proof.
  intros o removed left.
  destruct (removeBreakPoint_outcome env m fx id) as (Hstate & Hfx).
  assert (Hleft : left = filter (fun x => JS.neb (RuntimeBreakPoint.id x) id)
                                (DebugSessionManager.breakPoints m)).
  { subst left o. rewrite Hstate. reflexivity. }
  split; [exact Hleft|].
  split; [rewrite Hleft; apply (filter_filter_negb (fun x => JS.eqb (RuntimeBreakPoint.id x) id))|].
  split.
  { intros Hnan. rewrite Hleft. apply Forall_forall. intros x Hx.
    apply filter_In in Hx. destruct Hx as [_ Hne]. intros Heq.
    unfold JS.neb in Hne. rewrite Heq, (eqb_refl id Hnan) in Hne. discriminate. }
  split; [subst o removed; rewrite Hfx; reflexivity|].
  split; [intros e _; exact Hleft|].
  subst o. rewrite Hstate. split; reflexivity.
Qed.

End RemoveBreakPoint.

(** Both removals are rejected; both records are gone all the same. *)
Lemma removeBreakPoint_removes_and_unregisters_witness :
  let o := DebugSessionManager.removeBreakPoint JS.neg_Infinity
             (Examples.env Examples.rejecting) Examples.two_breakPoints no_effects in
  JS.is_nan JS.neg_Infinity = false /\
  Cmd.completion o = Throw (ProtocolError "rejected") /\
  DebugSessionManager.breakPoints (Cmd.state o) = [] /\
  Forall (fun x => RuntimeBreakPoint.id x <> JS.neg_Infinity)
         (DebugSessionManager.breakPoints (Cmd.state o)) /\
  requests (Cmd.effects o) =
    [Debugger_removeBreakpoint "1:0:16"; Debugger_removeBreakpoint "1:0:32"].
Proof.
  destruct (removeBreakPoint_removes_and_unregisters
              (Examples.env Examples.rejecting) Examples.two_breakPoints no_effects
              JS.neg_Infinity)
    as (Hleft & _ & Hne & Hreq & Hthrow & _).
  split; [reflexivity|].
  split; [reflexivity|].
  split; [exact (Hthrow (ProtocolError "rejected") eq_refl)|].
  split; [exact (Hne eq_refl)|exact Hreq].
Defined.

(** ** The commands while the session runs *)

Section Running.
Context {WasmValueVector : Type}.
Implicit Types (env : Cmd.Env WasmValueVector)
               (m : DebugSessionManager.t WasmValueVector)
               (fx : Effects).

(** In a running session a dispatched command is the one of
    [NormalSessionState]. *)
Lemma dispatch_running {A : Type} env m fx
      (normal : Cmd.t (DebugSessionManager.t WasmValueVector) A)
      (paused : DebugSession.t WasmValueVector ->
                Cmd.t (PausedSessionState.t WasmValueVector) A) :
  DebugSessionManager.sessionState m = DebugSessionManager.Running ->
  DebugSessionManager.dispatch normal paused env m fx = normal env m fx.
Proof.
  intros Hrun. unfold DebugSessionManager.dispatch.
  rewrite bind_eval. cbn [Cmd.get Cmd.completion Cmd.state Cmd.effects].
  rewrite Hrun. reflexivity.
Qed.

(** In a paused session it is the one of [PausedSessionState], run on the
    object in the field and on the manager's session. *)
Lemma dispatch_paused {A : Type} env m fx
      (normal : Cmd.t (DebugSessionManager.t WasmValueVector) A)
      (paused : DebugSession.t WasmValueVector ->
                Cmd.t (PausedSessionState.t WasmValueVector) A)
      (p : PausedSessionState.t WasmValueVector) :
  DebugSessionManager.sessionState m = DebugSessionManager.Paused p ->
  let o := paused (DebugSessionManager.session m) env p fx in
  DebugSessionManager.dispatch normal paused env m fx =
  {| Cmd.completion := Cmd.completion o;
     Cmd.state := DebugSessionManager.set_sessionState
                    (DebugSessionManager.Paused (Cmd.state o)) m;
     Cmd.effects := Cmd.effects o |}.
Proof.
  intros Hp o. unfold DebugSessionManager.dispatch.
  rewrite bind_eval. cbn [Cmd.get Cmd.completion Cmd.state Cmd.effects].
  rewrite Hp. reflexivity.
Qed.

(** C4: while the session runs, each workflow and dump command completes
    normally with its sentinel ([undefined], or the empty list for
    [getStackFrames] and [listVariable]), writes the one warning
    [Debugger not paused!], issues no gateway request and leaves the
    manager as it was. *)
Theorem running_commands_are_not_paused env m fx (index : JS.number) (expr : string) :
  DebugSessionManager.sessionState m = DebugSessionManager.Running ->
  let warned := Cmd.with_console [console_warn "Debugger not paused!"] fx in
  requests warned = requests fx /\
  DebugSessionManager.stepOver env m fx =
    {| Cmd.completion := Normal tt; Cmd.state := m; Cmd.effects := warned |} /\
  DebugSessionManager.stepIn env m fx =
    {| Cmd.completion := Normal tt; Cmd.state := m; Cmd.effects := warned |} /\
  DebugSessionManager.stepOut env m fx =
    {| Cmd.completion := Normal tt; Cmd.state := m; Cmd.effects := warned |} /\
  DebugSessionManager.continue env m fx =
    {| Cmd.completion := Normal tt; Cmd.state := m; Cmd.effects := warned |} /\
  DebugSessionManager.getStackFrames env m fx =
    {| Cmd.completion := Normal []; Cmd.state := m; Cmd.effects := warned |} /\
  DebugSessionManager.setFocusedFrame index env m fx =
    {| Cmd.completion := Normal tt; Cmd.state := m; Cmd.effects := warned |} /\
  DebugSessionManager.showLine env m fx =
    {| Cmd.completion := Normal tt; Cmd.state := m; Cmd.effects := warned |} /\
  DebugSessionManager.listVariable env m fx =
    {| Cmd.completion := Normal []; Cmd.state := m; Cmd.effects := warned |} /\
  DebugSessionManager.dumpVariable expr env m fx =
    {| Cmd.completion := Normal None; Cmd.state := m; Cmd.effects := warned |}.
Proof.
  intros Hrun warned. split; [reflexivity|].
  unfold DebugSessionManager.stepOver, DebugSessionManager.stepIn,
    DebugSessionManager.stepOut, DebugSessionManager.continue,
    DebugSessionManager.getStackFrames, DebugSessionManager.setFocusedFrame,
    DebugSessionManager.showLine, DebugSessionManager.listVariable,
    DebugSessionManager.dumpVariable.
  rewrite bind_eval. unfold Cmd.promise.
  rewrite !(dispatch_running env m fx _ _ Hrun).
  repeat split.
Qed.

End Running.

Lemma running_commands_are_not_paused_witness :
  let m := DebugSessionManager.new (WasmValueVector := unit) in
  let env := Examples.env Examples.rejecting in
  DebugSessionManager.sessionState m = DebugSessionManager.Running /\
  DebugSessionManager.listVariable env m no_effects =
    {| Cmd.completion := Normal []; Cmd.state := m;
       Cmd.effects := Cmd.with_console [console_warn "Debugger not paused!"] no_effects |} /\
  DebugSessionManager.dumpVariable "x" env m no_effects =
    {| Cmd.completion := Normal None; Cmd.state := m;
       Cmd.effects := Cmd.with_console [console_warn "Debugger not paused!"] no_effects |}.
Proof.
  split; [reflexivity|].
  destruct (running_commands_are_not_paused
              (Examples.env Examples.rejecting) DebugSessionManager.new no_effects
              JS.pos_zero "x" eq_refl)
    as (_ & _ & _ & _ & _ & _ & _ & _ & Hlist & Hdump).
  split; [exact Hlist|exact Hdump].
Defined.

(** ** [stepIn] *)

Section StepIn.
Context {WasmValueVector : Type}.
Implicit Types (env : Cmd.Env WasmValueVector)
               (m : DebugSessionManager.t WasmValueVector)
               (fx : Effects).

(** C8: [stepIn] is [stepOver], as a command of the manager and as a method
    of either session state.  On a paused session it issues the one request
    [Debugger.stepOver], never [Debugger.stepInto], and completes as that
    request does; on a running session it is the warning of C4. *)
Theorem stepIn_is_stepOver :
  DebugSessionManager.stepIn (WasmValueVector := WasmValueVector) =
    DebugSessionManager.stepOver /\
  PausedSessionState.stepIn (WasmValueVector := WasmValueVector) =
    PausedSessionState.stepOver /\
  (forall S : Type,
      NormalSessionState.stepIn (WasmValueVector := WasmValueVector) (S := S) =
      NormalSessionState.stepOver) /\
  (forall env m fx p,
      DebugSessionManager.sessionState m = DebugSessionManager.Paused p ->
      let o := DebugSessionManager.stepIn env m fx in
      Cmd.completion o = Cmd.gateway env (requests fx) Debugger_stepOver /\
      Cmd.effects o = Cmd.with_requests [Debugger_stepOver] fx /\
      requests (Cmd.effects o) = (requests fx ++ [Debugger_stepOver])%list /\
      Cmd.state o = m) /\
  (forall env m fx,
      DebugSessionManager.sessionState m = DebugSessionManager.Running ->
      DebugSessionManager.stepIn env m fx =
      {| Cmd.completion := Normal tt; Cmd.state := m;
         Cmd.effects := Cmd.with_console [console_warn "Debugger not paused!"] fx |}).
Proof.
  split; [reflexivity|]. split; [reflexivity|]. split; [reflexivity|]. split.
  - intros env m fx p Hp o. subst o. unfold DebugSessionManager.stepIn.
    rewrite (dispatch_paused env m fx _ _ p Hp).
    cbn [Cmd.completion Cmd.state Cmd.effects PausedSessionState.stepOver Cmd.request].
    split; [reflexivity|]. split; [reflexivity|]. split.
    + reflexivity.
    + destruct m as [s b st]. simpl in Hp. subst st. reflexivity.
  - intros env m fx Hrun. unfold DebugSessionManager.stepIn.
    rewrite (dispatch_running env m fx _ _ Hrun). reflexivity.
Qed.

End StepIn.

Lemma stepIn_is_stepOver_witness :
  let p := PausedSessionState.new (WasmValueVector := unit) [] in
  let m := DebugSessionManager.set_sessionState (DebugSessionManager.Paused p)
             DebugSessionManager.new in
  let o := DebugSessionManager.stepIn (Examples.env Examples.resolving) m no_effects in
  DebugSessionManager.sessionState m = DebugSessionManager.Paused p /\
  Cmd.completion o = Normal tt /\
  requests (Cmd.effects o) = [Debugger_stepOver] /\
  DebugSessionManager.stepIn (Examples.env Examples.resolving) DebugSessionManager.new
                             no_effects =
  {| Cmd.completion := Normal tt; Cmd.state := DebugSessionManager.new;
     Cmd.effects := Cmd.with_console [console_warn "Debugger not paused!"] no_effects |}.
Proof.
  destruct (stepIn_is_stepOver (WasmValueVector := unit))
    as (_ & _ & _ & Hpaused & Hrunning).
  split; [reflexivity|].
  destruct (Hpaused (Examples.env Examples.resolving)
                    (DebugSessionManager.set_sessionState
                       (DebugSessionManager.Paused (PausedSessionState.new []))
                       DebugSessionManager.new)
                    no_effects (PausedSessionState.new []) eq_refl)
    as (Hc & Hfx & _ & _).
  split; [exact Hc|].
  split; [rewrite Hfx; reflexivity|].
  exact (Hrunning (Examples.env Examples.resolving) DebugSessionManager.new
                  no_effects eq_refl).
Defined.

(** ** Pausing *)

Lemma length_mapi_from {A B : Type} (f : A -> nat -> B) (k : nat) (a : list A) :
  List.length (JS.mapi_from f k a) = List.length a.
Proof.
  revert k. induction a as [|v a IH]; intros k; simpl; [reflexivity|].
  rewrite IH. reflexivity.
Qed.

Lemma nth_error_mapi_from {A B : Type} (f : A -> nat -> B) (k i : nat) (a : list A) :
  nth_error (JS.mapi_from f k a) i = option_map (fun v => f v (k + i)) (nth_error a i).
Proof.
  revert k i. induction a as [|v a IH]; intros k [|i]; simpl; try reflexivity.
  - rewrite Nat.add_0_r. reflexivity.
  - rewrite IH. replace (S k + i) with (k + S i) by lia. reflexivity.
Qed.

Section Pausing.
Context {WasmValueVector : Type}.
Implicit Types (env : Cmd.Env WasmValueVector)
               (m : DebugSessionManager.t WasmValueVector)
               (fx : Effects).

(** What [onPaused] does, in one equation. *)
Lemma onPaused_outcome env m fx (e : PausedEvent) :
  DebugSessionManager.onPaused e env m fx =
  {| Cmd.completion := Normal tt;
     Cmd.state :=
       DebugSessionManager.set_sessionState
         (DebugSessionManager.Paused
            (PausedSessionState.new
               (JS.mapi (DebugSessionManager.stackFrame_of (DebugSessionManager.session m))
                        (callFrames e)))) m;
     Cmd.effects :=
       {| console := console fx ++ [console_log "Hit BreakPointMapping"];
          requests := requests fx;
          adapterEvents := adapterEvents fx ++
                           [StoppedEvent "BreakPointMapping" DebugSessionManager.DummyThreadID];
          freed := freed fx |} |}.
Proof. reflexivity. Qed.

(** C3, as amended: a pause with N call frames makes the session paused on
    N stack frames in the order of the call frames, focused on index 0.
    Entry [i] keeps call frame [i], its function name and its column as
    instruction.  Its file is the module's when the mapping resolves to a
    non-empty file name, and the frame's url otherwise; its line is the
    module's when the mapping resolves to a line other than 0 and [NaN],
    and the protocol line number otherwise.  One [StoppedEvent] is sent and
    no gateway request is issued. *)
Theorem onPaused_builds_the_stack env m fx (e : PausedEvent) :
  let o := DebugSessionManager.onPaused e env m fx in
  exists frames,
    DebugSessionManager.sessionState (Cmd.state o) =
      DebugSessionManager.Paused
        {| PausedSessionState.stackFrames := frames;
           PausedSessionState.selectedFrameIndex := JS.pos_zero |} /\
    List.length frames = List.length (callFrames e) /\
    (forall i v, nth_error (callFrames e) i = Some v ->
       exists f,
         nth_error frames i = Some f /\
         RuntimeStackFrame.frame f = v /\
         RuntimeStackFrame.state f = None /\
         IRuntimeStackFrame.index (RuntimeStackFrame.stack f) = i /\
         IRuntimeStackFrame.name (RuntimeStackFrame.stack f) = functionName v /\
         IRuntimeStackFrame.instruction (RuntimeStackFrame.stack f) =
           columnNumber (location v) /\
         match DebugSession.findFileFromLocation
                 (DebugSessionManager.session m) (location v) with
         | Some d =>
             IRuntimeStackFrame.file (RuntimeStackFrame.stack f) =
               (if JS.truthy_string (DwarfSourceLocation.file d)
                then DwarfSourceLocation.file d else url v) /\
             IRuntimeStackFrame.line (RuntimeStackFrame.stack f) =
               (if JS.truthy_number (DwarfSourceLocation.line d)
                then DwarfSourceLocation.line d else lineNumber (location v))
         | None =>
             IRuntimeStackFrame.file (RuntimeStackFrame.stack f) = url v /\
             IRuntimeStackFrame.line (RuntimeStackFrame.stack f) =
               lineNumber (location v)
         end) /\
    Cmd.completion o = Normal tt /\
    adapterEvents (Cmd.effects o) =
      (adapterEvents fx ++
       [StoppedEvent "BreakPointMapping" DebugSessionManager.DummyThreadID])%list /\
    requests (Cmd.effects o) = requests fx /\
    DebugSessionManager.session (Cmd.state o) = DebugSessionManager.session m /\
    DebugSessionManager.breakPoints (Cmd.state o) = DebugSessionManager.breakPoints m.
Proof.
  intros o. subst o. rewrite onPaused_outcome.
  cbn [Cmd.completion Cmd.state Cmd.effects adapterEvents requests
       DebugSessionManager.set_sessionState DebugSessionManager.sessionState
       DebugSessionManager.session DebugSessionManager.breakPoints].
  eexists. split; [reflexivity|].
  split; [apply length_mapi_from|].
  split; [|repeat split].
  intros i v Hv. unfold JS.mapi. rewrite nth_error_mapi_from, Hv. simpl.
  eexists. split; [reflexivity|].
  unfold JS.or_string, JS.or_number.
  destruct (DebugSession.findFileFromLocation (DebugSessionManager.session m) (location v))
    as [d|] eqn:Hd;
    repeat split; unfold DebugSessionManager.stackFrame_of; rewrite Hd; reflexivity.
Qed.

End Pausing.

(** C3, as stated, fails when the mapping resolves to line 0: the module
    with script id 1 maps offset 16 to [main.c] line 0, the protocol reports
    the frame at line 7, and the stack frame gets line 7. *)
Lemma onPaused_line_zero_falls_back :
  let wasm := Examples.module_ "1" (JS.of_Z 16) "main.c" JS.pos_zero in
  let m := DebugSessionManager.set_session
             (DebugSession.loadedWebAssembly DebugSession.new wasm)
             DebugSessionManager.new in
  let v := Examples.callFrame "frame-0" "1" (JS.of_Z 7) 16 in
  let o := DebugSessionManager.onPaused {| callFrames := [v] |}
             (Examples.env Examples.resolving) m no_effects in
  DebugSession.findFileFromLocation (DebugSessionManager.session m) (location v) =
    Some {| DwarfSourceLocation.file := "main.c";
            DwarfSourceLocation.line := JS.pos_zero |} /\
  exists f,
    DebugSessionManager.sessionState (Cmd.state o) =
      DebugSessionManager.Paused
        {| PausedSessionState.stackFrames := [f];
           PausedSessionState.selectedFrameIndex := JS.pos_zero |} /\
    IRuntimeStackFrame.file (RuntimeStackFrame.stack f) = "main.c" /\
    IRuntimeStackFrame.line (RuntimeStackFrame.stack f) = JS.of_Z 7 /\
    IRuntimeStackFrame.line (RuntimeStackFrame.stack f) <> JS.pos_zero.
Proof.
  cbv zeta. split; [reflexivity|].
  eexists. split; [reflexivity|].
  split; [reflexivity|]. split; [reflexivity|]. discriminate.
Qed.

(** Frame 0 is in the module with script id 1 and gets its source
    location; frame 1 is in no loaded module and keeps the raw one. *)
Lemma onPaused_builds_the_stack_witness :
  let wasm := Examples.module_ "1" (JS.of_Z 16) "main.c" (JS.of_Z 5) in
  let m := DebugSessionManager.set_session
             (DebugSession.loadedWebAssembly DebugSession.new wasm)
             DebugSessionManager.new in
  let inner := Examples.callFrame "frame-0" "1" JS.pos_zero 16 in
  let outer := Examples.callFrame "frame-1" "2" (JS.of_Z 3) 40 in
  let o := DebugSessionManager.onPaused {| callFrames := [inner; outer] |}
             (Examples.env Examples.resolving) m no_effects in
  exists frames f0 f1,
    DebugSessionManager.sessionState (Cmd.state o) =
      DebugSessionManager.Paused
        {| PausedSessionState.stackFrames := frames;
           PausedSessionState.selectedFrameIndex := JS.pos_zero |} /\
    List.length frames = 2 /\
    nth_error frames 0 = Some f0 /\ nth_error frames 1 = Some f1 /\
    RuntimeStackFrame.frame f0 = inner /\ RuntimeStackFrame.frame f1 = outer /\
    IRuntimeStackFrame.file (RuntimeStackFrame.stack f0) = "main.c" /\
    IRuntimeStackFrame.line (RuntimeStackFrame.stack f0) = JS.of_Z 5 /\
    IRuntimeStackFrame.file (RuntimeStackFrame.stack f1) = "wasm://wasm/module" /\
    IRuntimeStackFrame.line (RuntimeStackFrame.stack f1) = JS.of_Z 3.
Proof.
  intros wasm m inner outer o.
  destruct (onPaused_builds_the_stack
              (Examples.env Examples.resolving) m no_effects
              {| callFrames := [inner; outer] |})
    as (frames & Hstate & Hlen & Hentry & _).
  destruct (Hentry 0 inner eq_refl) as (f0 & Hf0 & Hframe0 & _ & _ & _ & _ & Hfile0 & Hline0).
  destruct (Hentry 1 outer eq_refl) as (f1 & Hf1 & Hframe1 & _ & _ & _ & _ & Hfile1 & Hline1).
  exists frames, f0, f1. repeat split; assumption.
Defined.

(** ** The module registry, there and back *)

Lemma same_value_eq (x y : JS.number) : JS.same_value x y = true <-> x = y.
Proof.
  split.
  - destruct x as [s|s| |s m e], y as [s'|s'| |s' m' e']; simpl; try discriminate;
      try reflexivity.
    + intros H. apply Bool.eqb_prop in H. congruence.
    + intros H. apply Bool.eqb_prop in H. congruence.
    + intros H. apply andb_true_iff in H. destruct H as [H He].
      apply andb_true_iff in H. destruct H as [Hs Hm].
      apply Bool.eqb_prop in Hs. apply Pos.eqb_eq in Hm. apply Z.eqb_eq in He.
      congruence.
  - intros ->. destruct y as [s|s| |s m e]; simpl; try reflexivity.
    + apply Bool.eqb_reflx.
    + apply Bool.eqb_reflx.
    + rewrite Bool.eqb_reflx, Pos.eqb_refl, Z.eqb_refl. reflexivity.
Qed.

Lemma filter_none {A : Type} (p : A -> bool) (l : list A) :
  (forall z, In z l -> p z = false) -> filter p l = [].
Proof.
  induction l as [|z l IH]; simpl; intros H; [reflexivity|].
  rewrite (H z (or_introl eq_refl)). apply IH. intros z' Hz'. apply H. right. exact Hz'.
Qed.

Section Registry.
Context {WasmValueVector : Type}.
Implicit Types (session : DebugSession.t WasmValueVector)
               (x y : WebAssemblyFile.t WasmValueVector)
               (xs : list (WebAssemblyFile.t WasmValueVector)).

(** A loaded module is registered, after the ones that were. *)
Lemma loadedWebAssembly_registers session x :
  In x (DebugSession.sources (DebugSession.loadedWebAssembly session x)) /\
  forall y, In y (DebugSession.sources session) ->
            In y (DebugSession.sources (DebugSession.loadedWebAssembly session x)).
Proof.
  simpl. split; [|intros y Hy]; apply in_or_app; [right; left; reflexivity|left; exact Hy].
Qed.

(** With distinct script ids, looking a registered module up by its id
    finds that module and no other. *)
Lemma filter_scriptID xs x :
  NoDup (map WebAssemblyFile.scriptID xs) -> In x xs ->
  filter (fun y => String.eqb (WebAssemblyFile.scriptID y) (WebAssemblyFile.scriptID x)) xs
  = [x].
Proof.
  induction xs as [|y xs IH]; simpl; intros Hnodup Hin; [contradiction|].
  inversion Hnodup as [|id ids Hnotin Hrest]; subst.
  destruct Hin as [->|Hin].
  - rewrite String.eqb_refl. f_equal.
    apply filter_none. intros z Hz. apply String.eqb_neq. intros Heq.
    apply Hnotin. rewrite <- Heq. apply in_map. exact Hz.
  - destruct (String.eqb_spec (WebAssemblyFile.scriptID y) (WebAssemblyFile.scriptID x))
      as [Heq|_].
    + exfalso. apply Hnotin. rewrite Heq. apply in_map. exact Hin.
    + apply IH; assumption.
Qed.

Lemma findFileFromLocation_registered session x (loc : Location) :
  NoDup (map WebAssemblyFile.scriptID (DebugSession.sources session)) ->
  In x (DebugSession.sources session) ->
  scriptId loc = WebAssemblyFile.scriptID x ->
  DebugSession.findFileFromLocation session loc =
  WebAssemblyFile.findFileFromLocation x loc.
Proof.
  intros Hnodup Hin Hid. unfold DebugSession.findFileFromLocation.
  rewrite Hid, (filter_scriptID _ _ Hnodup Hin). reflexivity.
Qed.

(** The scan of [findAddressFromFileLocation] answers with the address of
    one of the modules, in that module's script. *)
Lemma findAddress_loop_some xs (file : string) (line : JS.number) (w : WasmLocation.t) :
  DebugSession.findAddress_loop xs file line = Some w ->
  exists y, In y xs /\
            WebAssemblyFile.findAddressFromFileLocation y file line =
              Some (WasmLocation.column w) /\
            WasmLocation.toLocation w =
              WebAssemblyFile.at_address y (WasmLocation.column w).
Proof.
  induction xs as [|y xs IH]; simpl; [discriminate|].
  destruct (WebAssemblyFile.findAddressFromFileLocation y file line) as [a|] eqn:Ha.
  - intros H. injection H as <-. exists y. simpl. repeat split; auto.
  - intros H. destruct (IH H) as (z & Hz & Hrest). exists z. split; [right|]; assumption.
Qed.

(** It answers as soon as one module knows the location. *)
Lemma findAddress_loop_defined xs x (file : string) (line address : JS.number) :
  In x xs ->
  WebAssemblyFile.findAddressFromFileLocation x file line = Some address ->
  exists w, DebugSession.findAddress_loop xs file line = Some w.
Proof.
  induction xs as [|y xs IH]; simpl; intros Hin Hx; [contradiction|].
  destruct (WebAssemblyFile.findAddressFromFileLocation y file line) as [a|] eqn:Ha.
  - eexists. reflexivity.
  - destruct Hin as [->|Hin]; [congruence|]. apply IH; assumption.
Qed.

(** C7, as amended: in a registry whose script ids are pairwise distinct
    and whose modules all have mutually inverse address and location
    functions, when a registered module maps an address to [file:line], the
    session maps that address to exactly [file:line], and the address the
    session finds for [file:line] (on protocol line 0) is mapped back to
    [file:line] by the session. *)
Theorem registry_round_trip session x (address : JS.number) (file : string)
        (line : JS.number) :
  let here := {| DwarfSourceLocation.file := file; DwarfSourceLocation.line := line |} in
  NoDup (map WebAssemblyFile.scriptID (DebugSession.sources session)) ->
  (forall y, In y (DebugSession.sources session) -> WebAssemblyFile.mutually_inverse y) ->
  In x (DebugSession.sources session) ->
  WebAssemblyFile.findFileFromLocation x (WebAssemblyFile.at_address x address) = Some here ->
  DebugSession.findFileFromLocation session (WebAssemblyFile.at_address x address)
    = Some here /\
  exists w,
    DebugSession.findAddressFromFileLocation session file line = Some w /\
    WasmLocation.line w = JS.pos_zero /\
    DebugSession.findFileFromLocation session (WasmLocation.toLocation w) = Some here.
Proof.
  intros here Hnodup Hinverse Hin Hmaps. split.
  - rewrite (findFileFromLocation_registered session x (WebAssemblyFile.at_address x address)
               Hnodup Hin eq_refl). exact Hmaps.
  - apply (Hinverse x Hin) in Hmaps.
    destruct (findAddress_loop_defined _ x file line address Hin Hmaps) as (w & Hw).
    exists w. split; [exact Hw|].
    destruct (findAddress_loop_some _ file line w Hw) as (y & Hy & Hyaddr & Hloc).
    split.
    + clear - Hw. unfold DebugSession.findAddressFromFileLocation in *.
      induction (DebugSession.sources session) as [|z zs IH]; simpl in Hw; [discriminate|].
      destruct (WebAssemblyFile.findAddressFromFileLocation z file line);
        [injection Hw as <-; reflexivity | exact (IH Hw)].
    + rewrite Hloc.
      rewrite (findFileFromLocation_registered
                 session y (WebAssemblyFile.at_address y (WasmLocation.column w))
                 Hnodup Hy eq_refl).
      apply (Hinverse y Hy). exact Hyaddr.
Qed.

End Registry.

Lemma module_mutually_inverse (id : string) (address : JS.number) (file : string)
      (line : JS.number) :
  WebAssemblyFile.mutually_inverse (Examples.module_ id address file line).
Proof.
  intros f l a. unfold WebAssemblyFile.at_address. simpl. split.
  - destruct (String.eqb_spec f file) as [->|]; [|discriminate].
    destruct (JS.same_value l line) eqn:Hl; [|discriminate]. simpl.
    apply same_value_eq in Hl. subst l. intros [= <-].
    rewrite (proj2 (same_value_eq address address) eq_refl). reflexivity.
  - destruct (JS.same_value a address) eqn:Ha; [|discriminate].
    apply same_value_eq in Ha. subst a. intros [= <- <-].
    rewrite String.eqb_refl, (proj2 (same_value_eq line line) eq_refl). reflexivity.
Qed.

Lemma silent_module_mutually_inverse (id : string) :
  WebAssemblyFile.mutually_inverse (Examples.silent_module id).
Proof. intros f l a. simpl. split; discriminate. Qed.

Lemma registry_round_trip_witness :
  let main := Examples.module_ "1" (JS.of_Z 16) "main.c" (JS.of_Z 5) in
  let lib := Examples.module_ "2" (JS.of_Z 32) "lib.c" (JS.of_Z 9) in
  let session := DebugSession.loadedWebAssembly
                   (DebugSession.loadedWebAssembly DebugSession.new main) lib in
  let here := {| DwarfSourceLocation.file := "lib.c";
                 DwarfSourceLocation.line := JS.of_Z 9 |} in
  DebugSession.findFileFromLocation session (WebAssemblyFile.at_address lib (JS.of_Z 32))
    = Some here /\
  exists w,
    DebugSession.findAddressFromFileLocation session "lib.c" (JS.of_Z 9) = Some w /\
    WasmLocation.line w = JS.pos_zero /\
    DebugSession.findFileFromLocation session (WasmLocation.toLocation w) = Some here.
Proof.
  apply (registry_round_trip
           (DebugSession.loadedWebAssembly
              (DebugSession.loadedWebAssembly DebugSession.new
                 (Examples.module_ "1" (JS.of_Z 16) "main.c" (JS.of_Z 5)))
              (Examples.module_ "2" (JS.of_Z 32) "lib.c" (JS.of_Z 9)))
           (Examples.module_ "2" (JS.of_Z 32) "lib.c" (JS.of_Z 9))
           (JS.of_Z 32) "lib.c" (JS.of_Z 9)).
  - simpl. constructor; [simpl; intros [H|[]]; discriminate H|].
    constructor; [intros []|constructor].
  - simpl. intros y [<-|[<-|[]]]; apply module_mutually_inverse.
  - simpl. right. left. reflexivity.
  - reflexivity.
Defined.

(** C7, as stated, fails when two registered modules share a script id:
    the lookup by script id stops at the first of them.  Both modules have
    mutually inverse functions, the second maps offset 16 to [main.c:5], and
    the session maps neither that address nor the address it finds for
    [main.c:5] back to [main.c:5]. *)
Lemma registry_duplicate_script_id :
  let first := Examples.silent_module "1" in
  let second := Examples.module_ "1" (JS.of_Z 16) "main.c" (JS.of_Z 5) in
  let session := DebugSession.loadedWebAssembly
                   (DebugSession.loadedWebAssembly DebugSession.new first) second in
  let here := {| DwarfSourceLocation.file := "main.c";
                 DwarfSourceLocation.line := JS.of_Z 5 |} in
  In second (DebugSession.sources session) /\
  WebAssemblyFile.mutually_inverse first /\
  WebAssemblyFile.mutually_inverse second /\
  WebAssemblyFile.findFileFromLocation second
    (WebAssemblyFile.at_address second (JS.of_Z 16)) = Some here /\
  DebugSession.findFileFromLocation session
    (WebAssemblyFile.at_address second (JS.of_Z 16)) = None /\
  exists w,
    DebugSession.findAddressFromFileLocation session "main.c" (JS.of_Z 5) = Some w /\
    DebugSession.findFileFromLocation session (WasmLocation.toLocation w) = None.
Proof.
  cbv zeta.
  split; [simpl; right; left; reflexivity|].
  split; [apply silent_module_mutually_inverse|].
  split; [apply module_mutually_inverse|].
  split; [reflexivity|]. split; [reflexivity|].
  eexists. split; reflexivity.
Qed.

(** ** Reading memory *)

Section Issues.
Context {WasmValueVector S : Type}.
Variables (I : S -> Prop) (P : Request -> Prop).
Local Abbreviation Cmd A := (Cmd.t (WasmValueVector := WasmValueVector) S A).

Lemma issues_ret {A} (a : A) : issues I P (Cmd.ret a : Cmd A).
Proof.
  intros env s fx Hs. split; [exact Hs|]. exists []. simpl.
  rewrite app_nil_r. split; [reflexivity|constructor].
Qed.

Lemma issues_throw {A} (e : Error) : issues I P (Cmd.throw e : Cmd A).
Proof.
  intros env s fx Hs. split; [exact Hs|]. exists []. simpl.
  rewrite app_nil_r. split; [reflexivity|constructor].
Qed.

Lemma issues_get : issues I P (Cmd.get : Cmd S).
Proof.
  intros env s fx Hs. split; [exact Hs|]. exists []. simpl.
  rewrite app_nil_r. split; [reflexivity|constructor].
Qed.

Lemma issues_ask : issues I P (Cmd.ask : Cmd (Cmd.Env WasmValueVector)).
Proof.
  intros env s fx Hs. split; [exact Hs|]. exists []. simpl.
  rewrite app_nil_r. split; [reflexivity|constructor].
Qed.

Lemma issues_log (entry : ConsoleEntry) : issues I P (Cmd.log entry : Cmd unit).
Proof.
  intros env s fx Hs. split; [exact Hs|]. exists []. simpl.
  rewrite app_nil_r. split; [reflexivity|constructor].
Qed.

Lemma issues_defined {A} (x : option A) : issues I P (Cmd.defined x : Cmd A).
Proof. destruct x; [apply issues_ret|apply issues_throw]. Qed.

Lemma issues_request (r : Request) : P r -> issues I P (Cmd.request r : Cmd (Reply r)).
Proof.
  intros Hr env s fx Hs. split; [exact Hs|]. exists [r]. simpl.
  split; [reflexivity|]. constructor; [exact Hr|constructor].
Qed.

Lemma issues_bind {A B} (c : Cmd A) (k : A -> Cmd B) :
  issues I P c -> (forall a, issues I P (k a)) -> issues I P (x <- c ;; k x).
Proof.
  intros Hc Hk env s fx Hs. rewrite bind_eval.
  destruct (Hc env s fx Hs) as (Hs' & new & Hnew & HP).
  destruct (Cmd.completion (c env s fx)) as [a|e].
  - destruct (Hk a env _ (Cmd.effects (c env s fx)) Hs') as (Hs'' & new' & Hnew' & HP').
    split; [exact Hs''|]. exists (new ++ new')%list.
    rewrite Hnew', Hnew, app_assoc. split; [reflexivity|].
    apply Forall_app. split; assumption.
  - split; [exact Hs'|]. exists new. split; assumption.
Qed.

(** A program of the Runtime domain asks for properties and nothing else. *)
Lemma issues_run_runtime {A} (p : RuntimeProg A) :
  (forall objectId, P (Runtime_getProperties objectId)) ->
  issues I P (Cmd.run_runtime p : Cmd A).
Proof.
  intros HP. induction p as [a|e|objectId k IH]; simpl.
  - apply issues_ret.
  - apply issues_throw.
  - intros env s fx Hs.
    destruct (IH (Cmd.gateway env (requests fx) (Runtime_getProperties objectId))
                 env s (Cmd.issue (Runtime_getProperties objectId) fx) Hs)
      as (Hs' & new & Hnew & Hall).
    split; [exact Hs'|].
    exists (Runtime_getProperties objectId :: new).
    rewrite Hnew. simpl. rewrite <- app_assoc. split; [reflexivity|].
    constructor; [apply HP|exact Hall].
Qed.

End Issues.

Ltac issues_step :=
  first [ apply issues_bind; [|intros ?]
        | apply issues_ret | apply issues_throw | apply issues_get | apply issues_ask
        | apply issues_log | apply issues_defined
        | apply issues_request; exact Logic.I
        | apply issues_run_runtime; intros ?; exact Logic.I ].

Section DumpVariable.
Context {WasmValueVector : Type}.
Implicit Types (env : Cmd.Env WasmValueVector)
               (m : DebugSessionManager.t WasmValueVector)
               (this : PausedSessionState.t WasmValueVector)
               (fx : Effects).

(** Building the value store reads properties only. *)
Lemma createWasmValueStore_issues (I : PausedSessionState.t WasmValueVector -> Prop)
      (id : option string) (frame : CallFrame) :
  issues I (on_frame id) (PausedSessionState.createWasmValueStore frame).
Proof. unfold PausedSessionState.createWasmValueStore. repeat issues_step. Qed.

(** Caching a store on a frame leaves every call frame in place. *)
Lemma frame0_id_update_frame (n : nat) st (frames : list (RuntimeStackFrame.t WasmValueVector)) :
  option_map (fun f => callFrameId (RuntimeStackFrame.frame f))
             (nth_error (PausedSessionState.update_frame
                           n (RuntimeStackFrame.set_state st) frames) 0) =
  option_map (fun f => callFrameId (RuntimeStackFrame.frame f)) (nth_error frames 0).
Proof. destruct frames as [|f frames], n as [|n]; reflexivity. Qed.

Lemma cache_state_issues (id : option string) (index : JS.number) st :
  issues (fun this => frame0_id this = id) (on_frame id)
         (PausedSessionState.cache_state index st).
Proof.
  intros env this fx Hid. unfold PausedSessionState.cache_state.
  rewrite bind_eval. cbn [Cmd.get Cmd.completion Cmd.state Cmd.effects].
  destruct (JS.array_index index) as [n|]; cbn [Cmd.put Cmd.ret Cmd.state Cmd.effects].
  - split.
    + unfold frame0_id. cbn [PausedSessionState.stackFrames].
      rewrite frame0_id_update_frame. exact Hid.
    + exists []. rewrite app_nil_r. split; [reflexivity|constructor].
  - split; [exact Hid|]. exists []. rewrite app_nil_r. split; [reflexivity|constructor].
Qed.

(** [evaluateMemory] evaluates on the call frame of [this.stackFrames[0]]. *)
Lemma evaluateMemory_issues (id : option string) (address size : JS.number) :
  issues (fun this => frame0_id this = id) (on_frame id)
         (PausedSessionState.evaluateMemory address size).
Proof.
  intros env this fx Hid. unfold PausedSessionState.evaluateMemory.
  rewrite bind_eval. cbn [Cmd.get Cmd.completion Cmd.state Cmd.effects].
  unfold frame0_id in Hid.
  destruct (nth_error (PausedSessionState.stackFrames this) 0) as [frame0|] eqn:H0.
  - rewrite bind_eval. cbn [Cmd.defined Cmd.ret Cmd.completion Cmd.state Cmd.effects].
    rewrite bind_eval. cbn [Cmd.request Cmd.completion Cmd.state Cmd.effects].
    assert (Hnew : exists new,
               requests (Cmd.issue (Debugger_evaluateOnCallFrame
                                      (callFrameId (RuntimeStackFrame.frame frame0))
                                      (Uint8Array_subarray address (JS.add address size))) fx)
               = (requests fx ++ new)%list /\ Forall (on_frame id) new).
    { eexists. split; [reflexivity|]. constructor; [|constructor].
      simpl. symmetry. exact Hid. }
    destruct (Cmd.gateway env (requests fx) _) as [[value|]|e];
      cbn [Cmd.defined Cmd.ret Cmd.throw Cmd.completion Cmd.state Cmd.effects];
      (split; [unfold frame0_id; rewrite H0; exact Hid | exact Hnew]).
  - rewrite bind_eval. cbn [Cmd.defined Cmd.throw Cmd.completion Cmd.state Cmd.effects].
    split; [unfold frame0_id; rewrite H0; exact Hid|].
    exists []. rewrite app_nil_r. split; [reflexivity|constructor].
Qed.

Lemma dumpVariable_issues (id : option string) (debugSession : DebugSession.t WasmValueVector)
      (expr : string) :
  issues (fun this => frame0_id this = id) (on_frame id)
         (PausedSessionState.dumpVariable debugSession expr).
Proof.
  unfold PausedSessionState.dumpVariable, PausedSessionState.selectedFrame.
  apply issues_bind; [issues_step|intros this].
  apply issues_bind; [repeat issues_step|intros frame].
  apply issues_bind.
  - destruct (RuntimeStackFrame.state frame); [issues_step|].
    apply issues_bind; [apply createWasmValueStore_issues|intros st].
    apply issues_bind; [apply cache_state_issues|intros _]. issues_step.
  - intros state.
    destruct (DebugSession.getVariableValue _ _ _ _); [|repeat issues_step].
    apply issues_bind; [apply evaluateMemory_issues|intros result]. issues_step.
Qed.

End DumpVariable.

Section DumpVariableOnFrame0.
Context {WasmValueVector : Type}.
Implicit Types (env : Cmd.Env WasmValueVector)
               (m : DebugSessionManager.t WasmValueVector)
               (this : PausedSessionState.t WasmValueVector)
               (fx : Effects).

(** A stack with a focused frame has a frame 0. *)
Lemma array_get_frame0 {A : Type} (a : list A) (i : JS.number) (x : A) :
  JS.array_get a i = Some x -> exists x0, nth_error a 0 = Some x0.
Proof.
  unfold JS.array_get. destruct (JS.array_index i) as [n|]; [|discriminate].
  destruct a as [|x0 a]; [destruct n; discriminate|]. intros _. exists x0. reflexivity.
Qed.

(** The focused frame has its store and the variable resolves: the one
    request of [dumpVariable] reads the variable's bytes on frame 0. *)
Lemma dumpVariable_resolved env this fx (debugSession : DebugSession.t WasmValueVector)
      (expr : string) frame st (v : VariableInfo.t) :
  JS.array_get (PausedSessionState.stackFrames this)
               (PausedSessionState.selectedFrameIndex this) = Some frame ->
  RuntimeStackFrame.state frame = Some st ->
  DebugSession.getVariableValue debugSession expr
    (IRuntimeStackFrame.instruction (RuntimeStackFrame.stack frame)) st = Some v ->
  exists frame0,
    nth_error (PausedSessionState.stackFrames this) 0 = Some frame0 /\
    Cmd.effects (PausedSessionState.dumpVariable debugSession expr env this fx) =
    Cmd.with_requests
      [Debugger_evaluateOnCallFrame
         (callFrameId (RuntimeStackFrame.frame frame0))
         (Uint8Array_subarray (VariableInfo.address v)
            (JS.add (VariableInfo.address v) (VariableInfo.byte_size v)))] fx.
Proof.
  intros Hframe Hstate Hv.
  destruct (array_get_frame0 _ _ _ Hframe) as (frame0 & H0).
  exists frame0. split; [exact H0|].
  unfold PausedSessionState.dumpVariable, PausedSessionState.selectedFrame.
  rewrite bind_eval. cbn [Cmd.get Cmd.completion Cmd.state Cmd.effects].
  rewrite bind_eval, bind_eval. cbn [Cmd.get Cmd.completion Cmd.state Cmd.effects].
  rewrite Hframe. cbn [Cmd.defined Cmd.ret Cmd.completion Cmd.state Cmd.effects].
  rewrite bind_eval, Hstate. cbn [Cmd.ret Cmd.completion Cmd.state Cmd.effects].
  rewrite Hv, bind_eval.
  unfold PausedSessionState.evaluateMemory.
  rewrite bind_eval. cbn [Cmd.get Cmd.completion Cmd.state Cmd.effects].
  rewrite bind_eval, H0. cbn [Cmd.defined Cmd.ret Cmd.completion Cmd.state Cmd.effects].
  rewrite bind_eval. cbn [Cmd.request Cmd.completion Cmd.state Cmd.effects].
  destruct (Cmd.gateway env (requests fx) _) as [[value|]|e]; reflexivity.
Qed.

(** C9: in a paused session every memory read of [dumpVariable] is
    evaluated on the call frame id of stack frame 0, wherever the focus is;
    and when the focused frame has its store and the variable resolves,
    that read is issued: the bytes from its address to its address plus its
    size, on frame 0. *)
Theorem dumpVariable_reads_memory_on_frame_0 env m fx this (expr : string) :
  DebugSessionManager.sessionState m = DebugSessionManager.Paused this ->
  let o := DebugSessionManager.dumpVariable expr env m fx in
  (exists new,
      requests (Cmd.effects o) = (requests fx ++ new)%list /\
      forall id expression,
        In (Debugger_evaluateOnCallFrame id expression) new ->
        exists frame0,
          nth_error (PausedSessionState.stackFrames this) 0 = Some frame0 /\
          id = callFrameId (RuntimeStackFrame.frame frame0)) /\
  (forall frame st v,
      JS.array_get (PausedSessionState.stackFrames this)
                   (PausedSessionState.selectedFrameIndex this) = Some frame ->
      RuntimeStackFrame.state frame = Some st ->
      DebugSession.getVariableValue (DebugSessionManager.session m) expr
        (IRuntimeStackFrame.instruction (RuntimeStackFrame.stack frame)) st = Some v ->
      exists frame0,
        nth_error (PausedSessionState.stackFrames this) 0 = Some frame0 /\
        requests (Cmd.effects o) =
          (requests fx ++
           [Debugger_evaluateOnCallFrame
              (callFrameId (RuntimeStackFrame.frame frame0))
              (Uint8Array_subarray (VariableInfo.address v)
                 (JS.add (VariableInfo.address v) (VariableInfo.byte_size v)))])%list).
Proof.
  intros Hpaused o. subst o. unfold DebugSessionManager.dumpVariable.
  rewrite (dispatch_paused env m fx _ _ this Hpaused).
  cbn [Cmd.effects]. split.
  - destruct (dumpVariable_issues (frame0_id this) (DebugSessionManager.session m) expr
                                  env this fx eq_refl) as (_ & new & Hnew & Hall).
    exists new. split; [exact Hnew|].
    intros id expression Hin.
    rewrite Forall_forall in Hall. specialize (Hall _ Hin). simpl in Hall.
    unfold frame0_id in Hall.
    destruct (nth_error (PausedSessionState.stackFrames this) 0) as [frame0|];
      [|discriminate].
    exists frame0. split; [reflexivity|]. simpl in Hall. congruence.
  - intros frame st v Hframe Hstate Hv.
    destruct (dumpVariable_resolved env this fx _ expr frame st v Hframe Hstate Hv)
      as (frame0 & H0 & Hfx).
    exists frame0. split; [exact H0|]. rewrite Hfx. reflexivity.
Qed.

End DumpVariableOnFrame0.

(** The focus is on frame 1; the bytes of [x] are read on frame 0. *)
Lemma dumpVariable_reads_memory_on_frame_0_witness :
  let o := DebugSessionManager.dumpVariable "x" (Examples.env Examples.resolving)
             Examples.paused_in_two_frames no_effects in
  DebugSessionManager.sessionState Examples.paused_in_two_frames =
    DebugSessionManager.Paused Examples.two_frames /\
  PausedSessionState.selectedFrameIndex Examples.two_frames = JS.of_Z 1 /\
  requests (Cmd.effects o) =
    [Debugger_evaluateOnCallFrame "frame-0"
       (Uint8Array_subarray (JS.of_Z 1024) (JS.of_Z 1028))] /\
  Cmd.completion o = Normal (Some "x = 1").
Proof.
  split; [reflexivity|]. split; [reflexivity|].
  destruct (dumpVariable_reads_memory_on_frame_0
              (Examples.env Examples.resolving) Examples.paused_in_two_frames
              no_effects Examples.two_frames "x" eq_refl) as (_ & Hread).
  destruct (Hread (RuntimeStackFrame.set_state Examples.store
                     (DebugSessionManager.stackFrame_of Examples.one_module
                        (Examples.callFrame "frame-1" "1" JS.pos_zero 40) 1))
                  Examples.store
                  {| VariableInfo.address := JS.of_Z 1024;
                     VariableInfo.byte_size := JS.of_Z 4;
                     VariableInfo.print := fun _ => Some "x = 1" |}
                  eq_refl eq_refl eq_refl) as (frame0 & H0 & Hreq).
  injection H0 as <-.
  split; [exact Hreq|reflexivity].
Defined.

(** ** Page navigation *)

Section Navigation.
Context {WasmValueVector : Type}.
Implicit Types (env : Cmd.Env WasmValueVector)
               (m : DebugSessionManager.t WasmValueVector)
               (this : PausedSessionState.t WasmValueVector)
               (fx : Effects).

Lemma onLoad_outcome env m fx :
  DebugSessionManager.onLoad env m fx =
  {| Cmd.completion := Normal tt;
     Cmd.state := DebugSessionManager.set_session DebugSession.new m;
     Cmd.effects :=
       {| console := console fx ++ [console_log "Page navigated."];
          requests := requests fx;
          adapterEvents := adapterEvents fx;
          freed := freed fx ++
                   map WebAssemblyFile.scriptID
                       (DebugSession.sources (DebugSessionManager.session m)) |} |}.
Proof. reflexivity. Qed.

(** [listVariable] on a paused session without modules: the focused frame
    is read, no module knows its address, and the answer is the empty list
    after [not available.]; without a focused frame, reading it throws. *)
Lemma listVariable_without_modules env m fx this :
  DebugSessionManager.sessionState m = DebugSessionManager.Paused this ->
  DebugSession.sources (DebugSessionManager.session m) = [] ->
  DebugSessionManager.listVariable env m fx =
  match JS.array_get (PausedSessionState.stackFrames this)
                     (PausedSessionState.selectedFrameIndex this) with
  | Some _ =>
      {| Cmd.completion := Normal []; Cmd.state := m;
         Cmd.effects := Cmd.with_console [console_log "not available."] fx |}
  | None =>
      {| Cmd.completion := Throw (TypeError "Cannot read properties of undefined");
         Cmd.state := m; Cmd.effects := fx |}
  end.
Proof.
  intros Hpaused Hsources. unfold DebugSessionManager.listVariable.
  rewrite (dispatch_paused env m fx _ _ this Hpaused).
  assert (Hm : DebugSessionManager.set_sessionState (DebugSessionManager.Paused this) m = m).
  { destruct m as [s b st]. simpl in Hpaused. subst st. reflexivity. }
  unfold PausedSessionState.listVariable, PausedSessionState.selectedFrame,
    DebugSession.getVariablelistFromAddress.
  rewrite Hsources.
  rewrite bind_eval, bind_eval. cbn [Cmd.get Cmd.completion Cmd.state Cmd.effects].
  destruct (JS.array_get _ _) as [frame|];
    cbn [Cmd.defined Cmd.ret Cmd.throw Cmd.completion Cmd.state Cmd.effects
         DebugSession.getVariablelist_loop];
    rewrite ?bind_eval;
    cbn [Cmd.log Cmd.emit Cmd.ret Cmd.completion Cmd.state Cmd.effects];
    rewrite Hm; reflexivity.
Qed.

(** C2, as amended: a page navigation on a paused session empties the
    module list and nothing else: the session stays paused on the same
    stack frames with the same focus, and no request is issued.  From then
    on, and as long as that state lasts, [listVariable] answers through the
    paused state: with a focused frame it returns the empty list after
    [not available.], issues no request and changes nothing (so the next
    call answers the same), and it never writes [Debugger not paused!]. *)
Theorem onLoad_while_paused env m fx this :
  DebugSessionManager.sessionState m = DebugSessionManager.Paused this ->
  let o := DebugSessionManager.onLoad env m fx in
  let m' := Cmd.state o in
  Cmd.completion o = Normal tt /\
  DebugSession.sources (DebugSessionManager.session m') = [] /\
  DebugSessionManager.sessionState m' = DebugSessionManager.Paused this /\
  DebugSessionManager.breakPoints m' = DebugSessionManager.breakPoints m /\
  requests (Cmd.effects o) = requests fx /\
  (forall env' fx' frame,
      JS.array_get (PausedSessionState.stackFrames this)
                   (PausedSessionState.selectedFrameIndex this) = Some frame ->
      DebugSessionManager.listVariable env' m' fx' =
      {| Cmd.completion := Normal []; Cmd.state := m';
         Cmd.effects := Cmd.with_console [console_log "not available."] fx' |}) /\
  (forall env' fx',
      JS.array_get (PausedSessionState.stackFrames this)
                   (PausedSessionState.selectedFrameIndex this) = None ->
      DebugSessionManager.listVariable env' m' fx' =
      {| Cmd.completion := Throw (TypeError "Cannot read properties of undefined");
         Cmd.state := m'; Cmd.effects := fx' |}) /\
  (forall env' fx',
      DebugSessionManager.listVariable env' m' fx' <>
      NormalSessionState.listVariable env' m' fx').
Proof.
  intros Hpaused o m'. subst m' o. rewrite onLoad_outcome.
  cbn [Cmd.completion Cmd.state Cmd.effects requests
       DebugSessionManager.set_session DebugSessionManager.session
       DebugSessionManager.sessionState DebugSessionManager.breakPoints
       DebugSession.new DebugSession.sources].
  repeat (split; [solve [reflexivity | exact Hpaused]|]).
  pose proof (fun env' fx' =>
                listVariable_without_modules
                  env' (DebugSessionManager.set_session DebugSession.new m) fx' this
                  Hpaused eq_refl) as Hlist.
  split; [|split].
  - intros env' fx' frame Hframe. rewrite Hlist, Hframe. reflexivity.
  - intros env' fx' Hframe. rewrite Hlist, Hframe. reflexivity.
  - intros env' fx'. rewrite Hlist.
    unfold NormalSessionState.listVariable.
    rewrite bind_eval. cbn [Cmd.log Cmd.emit Cmd.ret Cmd.completion Cmd.state Cmd.effects].
    destruct (JS.array_get _ _); [|discriminate].
    intros Heq. apply (f_equal (fun o => console (Cmd.effects o))) in Heq.
    cbn [Cmd.effects Cmd.with_console console] in Heq.
    apply app_inv_head in Heq. discriminate Heq.
Qed.

End Navigation.

Lemma onLoad_while_paused_witness :
  let o := DebugSessionManager.onLoad (Examples.env Examples.resolving)
             Examples.paused_in_two_frames no_effects in
  DebugSessionManager.sessionState Examples.paused_in_two_frames =
    DebugSessionManager.Paused Examples.two_frames /\
  DebugSession.sources (DebugSessionManager.session (Cmd.state o)) = [] /\
  DebugSessionManager.sessionState (Cmd.state o) =
    DebugSessionManager.Paused Examples.two_frames /\
  freed (Cmd.effects o) = ["1"] /\
  DebugSessionManager.listVariable (Examples.env Examples.resolving) (Cmd.state o)
                                   (Cmd.effects o) =
    {| Cmd.completion := Normal []; Cmd.state := Cmd.state o;
       Cmd.effects := Cmd.with_console [console_log "not available."] (Cmd.effects o) |}.
Proof.
  split; [reflexivity|].
  destruct (onLoad_while_paused
              (Examples.env Examples.resolving) Examples.paused_in_two_frames
              no_effects Examples.two_frames eq_refl)
    as (_ & Hsources & Hstate & _ & _ & Hlist & _).
  split; [exact Hsources|]. split; [exact Hstate|]. split; [reflexivity|].
  cbv zeta.
  exact (Hlist (Examples.env Examples.resolving)
                  (Cmd.effects (DebugSessionManager.onLoad
                                  (Examples.env Examples.resolving)
                                  Examples.paused_in_two_frames no_effects))
                  (RuntimeStackFrame.set_state Examples.store
                     (DebugSessionManager.stackFrame_of Examples.one_module
                        (Examples.callFrame "frame-1" "1" JS.pos_zero 40) 1))
                  eq_refl).
Defined.

(** C2, as stated, fails: after a navigation on a paused session the stack
    frames are still there, and [listVariable] answers [not available.]
    through the paused state, not [Debugger not paused!]. *)
Lemma onLoad_keeps_the_session_paused :
  let env := Examples.env Examples.resolving in
  let navigated := DebugSessionManager.onLoad env Examples.paused_in_two_frames
                     no_effects in
  let listed := DebugSessionManager.listVariable env (Cmd.state navigated)
                  (Cmd.effects navigated) in
  DebugSessionManager.sessionState (Cmd.state navigated) =
    DebugSessionManager.Paused Examples.two_frames /\
  List.length (PausedSessionState.stackFrames Examples.two_frames) = 2 /\
  DebugSessionManager.sessionState (Cmd.state navigated) <> DebugSessionManager.Running /\
  Cmd.completion listed = Normal [] /\
  console (Cmd.effects listed) =
    [console_log "Page navigated."; console_log "not available."] /\
  ~ In (console_warn "Debugger not paused!") (console (Cmd.effects listed)).
Proof.
  cbv zeta. split; [reflexivity|]. split; [reflexivity|].
  split; [discriminate|]. split; [reflexivity|]. split; [reflexivity|].
  simpl. intros [H|[H|[]]]; discriminate H.
Qed.

(* ===================================================================== *)
(** * Further properties                                                  *)
(* ===================================================================== *)

(** ** The breakpoint registry *)

(** Nothing is [==] to [NaN]. *)
Lemma eqb_NaN_r (x y : JS.number) : JS.is_nan y = true -> JS.eqb x y = false.
Proof.
  destruct y; try discriminate. intros _. destruct x as [s|s| |s m e]; reflexivity.
Qed.

Lemma filter_app_last {A : Type} (p : A -> bool) (l : list A) (x : A) :
  p x = true -> filter p (l ++ [x]) = (filter p l ++ [x])%list.
Proof. intros Hx. rewrite filter_app. simpl. rewrite Hx. reflexivity. Qed.

(** The pieces of a string that starts with a piece [f] and a separator. *)
Lemma split_piece (sep : ascii) (f rest : string) :
  JS.includes sep f = false ->
  JS.split sep (f ++ String sep rest) = f :: JS.split sep rest.
Proof.
  induction f as [|c f IH]; simpl; intros H.
  - rewrite Ascii.eqb_refl. reflexivity.
  - apply orb_false_iff in H. destruct H as [Hc Hf].
    rewrite Hc, (IH Hf). reflexivity.
Qed.

Section BreakPointRegistry.
Context {WasmValueVector : Type}.
Implicit Types (env : Cmd.Env WasmValueVector)
               (m : DebugSessionManager.t WasmValueVector)
               (fx : Effects).

(** What [removeAllBreakPoints] leaves behind, however its promises settle. *)
Lemma removeAllBreakPoints_outcome env m fx (path : string) :
  let o := DebugSessionManager.removeAllBreakPoints path env m fx in
  Cmd.state o =
    DebugSessionManager.set_breakPoints
      (filter (fun x => negb (String.eqb (RuntimeBreakPoint.file x) path))
              (DebugSessionManager.breakPoints m)) m /\
  Cmd.effects o =
    Cmd.with_requests
      (map (fun x => Debugger_removeBreakpoint (RuntimeBreakPoint.rawId x))
           (filter (fun x => String.eqb (RuntimeBreakPoint.file x) path)
                   (DebugSessionManager.breakPoints m))) fx.
Proof.
  cbv zeta. unfold DebugSessionManager.removeAllBreakPoints.
  destruct (unregister_each env m fx
              (filter (fun x => String.eqb (RuntimeBreakPoint.file x) path)
                      (DebugSessionManager.breakPoints m)))
    as ((promises & Hp & _) & Hstate & Hfx).
  rewrite bind_eval. cbn [Cmd.get Cmd.completion Cmd.state Cmd.effects].
  rewrite bind_eval, Hp, Hstate, Hfx.
  rewrite bind_eval. cbn [Cmd.get Cmd.completion Cmd.state Cmd.effects].
  rewrite bind_eval. cbn [Cmd.put Cmd.completion Cmd.state Cmd.effects].
  clear Hp. induction promises as [|[v|e] promises IH]; cbn; auto.
Qed.

(** X1: [removeAllBreakPoints(path)] drops exactly the records of the file
    [path] and keeps the others in their order; it issues one
    [removeBreakpoint] request per dropped record, in registry order; the
    modules and the session state are not touched; and all of this holds
    however the removals are answered. *)
Theorem removeAllBreakPoints_drops_the_file env m fx (path : string) :
  let o := DebugSessionManager.removeAllBreakPoints path env m fx in
  let left := DebugSessionManager.breakPoints (Cmd.state o) in
  Forall (fun x => RuntimeBreakPoint.file x <> path) left /\
  (forall x, In x left <->
             In x (DebugSessionManager.breakPoints m) /\ RuntimeBreakPoint.file x <> path) /\
  left = filter (fun x => negb (String.eqb (RuntimeBreakPoint.file x) path))
                (DebugSessionManager.breakPoints m) /\
  requests (Cmd.effects o) =
    (requests fx ++
     map (fun x => Debugger_removeBreakpoint (RuntimeBreakPoint.rawId x))
         (filter (fun x => String.eqb (RuntimeBreakPoint.file x) path)
                 (DebugSessionManager.breakPoints m)))%list /\
  DebugSessionManager.session (Cmd.state o) = DebugSessionManager.session m /\
  DebugSessionManager.sessionState (Cmd.state o) = DebugSessionManager.sessionState m.
Proof.
  intros o left. destruct (removeAllBreakPoints_outcome env m fx path) as (Hstate & Hfx).
  assert (Hleft : left = filter (fun x => negb (String.eqb (RuntimeBreakPoint.file x) path))
                                (DebugSessionManager.breakPoints m)).
  { subst left o. rewrite Hstate. reflexivity. }
  assert (Hin : forall x, In x left <->
                          In x (DebugSessionManager.breakPoints m) /\
                          RuntimeBreakPoint.file x <> path).
  { intros x. rewrite Hleft, filter_In, negb_true_iff, String.eqb_neq. reflexivity. }
  split; [apply Forall_forall; intros x Hx; apply Hin in Hx; tauto|].
  split; [exact Hin|]. split; [exact Hleft|].
  split; [subst o; rewrite Hfx; reflexivity|].
  subst o. rewrite Hstate. split; reflexivity.
Qed.

(** [getBreakPointsList] in one equation. *)
Lemma getBreakPointsList_outcome env m fx (location : string) :
  let fileInfo := JS.split ":"%char location in
  DebugSessionManager.getBreakPointsList location env m fx =
  {| Cmd.completion :=
       Normal (if JS.includes ":"%char location then
                 map (fun x => {| ListedBreakPoint.breakPoint := x;
                                  ListedBreakPoint.verified := true |})
                     (filter (fun x =>
                                String.eqb (RuntimeBreakPoint.file x)
                                           (nth 0 fileInfo EmptyString)
                                && JS.eqb (RuntimeBreakPoint.line x)
                                          (JS.Number (nth 1 fileInfo EmptyString)))
                             (DebugSessionManager.breakPoints m))
               else []);
     Cmd.state := m;
     Cmd.effects := fx |}.
Proof.
  intros fileInfo. unfold DebugSessionManager.getBreakPointsList. fold fileInfo.
  destruct (JS.includes ":"%char location) eqn:Hsep.
  - pose proof (split_with_separator _ _ Hsep) as Hlen. fold fileInfo in Hlen.
    destruct (Nat.ltb_spec (List.length fileInfo) 2) as [Hlt|_]; [lia|]. reflexivity.
  - unfold fileInfo. rewrite (split_without_separator _ _ Hsep). reflexivity.
Qed.

(** X2: [getBreakPointsList] only reads: it cannot throw, changes nothing,
    writes nothing and issues no request.  What it lists are the registry
    records whose file is the first piece of the location and whose line is
    [==] to [Number] of the second piece, each marked verified; so a
    location without [:] and a location whose line is [NaN] list nothing. *)
Theorem getBreakPointsList_only_reads env m fx (location : string) :
  let fileInfo := JS.split ":"%char location in
  let debugfilename := nth 0 fileInfo EmptyString in
  let debugline := JS.Number (nth 1 fileInfo EmptyString) in
  let o := DebugSessionManager.getBreakPointsList location env m fx in
  Cmd.state o = m /\ Cmd.effects o = fx /\
  exists listed,
    Cmd.completion o = Normal listed /\
    (JS.includes ":"%char location = false -> listed = []) /\
    (JS.is_nan debugline = true -> listed = []) /\
    (forall b, In b listed <->
               JS.includes ":"%char location = true /\
               ListedBreakPoint.verified b = true /\
               In (ListedBreakPoint.breakPoint b) (DebugSessionManager.breakPoints m) /\
               RuntimeBreakPoint.file (ListedBreakPoint.breakPoint b) = debugfilename /\
               JS.eqb (RuntimeBreakPoint.line (ListedBreakPoint.breakPoint b)) debugline
               = true).
Proof.
  intros fileInfo debugfilename debugline o. subst o.
  rewrite getBreakPointsList_outcome. fold fileInfo debugfilename debugline.
  cbn [Cmd.completion Cmd.state Cmd.effects].
  split; [reflexivity|]. split; [reflexivity|]. eexists. split; [reflexivity|].
  split; [intros ->; reflexivity|]. split.
  - intros Hnan. destruct (JS.includes ":"%char location); [|reflexivity].
    rewrite (filter_none _ (DebugSessionManager.breakPoints m)); [reflexivity|].
    intros x _. rewrite (eqb_NaN_r _ _ Hnan). apply andb_false_r.
  - intros b. destruct (JS.includes ":"%char location).
    + rewrite in_map_iff. split.
      * intros (x & <- & Hx). apply filter_In in Hx. destruct Hx as [Hx Hmatch].
        apply andb_true_iff in Hmatch. destruct Hmatch as [Hfile Hline].
        apply String.eqb_eq in Hfile. simpl. auto.
      * intros (_ & Hv & Hx & Hfile & Hline). exists (ListedBreakPoint.breakPoint b).
        split; [destruct b; simpl in *; subst; reflexivity|].
        apply filter_In. split; [exact Hx|].
        rewrite Hfile, String.eqb_refl, Hline. reflexivity.
    + split; [intros []|intros [H _]; discriminate H].
Qed.

(** X3: listing the location a breakpoint was just set at.  When the line
    is a number, the new record closes the list, marked verified; when the
    line is [NaN] the list is empty although the record is stored, since
    [NaN == NaN] is false. *)
Theorem setBreakPoint_then_getBreakPointsList env m fx (location bp : string) :
  let fileInfo := JS.split ":"%char location in
  let debugfilename := nth 0 fileInfo EmptyString in
  let debugline := JS.Number (nth 1 fileInfo EmptyString) in
  let wasmLocation :=
    DebugSession.findAddressFromFileLocation
      (DebugSessionManager.session m) debugfilename debugline in
  let r := Debugger_setBreakpoint
             (option_map WasmLocation.scriptId wasmLocation)
             (option_map WasmLocation.line wasmLocation)
             (option_map WasmLocation.column wasmLocation) in
  let set := DebugSessionManager.setBreakPoint location env m fx in
  let listed := DebugSessionManager.getBreakPointsList location env
                  (Cmd.state set) (Cmd.effects set) in
  JS.includes ":"%char location = true ->
  Cmd.gateway env (requests fx) r = Normal bp ->
  (JS.is_nan debugline = false ->
   exists earlier id,
     allocated set = Some id /\
     Cmd.completion listed =
       Normal (earlier ++
               [{| ListedBreakPoint.breakPoint :=
                     {| RuntimeBreakPoint.id := id;
                        RuntimeBreakPoint.rawId := bp;
                        RuntimeBreakPoint.file := debugfilename;
                        RuntimeBreakPoint.line := debugline;
                        RuntimeBreakPoint.column := None |};
                   ListedBreakPoint.verified := true |}])%list) /\
  (JS.is_nan debugline = true ->
   Cmd.completion listed = Normal [] /\
   exists x, In x (DebugSessionManager.breakPoints (Cmd.state set)) /\
             RuntimeBreakPoint.rawId x = bp /\
             RuntimeBreakPoint.file x = debugfilename).
Proof.
  intros fileInfo debugfilename debugline wasmLocation r set listed Hsep Hreply.
  subst listed set.
  rewrite (setBreakPoint_resolved env m fx location bp Hsep Hreply).
  fold fileInfo debugfilename debugline.
  cbn [Cmd.state Cmd.effects]. rewrite getBreakPointsList_outcome, Hsep.
  fold fileInfo debugfilename debugline.
  cbn [Cmd.completion DebugSessionManager.set_breakPoints DebugSessionManager.breakPoints].
  split.
  - intros Hnum. rewrite filter_app_last, map_app.
    + eexists. eexists. split; reflexivity.
    + cbn [RuntimeBreakPoint.file RuntimeBreakPoint.line].
      rewrite String.eqb_refl, (eqb_refl _ Hnum). reflexivity.
  - intros Hnan. split.
    + rewrite filter_none; [reflexivity|].
      intros x _. rewrite (eqb_NaN_r _ _ Hnan). apply andb_false_r.
    + eexists. split; [apply in_or_app; right; left; reflexivity|]. split; reflexivity.
Qed.

(** X4: only the first two pieces of a location count.  With [f] and [l]
    free of [:], the location [f:l:rest] sets and lists exactly what [f:l]
    does: anything after a second [:] is ignored, and the file is what
    precedes the first [:]. *)
Theorem location_further_pieces_are_ignored env m fx (f l rest : string) :
  JS.includes ":"%char f = false ->
  JS.includes ":"%char l = false ->
  let long := (f ++ String ":"%char (l ++ String ":"%char rest))%string in
  let short := (f ++ String ":"%char l)%string in
  nth 0 (JS.split ":"%char long) EmptyString = f /\
  nth 1 (JS.split ":"%char long) EmptyString = l /\
  DebugSessionManager.setBreakPoint long env m fx =
    DebugSessionManager.setBreakPoint short env m fx /\
  DebugSessionManager.getBreakPointsList long env m fx =
    DebugSessionManager.getBreakPointsList short env m fx.
Proof.
  intros Hf Hl long short.
  assert (Hlong : JS.split ":"%char long = f :: l :: JS.split ":"%char rest).
  { unfold long. rewrite (split_piece _ _ _ Hf), (split_piece _ _ _ Hl). reflexivity. }
  assert (Hshort : JS.split ":"%char short = [f; l]).
  { unfold short. rewrite (split_piece _ _ _ Hf), (split_without_separator _ _ Hl).
    reflexivity. }
  rewrite Hlong. split; [reflexivity|]. split; [reflexivity|].
  unfold DebugSessionManager.setBreakPoint, DebugSessionManager.getBreakPointsList.
  rewrite Hlong, Hshort. split; reflexivity.
Qed.

End BreakPointRegistry.

Lemma setBreakPoint_then_getBreakPointsList_witness :
  let set := DebugSessionManager.setBreakPoint "main.c:5"
               (Examples.env Examples.resolving) Examples.two_breakPoints no_effects in
  let listed := DebugSessionManager.getBreakPointsList "main.c:5"
                  (Examples.env Examples.resolving) (Cmd.state set) (Cmd.effects set) in
  JS.includes ":"%char "main.c:5" = true /\
  JS.is_nan (JS.Number "5") = false /\
  exists earlier id,
    allocated set = Some id /\
    Cmd.completion listed =
      Normal (earlier ++
              [{| ListedBreakPoint.breakPoint :=
                    {| RuntimeBreakPoint.id := id;
                       RuntimeBreakPoint.rawId := "bp";
                       RuntimeBreakPoint.file := "main.c";
                       RuntimeBreakPoint.line := JS.of_Z 5;
                       RuntimeBreakPoint.column := None |};
                  ListedBreakPoint.verified := true |}])%list.
Proof.
  split; [reflexivity|]. split; [reflexivity|].
  destruct (setBreakPoint_then_getBreakPointsList
              (Examples.env Examples.resolving) Examples.two_breakPoints no_effects
              "main.c:5" "bp" eq_refl eq_refl) as (Hnum & _).
  exact (Hnum eq_refl).
Defined.

(** A Windows path: the drive letter is taken for the file and the rest of
    the path for the line. *)
Lemma location_further_pieces_are_ignored_witness :
  JS.includes ":"%char "C" = false /\
  JS.includes ":"%char "\src\main.c" = false /\
  nth 0 (JS.split ":"%char "C:\src\main.c:5") EmptyString = "C" /\
  nth 1 (JS.split ":"%char "C:\src\main.c:5") EmptyString = "\src\main.c" /\
  DebugSessionManager.setBreakPoint "C:\src\main.c:5"
    (Examples.env Examples.resolving) DebugSessionManager.new no_effects =
  DebugSessionManager.setBreakPoint "C:\src\main.c"
    (Examples.env Examples.resolving) DebugSessionManager.new no_effects.
Proof.
  split; [reflexivity|]. split; [reflexivity|].
  destruct (location_further_pieces_are_ignored
              (Examples.env Examples.resolving) DebugSessionManager.new no_effects
              "C" "\src\main.c" "5" eq_refl eq_refl) as (H0 & H1 & Hset & _).
  split; [exact H0|]. split; [exact H1|exact Hset].
Defined.

Section BreakPointIds.
Context {WasmValueVector : Type}.
Implicit Types (env : Cmd.Env WasmValueVector)
               (m : DebugSessionManager.t WasmValueVector)
               (fx : Effects).

Lemma Forall_filter {A : Type} (P : A -> Prop) (p : A -> bool) (l : list A) :
  Forall P l -> Forall P (filter p l).
Proof.
  intros H. apply Forall_forall. intros x Hx. apply filter_In in Hx.
  rewrite Forall_forall in H. apply H. tauto.
Qed.

(** X5: the ids of the registry.  The constructor's registry is empty, and
    the three functions that write the registry keep every id equal to
    [-Infinity]: [setBreakPoint] hands out [-Infinity] (or nothing), the two
    removals only drop records.  So every id ever handed out by a manager
    is [-Infinity]. *)
Theorem breakPoint_ids_are_neg_Infinity env m fx :
  let ids_neg_Infinity (m : DebugSessionManager.t WasmValueVector) :=
    Forall (fun b => RuntimeBreakPoint.id b = JS.neg_Infinity)
           (DebugSessionManager.breakPoints m) in
  ids_neg_Infinity DebugSessionManager.new /\
  (ids_neg_Infinity m ->
   (forall location,
       let o := DebugSessionManager.setBreakPoint location env m fx in
       ids_neg_Infinity (Cmd.state o) /\
       (allocated o = None \/ allocated o = Some JS.neg_Infinity)) /\
   (forall id,
       ids_neg_Infinity (Cmd.state (DebugSessionManager.removeBreakPoint id env m fx))) /\
   (forall path,
       ids_neg_Infinity
         (Cmd.state (DebugSessionManager.removeAllBreakPoints path env m fx)))).
Proof.
  intros ids_neg_Infinity. split; [constructor|]. intros Hm. split; [|split].
  - intros location. apply setBreakPoint_keeps_neg_Infinity. exact Hm.
  - intros id. destruct (removeBreakPoint_outcome env m fx id) as (Hstate & _).
    unfold ids_neg_Infinity. rewrite Hstate. apply Forall_filter. exact Hm.
  - intros path. destruct (removeAllBreakPoints_outcome env m fx path) as (Hstate & _).
    unfold ids_neg_Infinity. rewrite Hstate. apply Forall_filter. exact Hm.
Qed.

(** X6: what an id selects.  In a registry whose ids are all [-Infinity],
    removing the id [-Infinity] removes every breakpoint, with one request
    per record, and removing any other id removes nothing and issues no
    request. *)
Theorem removeBreakPoint_by_shared_id env m fx (id : JS.number) :
  Forall (fun b => RuntimeBreakPoint.id b = JS.neg_Infinity)
         (DebugSessionManager.breakPoints m) ->
  let o := DebugSessionManager.removeBreakPoint id env m fx in
  (id = JS.neg_Infinity ->
   DebugSessionManager.breakPoints (Cmd.state o) = [] /\
   requests (Cmd.effects o) =
     (requests fx ++ map (fun x => Debugger_removeBreakpoint (RuntimeBreakPoint.rawId x))
                         (DebugSessionManager.breakPoints m))%list) /\
  (id <> JS.neg_Infinity ->
   Cmd.state o = m /\ Cmd.effects o = fx /\ Cmd.completion o = Normal tt).
Proof.
  intros Hall o.
  assert (Hsame : forall p : RuntimeBreakPoint.t -> bool,
             (forall x, RuntimeBreakPoint.id x = JS.neg_Infinity -> p x = true) ->
             filter p (DebugSessionManager.breakPoints m) = DebugSessionManager.breakPoints m).
  { intros p Hp. induction Hall as [|x l Hx _ IH]; simpl; [reflexivity|].
    rewrite (Hp x Hx), IH. reflexivity. }
  assert (Hnone : forall p : RuntimeBreakPoint.t -> bool,
             (forall x, RuntimeBreakPoint.id x = JS.neg_Infinity -> p x = false) ->
             filter p (DebugSessionManager.breakPoints m) = []).
  { intros p Hp. apply filter_none. intros x Hx. apply Hp.
    rewrite Forall_forall in Hall. apply Hall. exact Hx. }
  split.
  - intros ->. destruct (removeBreakPoint_outcome env m fx JS.neg_Infinity) as (Hstate & Hfx).
    subst o. rewrite Hstate, Hfx.
    cbn [DebugSessionManager.set_breakPoints DebugSessionManager.breakPoints
         Cmd.with_requests requests].
    rewrite Hnone by (intros x ->; reflexivity).
    rewrite Hsame by (intros x ->; reflexivity). split; reflexivity.
  - intros Hid.
    assert (Hneq : forall x, RuntimeBreakPoint.id x = JS.neg_Infinity ->
                             JS.eqb (RuntimeBreakPoint.id x) id = false).
    { intros x ->. destruct id as [s|[|]| |s p e]; try reflexivity.
      contradiction Hid. reflexivity. }
    subst o. unfold DebugSessionManager.removeBreakPoint.
    rewrite bind_eval. cbn [Cmd.get Cmd.completion Cmd.state Cmd.effects].
    rewrite (Hnone _ Hneq). cbn [Cmd.mapM].
    rewrite bind_eval. cbn [Cmd.ret Cmd.completion Cmd.state Cmd.effects].
    rewrite bind_eval. cbn [Cmd.get Cmd.completion Cmd.state Cmd.effects].
    rewrite bind_eval. cbn [Cmd.put Cmd.completion Cmd.state Cmd.effects Cmd.Promise_all Cmd.ret].
    rewrite Hsame by (intros x Hx; unfold JS.neb; rewrite (Hneq x Hx); reflexivity).
    split; [|split; reflexivity]. destruct m; reflexivity.
Qed.

End BreakPointIds.

Lemma breakPoint_ids_are_neg_Infinity_witness :
  Forall (fun b => RuntimeBreakPoint.id b = JS.neg_Infinity)
         (DebugSessionManager.breakPoints Examples.two_breakPoints) /\
  allocated (DebugSessionManager.setBreakPoint "lib.c:9"
               (Examples.env Examples.resolving) Examples.two_breakPoints no_effects)
  = Some JS.neg_Infinity.
Proof.
  assert (H : Forall (fun b => RuntimeBreakPoint.id b = JS.neg_Infinity)
                     (DebugSessionManager.breakPoints Examples.two_breakPoints)).
  { repeat constructor. }
  split; [exact H|].
  destruct (breakPoint_ids_are_neg_Infinity
              (Examples.env Examples.resolving) Examples.two_breakPoints no_effects)
    as (_ & Hkeep).
  destruct (Hkeep H) as (Hset & _).
  destruct (Hset "lib.c:9") as (_ & [Hnone|Hsome]); [discriminate Hnone|exact Hsome].
Defined.

Lemma removeBreakPoint_by_shared_id_witness :
  let o := DebugSessionManager.removeBreakPoint JS.neg_Infinity
             (Examples.env Examples.resolving) Examples.two_breakPoints no_effects in
  Forall (fun b => RuntimeBreakPoint.id b = JS.neg_Infinity)
         (DebugSessionManager.breakPoints Examples.two_breakPoints) /\
  DebugSessionManager.breakPoints (Cmd.state o) = [] /\
  requests (Cmd.effects o) =
    [Debugger_removeBreakpoint "1:0:16"; Debugger_removeBreakpoint "1:0:32"].
Proof.
  assert (H : Forall (fun b => RuntimeBreakPoint.id b = JS.neg_Infinity)
                     (DebugSessionManager.breakPoints Examples.two_breakPoints)).
  { repeat constructor. }
  split; [exact H|].
  destruct (removeBreakPoint_by_shared_id
              (Examples.env Examples.resolving) Examples.two_breakPoints no_effects
              JS.neg_Infinity H) as (Hall & _).
  exact (Hall eq_refl).
Defined.

(** ** What the commands of a paused state do to it *)

Ltac issues_go :=
  first [ apply issues_bind; [|intros ?]
        | apply issues_ret | apply issues_throw | apply issues_get | apply issues_ask
        | apply issues_log | apply issues_defined
        | apply issues_request; solve [exact Logic.I | auto]
        | apply issues_run_runtime; intros ?; solve [exact Logic.I | auto] ].

Section PausedCommands.
Context {WasmValueVector : Type}.
Variables (I : PausedSessionState.t WasmValueVector -> Prop) (P : Request -> Prop).
Implicit Types (debugSession : DebugSession.t WasmValueVector).

Lemma showLine_loop_issues (fuel : nat) (lines : list string) (line i endLine : JS.number) :
  issues I P (PausedSessionState.showLine_loop fuel lines line i endLine).
Proof.
  revert i. induction fuel as [|fuel IH]; intros i; simpl; [issues_go|].
  destruct (JS.leb i endLine); [|issues_go].
  apply issues_bind; [issues_go|intros _; apply IH].
Qed.

(** [showLine] reads the focused frame and the file system only. *)
Lemma showLine_issues : issues I P PausedSessionState.showLine.
Proof.
  unfold PausedSessionState.showLine, PausedSessionState.selectedFrame.
  apply issues_bind; [repeat issues_go|intros frame].
  apply issues_bind; [issues_go|intros env].
  destruct (Cmd.existsSync env _); [apply showLine_loop_issues|issues_go].
Qed.

Lemma listVariable_issues debugSession :
  issues I P (PausedSessionState.listVariable debugSession).
Proof.
  unfold PausedSessionState.listVariable, PausedSessionState.selectedFrame.
  apply issues_bind; [repeat issues_go|intros frame].
  destruct (DebugSession.getVariablelistFromAddress _ _); repeat issues_go.
Qed.

Lemma getStackFrames_issues : issues I P PausedSessionState.getStackFrames.
Proof. unfold PausedSessionState.getStackFrames. repeat issues_go. Qed.

Lemma evaluateMemory_issues_when (address size : JS.number) :
  (forall id expression, P (Debugger_evaluateOnCallFrame id expression)) ->
  issues I P (PausedSessionState.evaluateMemory address size).
Proof. intros HP. unfold PausedSessionState.evaluateMemory. repeat issues_go. Qed.

Lemma createWasmValueStore_issues_when (frame : CallFrame) :
  (forall objectId, P (Runtime_getProperties objectId)) ->
  issues I P (PausedSessionState.createWasmValueStore frame).
Proof. intros HP. unfold PausedSessionState.createWasmValueStore. repeat issues_go. Qed.

(** Caching a store keeps what every update of a frame's store keeps. *)
Lemma cache_state_issues_when (index : JS.number) st :
  (forall this n,
      I this ->
      I {| PausedSessionState.stackFrames :=
             PausedSessionState.update_frame n (RuntimeStackFrame.set_state st)
                                             (PausedSessionState.stackFrames this);
           PausedSessionState.selectedFrameIndex :=
             PausedSessionState.selectedFrameIndex this |}) ->
  issues I P (PausedSessionState.cache_state index st).
Proof.
  intros Hkeep env this fx Hthis. unfold PausedSessionState.cache_state.
  rewrite bind_eval. cbn [Cmd.get Cmd.completion Cmd.state Cmd.effects].
  destruct (JS.array_index index) as [n|]; cbn [Cmd.put Cmd.ret Cmd.state Cmd.effects].
  - split; [apply Hkeep; exact Hthis|].
    exists []. rewrite app_nil_r. split; [reflexivity|constructor].
  - split; [exact Hthis|]. exists []. rewrite app_nil_r. split; [reflexivity|constructor].
Qed.

End PausedCommands.

Section KeepsStack.
Context {WasmValueVector : Type}.
Implicit Types (env : Cmd.Env WasmValueVector)
               (m : DebugSessionManager.t WasmValueVector)
               (this start : PausedSessionState.t WasmValueVector)
               (debugSession : DebugSession.t WasmValueVector)
               (fx : Effects).

Lemma map_update_frame {B : Type} (g : RuntimeStackFrame.t WasmValueVector -> B) (n : nat) st
      (frames : list (RuntimeStackFrame.t WasmValueVector)) :
  (forall f, g (RuntimeStackFrame.set_state st f) = g f) ->
  map g (PausedSessionState.update_frame n (RuntimeStackFrame.set_state st) frames) =
  map g frames.
Proof.
  intros Hg. revert n. induction frames as [|f frames IH]; intros [|n]; simpl;
    rewrite ?Hg, ?IH; reflexivity.
Qed.

Lemma same_stack_refl start : same_stack start start.
Proof. split; reflexivity. Qed.

Lemma cache_state_keeps_stack (P : Request -> Prop) start (index : JS.number) st :
  issues (same_stack start) P (PausedSessionState.cache_state index st).
Proof.
  apply cache_state_issues_when. intros this n [Hframes Hstack].
  split; cbn [PausedSessionState.stackFrames].
  - rewrite map_update_frame; [exact Hframes|reflexivity].
  - rewrite map_update_frame; [exact Hstack|reflexivity].
Qed.

Lemma dumpVariable_issues_when (I : PausedSessionState.t WasmValueVector -> Prop)
      (P : Request -> Prop) debugSession (expr : string) :
  (forall objectId, P (Runtime_getProperties objectId)) ->
  (forall id expression, P (Debugger_evaluateOnCallFrame id expression)) ->
  (forall index st, issues I P (PausedSessionState.cache_state index st)) ->
  issues I P (PausedSessionState.dumpVariable debugSession expr).
Proof.
  intros Hget Heval Hcache.
  unfold PausedSessionState.dumpVariable, PausedSessionState.selectedFrame.
  apply issues_bind; [issues_go|intros this].
  apply issues_bind; [repeat issues_go|intros frame].
  apply issues_bind.
  - destruct (RuntimeStackFrame.state frame); [issues_go|].
    apply issues_bind; [apply createWasmValueStore_issues_when; exact Hget|intros st].
    apply issues_bind; [apply Hcache|intros _]. issues_go.
  - intros state.
    destruct (DebugSession.getVariableValue _ _ _ _); [|repeat issues_go].
    apply issues_bind; [apply evaluateMemory_issues_when; exact Heval|intros result].
    issues_go.
Qed.

Lemma setFocusedFrame_keeps_stack (P : Request -> Prop) start (index : JS.number) :
  issues (same_stack start) P (PausedSessionState.setFocusedFrame index).
Proof.
  intros env this fx Hthis. split; [exact Hthis|].
  exists []. rewrite app_nil_r. split; [reflexivity|constructor].
Qed.

(** A dispatched command keeps the modules, the registry and the session
    state when the method of either class does. *)
Lemma dispatch_keeps {A : Type}
      (normal : Cmd.t (DebugSessionManager.t WasmValueVector) A)
      (paused : DebugSession.t WasmValueVector ->
                Cmd.t (PausedSessionState.t WasmValueVector) A) :
  (forall env m fx, Cmd.state (normal env m fx) = m) ->
  (forall debugSession start, issues (same_stack start) (fun _ => True) (paused debugSession)) ->
  keeps_session_and_mode (DebugSessionManager.dispatch normal paused) /\
  keeps_registry (DebugSessionManager.dispatch normal paused).
Proof.
  intros Hnormal Hpaused.
  assert (H : forall env m fx,
             let o := DebugSessionManager.dispatch normal paused env m fx in
             DebugSessionManager.session (Cmd.state o) = DebugSessionManager.session m /\
             same_mode m (Cmd.state o) /\
             DebugSessionManager.breakPoints (Cmd.state o) =
               DebugSessionManager.breakPoints m).
  { intros env m fx. cbv zeta. unfold same_mode.
    destruct (DebugSessionManager.sessionState m) as [|p] eqn:Hm.
    - rewrite (dispatch_running env m fx _ _ Hm), Hnormal, Hm. repeat split.
    - rewrite (dispatch_paused env m fx _ _ p Hm).
      cbn [Cmd.state DebugSessionManager.set_sessionState DebugSessionManager.session
           DebugSessionManager.sessionState DebugSessionManager.breakPoints].
      split; [reflexivity|]. split; [|reflexivity].
      apply (Hpaused (DebugSessionManager.session m) p env p fx). apply same_stack_refl. }
  split; intros env m fx; destruct (H env m fx) as (Hs & Hm & Hb); auto.
Qed.

End KeepsStack.

Section CommandsKeep.
Context {WasmValueVector : Type}.
Implicit Types (env : Cmd.Env WasmValueVector)
               (m : DebugSessionManager.t WasmValueVector)
               (fx : Effects).

Lemma same_mode_sessionState m m' :
  DebugSessionManager.sessionState m' = DebugSessionManager.sessionState m ->
  same_mode m m'.
Proof.
  intros H. unfold same_mode. rewrite H.
  destruct (DebugSessionManager.sessionState m); [exact Logic.I|apply same_stack_refl].
Qed.

(** A command that only replaces the registry. *)
Lemma set_breakPoints_keeps {A : Type}
      (c : Cmd.t (DebugSessionManager.t WasmValueVector) A) :
  (forall env m fx, exists bps,
      Cmd.state (c env m fx) = DebugSessionManager.set_breakPoints bps m) ->
  keeps_session_and_mode c.
Proof.
  intros H env m fx. destruct (H env m fx) as (bps & ->).
  split; [reflexivity|]. apply same_mode_sessionState. reflexivity.
Qed.

Lemma set_breakPoints_same m :
  DebugSessionManager.set_breakPoints (DebugSessionManager.breakPoints m) m = m.
Proof. destruct m; reflexivity. Qed.

Lemma setBreakPoint_state env m fx (location : string) :
  exists bps, Cmd.state (DebugSessionManager.setBreakPoint location env m fx) =
              DebugSessionManager.set_breakPoints bps m.
Proof.
  destruct (JS.includes ":"%char location) eqn:Hsep.
  - pose proof (setBreakPoint_resolved env m fx location) as Hresolved.
    pose proof (setBreakPoint_rejected env m fx location) as Hrejected.
    cbv zeta in Hresolved, Hrejected.
    match type of Hresolved with
    | forall bp, _ -> Cmd.gateway env ?h ?r = _ -> _ =>
        destruct (Cmd.gateway env h r) as [bp|e]
    end.
    + rewrite (Hresolved bp Hsep eq_refl). eexists. reflexivity.
    + rewrite (Hrejected e Hsep eq_refl). eexists. symmetry. apply set_breakPoints_same.
  - rewrite (setBreakPoint_malformed env m fx location Hsep).
    eexists. symmetry. apply set_breakPoints_same.
Qed.

(** X7: no command changes the session state or the module list.  Each of
    the fourteen commands of the manager leaves the modules as they are and
    ends in the session state it started in: a running session stays
    running, and a paused session stays paused on the same call frames and
    stack entries.  The workflow and dump commands, [getBreakPointsList]
    and [jumpToPage] also leave the breakpoint registry as it is. *)
Theorem commands_keep_the_session_state
        (index id : JS.number) (expr location path url : string) :
  (keeps_session_and_mode (WasmValueVector := WasmValueVector) DebugSessionManager.stepOver /\
   keeps_session_and_mode (WasmValueVector := WasmValueVector) DebugSessionManager.stepIn /\
   keeps_session_and_mode (WasmValueVector := WasmValueVector) DebugSessionManager.stepOut /\
   keeps_session_and_mode (WasmValueVector := WasmValueVector) DebugSessionManager.continue /\
   keeps_session_and_mode (WasmValueVector := WasmValueVector)
     DebugSessionManager.getStackFrames /\
   keeps_session_and_mode (WasmValueVector := WasmValueVector)
     (DebugSessionManager.setFocusedFrame index) /\
   keeps_session_and_mode (WasmValueVector := WasmValueVector) DebugSessionManager.showLine /\
   keeps_session_and_mode (WasmValueVector := WasmValueVector)
     DebugSessionManager.listVariable /\
   keeps_session_and_mode (WasmValueVector := WasmValueVector)
     (DebugSessionManager.dumpVariable expr) /\
   keeps_session_and_mode (WasmValueVector := WasmValueVector)
     (DebugSessionManager.setBreakPoint location) /\
   keeps_session_and_mode (WasmValueVector := WasmValueVector)
     (DebugSessionManager.removeBreakPoint id) /\
   keeps_session_and_mode (WasmValueVector := WasmValueVector)
     (DebugSessionManager.removeAllBreakPoints path) /\
   keeps_session_and_mode (WasmValueVector := WasmValueVector)
     (DebugSessionManager.getBreakPointsList location) /\
   keeps_session_and_mode (WasmValueVector := WasmValueVector)
     (DebugSessionManager.jumpToPage url)) /\
  (keeps_registry (WasmValueVector := WasmValueVector) DebugSessionManager.stepOver /\
   keeps_registry (WasmValueVector := WasmValueVector) DebugSessionManager.stepIn /\
   keeps_registry (WasmValueVector := WasmValueVector) DebugSessionManager.stepOut /\
   keeps_registry (WasmValueVector := WasmValueVector) DebugSessionManager.continue /\
   keeps_registry (WasmValueVector := WasmValueVector) DebugSessionManager.getStackFrames /\
   keeps_registry (WasmValueVector := WasmValueVector)
     (DebugSessionManager.setFocusedFrame index) /\
   keeps_registry (WasmValueVector := WasmValueVector) DebugSessionManager.showLine /\
   keeps_registry (WasmValueVector := WasmValueVector) DebugSessionManager.listVariable /\
   keeps_registry (WasmValueVector := WasmValueVector)
     (DebugSessionManager.dumpVariable expr) /\
   keeps_registry (WasmValueVector := WasmValueVector)
     (DebugSessionManager.getBreakPointsList location) /\
   keeps_registry (WasmValueVector := WasmValueVector)
     (DebugSessionManager.jumpToPage url)).
Proof.
  pose proof (dispatch_keeps (WasmValueVector := WasmValueVector)
                NormalSessionState.stepOver (fun _ => PausedSessionState.stepOver)
                (fun _ _ _ => eq_refl) (fun _ start =>
                   issues_request (WasmValueVector := WasmValueVector)
                     (same_stack start) (fun _ => True) Debugger_stepOver Logic.I)) as HstepOver.
  pose proof (dispatch_keeps (WasmValueVector := WasmValueVector)
                NormalSessionState.stepOut (fun _ => PausedSessionState.stepOut)
                (fun _ _ _ => eq_refl) (fun _ start =>
                   issues_request (WasmValueVector := WasmValueVector)
                     (same_stack start) (fun _ => True) Debugger_stepOut Logic.I)) as HstepOut.
  pose proof (dispatch_keeps (WasmValueVector := WasmValueVector)
                NormalSessionState.continue (fun _ => PausedSessionState.continue)
                (fun _ _ _ => eq_refl) (fun _ start =>
                   issues_request (WasmValueVector := WasmValueVector)
                     (same_stack start) (fun _ => True) Debugger_resume Logic.I)) as Hcontinue.
  pose proof (dispatch_keeps (WasmValueVector := WasmValueVector)
                NormalSessionState.getStackFrames (fun _ => PausedSessionState.getStackFrames)
                (fun _ _ _ => eq_refl)
                (fun _ start => getStackFrames_issues (same_stack start) _)) as HgetStackFrames.
  pose proof (dispatch_keeps (WasmValueVector := WasmValueVector)
                NormalSessionState.setFocusedFrame
                (fun _ => PausedSessionState.setFocusedFrame index)
                (fun _ _ _ => eq_refl)
                (fun _ start => setFocusedFrame_keeps_stack _ start index)) as HsetFocusedFrame.
  pose proof (dispatch_keeps (WasmValueVector := WasmValueVector)
                NormalSessionState.showLine (fun _ => PausedSessionState.showLine)
                (fun _ _ _ => eq_refl)
                (fun _ start => showLine_issues (same_stack start) _)) as HshowLine.
  pose proof (dispatch_keeps (WasmValueVector := WasmValueVector)
                NormalSessionState.listVariable PausedSessionState.listVariable
                (fun _ _ _ => eq_refl)
                (fun debugSession start =>
                   listVariable_issues (same_stack start) _ debugSession)) as HlistVariable.
  pose proof (dispatch_keeps (WasmValueVector := WasmValueVector)
                NormalSessionState.dumpVariable
                (fun debugSession => PausedSessionState.dumpVariable debugSession expr)
                (fun _ _ _ => eq_refl)
                (fun debugSession start =>
                   dumpVariable_issues_when (same_stack start) (fun _ => True)
                     debugSession expr (fun _ => Logic.I) (fun _ _ => Logic.I)
                     (cache_state_keeps_stack _ start))) as HdumpVariable.
  assert (HsetFocused :
            keeps_session_and_mode (WasmValueVector := WasmValueVector)
              (DebugSessionManager.setFocusedFrame index) /\
            keeps_registry (WasmValueVector := WasmValueVector)
              (DebugSessionManager.setFocusedFrame index)).
  { destruct HsetFocusedFrame as (Hk & Hr).
    split; intros env m fx; unfold DebugSessionManager.setFocusedFrame;
      rewrite bind_eval; [apply (Hk env m fx)|apply (Hr env m fx)]. }
  assert (HsetBreakPoint :
            keeps_session_and_mode (WasmValueVector := WasmValueVector)
              (DebugSessionManager.setBreakPoint location)).
  { apply set_breakPoints_keeps. intros env m fx. apply setBreakPoint_state. }
  assert (HremoveBreakPoint :
            keeps_session_and_mode (WasmValueVector := WasmValueVector)
              (DebugSessionManager.removeBreakPoint id)).
  { apply set_breakPoints_keeps. intros env m fx.
    destruct (removeBreakPoint_outcome env m fx id) as (Hstate & _).
    eexists. exact Hstate. }
  assert (HremoveAll :
            keeps_session_and_mode (WasmValueVector := WasmValueVector)
              (DebugSessionManager.removeAllBreakPoints path)).
  { apply set_breakPoints_keeps. intros env m fx.
    destruct (removeAllBreakPoints_outcome env m fx path) as (Hstate & _).
    eexists. exact Hstate. }
  assert (Hlist :
            keeps_session_and_mode (WasmValueVector := WasmValueVector)
              (DebugSessionManager.getBreakPointsList location) /\
            keeps_registry (WasmValueVector := WasmValueVector)
              (DebugSessionManager.getBreakPointsList location)).
  { split; intros env m fx; rewrite getBreakPointsList_outcome;
      [split; [reflexivity|apply same_mode_sessionState; reflexivity]|reflexivity]. }
  assert (Hjump :
            keeps_session_and_mode (WasmValueVector := WasmValueVector)
              (DebugSessionManager.jumpToPage url) /\
            keeps_registry (WasmValueVector := WasmValueVector)
              (DebugSessionManager.jumpToPage url)).
  { split; intros env m fx;
      [split; [reflexivity|apply same_mode_sessionState; reflexivity]|reflexivity]. }
  unfold DebugSessionManager.stepOver, DebugSessionManager.stepIn,
    DebugSessionManager.stepOut, DebugSessionManager.continue,
    DebugSessionManager.getStackFrames, DebugSessionManager.showLine,
    DebugSessionManager.listVariable, DebugSessionManager.dumpVariable.
  tauto.
Qed.

End CommandsKeep.

(** ** Pausing, resuming and the focus *)

Section PauseResume.
Context {WasmValueVector : Type}.
Implicit Types (env : Cmd.Env WasmValueVector)
               (m : DebugSessionManager.t WasmValueVector)
               (this : PausedSessionState.t WasmValueVector)
               (fx : Effects).

Lemma set_sessionState_same m :
  DebugSessionManager.set_sessionState (DebugSessionManager.sessionState m) m = m.
Proof. destruct m; reflexivity. Qed.

(** X8: a resume puts the session back where the pause found it.  From a
    running session, [onPaused] followed by [onResumed] gives back the very
    manager (modules, registry, running state): the stack of the pause is
    gone.  On its own [onResumed] makes any session running with no output,
    no request and no event, and a command such as [getStackFrames] then
    takes the not-paused path. *)
Theorem onResumed_after_onPaused env m fx (e : PausedEvent) :
  let paused := DebugSessionManager.onPaused e env m fx in
  let resumed := DebugSessionManager.onResumed env (Cmd.state paused) (Cmd.effects paused) in
  Cmd.completion resumed = Normal tt /\
  Cmd.effects resumed = Cmd.effects paused /\
  DebugSessionManager.sessionState (Cmd.state resumed) = DebugSessionManager.Running /\
  DebugSessionManager.session (Cmd.state resumed) = DebugSessionManager.session m /\
  DebugSessionManager.breakPoints (Cmd.state resumed) = DebugSessionManager.breakPoints m /\
  (DebugSessionManager.sessionState m = DebugSessionManager.Running ->
   Cmd.state resumed = m) /\
  Cmd.completion (DebugSessionManager.getStackFrames env (Cmd.state resumed)
                    (Cmd.effects resumed)) = Normal [].
Proof.
  cbv zeta. rewrite onPaused_outcome.
  repeat (split; [reflexivity|]). split; [|reflexivity].
  intros Hrun. destruct m as [s b st]. simpl in Hrun. subst st. reflexivity.
Qed.

(** X9: the stack a pause shows.  After a pause with N call frames
    [getStackFrames] returns N entries, entry [i] numbered [i] and named
    and placed as call frame [i]; it writes nothing, issues no request and
    leaves the paused session as the pause made it. *)
Theorem getStackFrames_after_onPaused env m fx (e : PausedEvent) :
  let paused := DebugSessionManager.onPaused e env m fx in
  let o := DebugSessionManager.getStackFrames env (Cmd.state paused) (Cmd.effects paused) in
  Cmd.state o = Cmd.state paused /\
  Cmd.effects o = Cmd.effects paused /\
  exists stack,
    Cmd.completion o = Normal stack /\
    List.length stack = List.length (callFrames e) /\
    forall i v,
      nth_error (callFrames e) i = Some v ->
      exists entry,
        nth_error stack i = Some entry /\
        IRuntimeStackFrame.index entry = i /\
        IRuntimeStackFrame.name entry = functionName v /\
        IRuntimeStackFrame.instruction entry = columnNumber (location v).
Proof.
  cbv zeta. rewrite onPaused_outcome. cbn [Cmd.state Cmd.effects].
  unfold DebugSessionManager.getStackFrames.
  set (this := PausedSessionState.new
                 (JS.mapi (DebugSessionManager.stackFrame_of (DebugSessionManager.session m))
                          (callFrames e))).
  rewrite (dispatch_paused env (DebugSessionManager.set_sessionState
                                  (DebugSessionManager.Paused this) m)
                           _ _ _ this eq_refl).
  cbn [Cmd.completion Cmd.state Cmd.effects PausedSessionState.getStackFrames].
  split; [reflexivity|]. split; [reflexivity|].
  eexists. split; [reflexivity|]. subst this.
  cbn [PausedSessionState.new PausedSessionState.stackFrames].
  split; [rewrite length_map; apply length_mapi_from|].
  intros i v Hv. rewrite nth_error_map. unfold JS.mapi.
  rewrite nth_error_mapi_from, Hv. simpl. eexists. repeat split.
Qed.

(** [setFocusedFrame] on a paused session. *)
Lemma setFocusedFrame_paused env m fx this (index : JS.number) :
  DebugSessionManager.sessionState m = DebugSessionManager.Paused this ->
  DebugSessionManager.setFocusedFrame index env m fx =
  {| Cmd.completion := Normal tt;
     Cmd.state :=
       DebugSessionManager.set_sessionState
         (DebugSessionManager.Paused
            {| PausedSessionState.stackFrames := PausedSessionState.stackFrames this;
               PausedSessionState.selectedFrameIndex := index |}) m;
     Cmd.effects := fx |}.
Proof.
  intros Hpaused. unfold DebugSessionManager.setFocusedFrame.
  rewrite bind_eval. unfold Cmd.promise.
  rewrite (dispatch_paused env m fx _ _ this Hpaused). reflexivity.
Qed.

(** A dump command on a paused session whose focus addresses no frame. *)
Lemma no_focused_frame {A : Type} env m fx this
      (normal : Cmd.t (DebugSessionManager.t WasmValueVector) A)
      (paused : DebugSession.t WasmValueVector ->
                Cmd.t (PausedSessionState.t WasmValueVector) A)
      (k : DebugSession.t WasmValueVector -> RuntimeStackFrame.t WasmValueVector ->
           Cmd.t (PausedSessionState.t WasmValueVector) A) :
  (forall debugSession,
      paused debugSession = (frame <- PausedSessionState.selectedFrame ;; k debugSession frame)) ->
  DebugSessionManager.sessionState m = DebugSessionManager.Paused this ->
  JS.array_get (PausedSessionState.stackFrames this)
               (PausedSessionState.selectedFrameIndex this) = None ->
  DebugSessionManager.dispatch normal paused env m fx =
  {| Cmd.completion := Throw (TypeError "Cannot read properties of undefined");
     Cmd.state := m; Cmd.effects := fx |}.
Proof.
  intros Hshape Hpaused Hnone.
  rewrite (dispatch_paused env m fx _ _ this Hpaused). cbv zeta.
  rewrite Hshape. unfold PausedSessionState.selectedFrame.
  rewrite bind_eval, bind_eval. cbn [Cmd.get Cmd.completion Cmd.state Cmd.effects].
  rewrite Hnone. cbn [Cmd.defined Cmd.throw Cmd.completion Cmd.state Cmd.effects].
  rewrite <- Hpaused, set_sessionState_same. reflexivity.
Qed.

(** X10: the focus is not checked.  On a paused session
    [setFocusedFrame(index)] accepts every number: it completes normally,
    keeps the stack and stores the index, without output or request.  When
    the index addresses no stack frame, [showLine], [listVariable] and
    [dumpVariable] then each throw a [TypeError] before writing or
    requesting anything, and [getStackFrames] still returns the stack. *)
Theorem setFocusedFrame_is_unchecked env m fx this (index : JS.number) (expr : string) :
  DebugSessionManager.sessionState m = DebugSessionManager.Paused this ->
  let o := DebugSessionManager.setFocusedFrame index env m fx in
  let m' := Cmd.state o in
  Cmd.completion o = Normal tt /\ Cmd.effects o = fx /\
  DebugSessionManager.sessionState m' =
    DebugSessionManager.Paused
      {| PausedSessionState.stackFrames := PausedSessionState.stackFrames this;
         PausedSessionState.selectedFrameIndex := index |} /\
  (JS.array_get (PausedSessionState.stackFrames this) index = None ->
   forall env' fx',
     DebugSessionManager.showLine env' m' fx' =
       {| Cmd.completion := Throw (TypeError "Cannot read properties of undefined");
          Cmd.state := m'; Cmd.effects := fx' |} /\
     DebugSessionManager.listVariable env' m' fx' =
       {| Cmd.completion := Throw (TypeError "Cannot read properties of undefined");
          Cmd.state := m'; Cmd.effects := fx' |} /\
     DebugSessionManager.dumpVariable expr env' m' fx' =
       {| Cmd.completion := Throw (TypeError "Cannot read properties of undefined");
          Cmd.state := m'; Cmd.effects := fx' |} /\
     Cmd.completion (DebugSessionManager.getStackFrames env' m' fx') =
       Normal (map RuntimeStackFrame.stack (PausedSessionState.stackFrames this))).
Proof.
  intros Hpaused o m'. subst m' o. rewrite (setFocusedFrame_paused env m fx this index Hpaused).
  cbn [Cmd.completion Cmd.state Cmd.effects].
  split; [reflexivity|]. split; [reflexivity|]. split; [reflexivity|].
  intros Hnone env' fx'.
  set (m' := DebugSessionManager.set_sessionState _ m).
  assert (Hm' : DebugSessionManager.sessionState m' =
                DebugSessionManager.Paused
                  {| PausedSessionState.stackFrames := PausedSessionState.stackFrames this;
                     PausedSessionState.selectedFrameIndex := index |}) by reflexivity.
  split; [|split; [|split]].
  - apply (no_focused_frame env' m' fx' _ _ _
             (fun _ frame =>
                env0 <- Cmd.ask ;;
                if Cmd.existsSync env0 (IRuntimeStackFrame.file (RuntimeStackFrame.stack frame))
                then _ else _) (fun _ => eq_refl) Hm' Hnone).
  - apply (no_focused_frame env' m' fx' _ _ _
             (fun debugSession frame =>
                match DebugSession.getVariablelistFromAddress debugSession
                        (IRuntimeStackFrame.instruction (RuntimeStackFrame.stack frame)) with
                | None => _
                | Some varlist => _
                end) (fun _ => eq_refl) Hm' Hnone).
  - unfold DebugSessionManager.dumpVariable.
    rewrite (dispatch_paused env' m' fx' _ _ _ Hm'). cbv zeta.
    unfold PausedSessionState.dumpVariable, PausedSessionState.selectedFrame.
    rewrite bind_eval. cbn [Cmd.get Cmd.completion Cmd.state Cmd.effects].
    rewrite bind_eval, bind_eval. cbn [Cmd.get Cmd.completion Cmd.state Cmd.effects].
    cbn [PausedSessionState.stackFrames PausedSessionState.selectedFrameIndex].
    rewrite Hnone. cbn [Cmd.defined Cmd.throw Cmd.completion Cmd.state Cmd.effects].
    rewrite <- Hm', set_sessionState_same. reflexivity.
  - unfold DebugSessionManager.getStackFrames.
    rewrite (dispatch_paused env' m' fx' _ _ _ Hm'). reflexivity.
Qed.

End PauseResume.

Lemma setFocusedFrame_is_unchecked_witness :
  let env := Examples.env Examples.resolving in
  let o := DebugSessionManager.setFocusedFrame (JS.of_Z 2) env
             Examples.paused_in_two_frames no_effects in
  DebugSessionManager.sessionState Examples.paused_in_two_frames =
    DebugSessionManager.Paused Examples.two_frames /\
  JS.array_get (PausedSessionState.stackFrames Examples.two_frames) (JS.of_Z 2) = None /\
  Cmd.completion o = Normal tt /\
  DebugSessionManager.listVariable env (Cmd.state o) no_effects =
    {| Cmd.completion := Throw (TypeError "Cannot read properties of undefined");
       Cmd.state := Cmd.state o; Cmd.effects := no_effects |}.
Proof.
  destruct (setFocusedFrame_is_unchecked
              (Examples.env Examples.resolving) Examples.paused_in_two_frames no_effects
              Examples.two_frames (JS.of_Z 2) "x" eq_refl) as (Hc & _ & _ & Hthrown).
  destruct (Hthrown eq_refl (Examples.env Examples.resolving) no_effects)
    as (_ & Hlist & _).
  split; [reflexivity|]. split; [reflexivity|]. split; [exact Hc|exact Hlist].
Defined.

(** ** The module registry: which module answers *)

Section WhichModule.
Context {WasmValueVector : Type}.
Implicit Types (session : DebugSession.t WasmValueVector)
               (x y : WebAssemblyFile.t WasmValueVector)
               (pre post : list (WebAssemblyFile.t WasmValueVector)).

Lemma findAddress_loop_app pre post (file : string) (line : JS.number) :
  (forall y, In y pre -> WebAssemblyFile.findAddressFromFileLocation y file line = None) ->
  DebugSession.findAddress_loop (pre ++ post) file line =
  DebugSession.findAddress_loop post file line.
Proof.
  induction pre as [|y pre IH]; simpl; intros H; [reflexivity|].
  rewrite (H y (or_introl eq_refl)). apply IH. intros z Hz. apply H. right. exact Hz.
Qed.

(** X11: the first registered module that knows a source location answers
    [findAddressFromFileLocation], with its script id, line 0 and its
    address as column; the answer is [undefined] exactly when no module
    knows the location; and loading a further module never changes an
    answer that was defined. *)
Theorem findAddressFromFileLocation_first_wins session (file : string) (line : JS.number) :
  (forall pre x post address,
      DebugSession.sources session = (pre ++ x :: post)%list ->
      (forall y, In y pre -> WebAssemblyFile.findAddressFromFileLocation y file line = None) ->
      WebAssemblyFile.findAddressFromFileLocation x file line = Some address ->
      DebugSession.findAddressFromFileLocation session file line =
        Some {| WasmLocation.scriptId := WebAssemblyFile.scriptID x;
                WasmLocation.line := JS.pos_zero;
                WasmLocation.column := address |}) /\
  (DebugSession.findAddressFromFileLocation session file line = None <->
   forall y, In y (DebugSession.sources session) ->
             WebAssemblyFile.findAddressFromFileLocation y file line = None) /\
  (forall w x,
      DebugSession.findAddressFromFileLocation session file line = Some w ->
      DebugSession.findAddressFromFileLocation
        (DebugSession.loadedWebAssembly session x) file line = Some w).
Proof.
  unfold DebugSession.findAddressFromFileLocation. split; [|split].
  - intros pre x post address Hsources Hpre Hx.
    rewrite Hsources, (findAddress_loop_app _ _ _ _ Hpre). simpl. rewrite Hx. reflexivity.
  - induction (DebugSession.sources session) as [|y ys IH]; simpl.
    + split; [intros _ y []|reflexivity].
    + destruct (WebAssemblyFile.findAddressFromFileLocation y file line) eqn:Hy.
      * split; [discriminate|]. intros H. rewrite (H y (or_introl eq_refl)) in Hy.
        discriminate Hy.
      * rewrite IH. split.
        -- intros H z [<-|Hz]; [exact Hy|apply H; exact Hz].
        -- intros H z Hz. apply H. right. exact Hz.
  - intros w x. cbn [DebugSession.loadedWebAssembly DebugSession.sources].
    induction (DebugSession.sources session) as [|y ys IH]; simpl; [discriminate|].
    destruct (WebAssemblyFile.findAddressFromFileLocation y file line); [trivial|exact IH].
Qed.

Lemma filter_scriptID_app pre post (id : string) :
  (forall y, In y pre -> WebAssemblyFile.scriptID y <> id) ->
  filter (fun y => String.eqb (WebAssemblyFile.scriptID y) id) (pre ++ post) =
  filter (fun y => String.eqb (WebAssemblyFile.scriptID y) id) post.
Proof.
  intros H. rewrite filter_app, filter_none; [reflexivity|].
  intros y Hy. apply String.eqb_neq. apply H. exact Hy.
Qed.

(** X12: [findFileFromLocation] asks the first registered module that has
    the script id of the location, and only that one; for a script id no
    module has (a script that is not WebAssembly, or any script after a
    reset) the answer is [undefined]; and loading a further module never
    changes the answer for a script id that was registered. *)
Theorem findFileFromLocation_first_wins session (loc : Location) :
  (forall pre x post,
      DebugSession.sources session = (pre ++ x :: post)%list ->
      (forall y, In y pre -> WebAssemblyFile.scriptID y <> scriptId loc) ->
      WebAssemblyFile.scriptID x = scriptId loc ->
      DebugSession.findFileFromLocation session loc =
        WebAssemblyFile.findFileFromLocation x loc) /\
  ((forall y, In y (DebugSession.sources session) ->
              WebAssemblyFile.scriptID y <> scriptId loc) ->
   DebugSession.findFileFromLocation session loc = None) /\
  (forall x y,
      In y (DebugSession.sources session) ->
      WebAssemblyFile.scriptID y = scriptId loc ->
      DebugSession.findFileFromLocation (DebugSession.loadedWebAssembly session x) loc =
      DebugSession.findFileFromLocation session loc).
Proof.
  unfold DebugSession.findFileFromLocation. split; [|split].
  - intros pre x post Hsources Hpre Hx.
    rewrite Hsources, (filter_scriptID_app _ _ _ Hpre). simpl.
    rewrite Hx, String.eqb_refl. reflexivity.
  - intros Hnone. rewrite filter_none; [reflexivity|].
    intros y Hy. apply String.eqb_neq. apply Hnone. exact Hy.
  - intros x y Hy Hid. cbn [DebugSession.loadedWebAssembly DebugSession.sources].
    rewrite filter_app.
    assert (Hin : In y (filter (fun z => String.eqb (WebAssemblyFile.scriptID z) (scriptId loc))
                               (DebugSession.sources session))).
    { apply filter_In. split; [exact Hy|]. rewrite Hid. apply String.eqb_refl. }
    destruct (filter _ (DebugSession.sources session)); [contradiction|reflexivity].
Qed.

Lemma getVariablelist_loop_app pre post (address : option JS.number) :
  (forall y, In y pre -> WebAssemblyFile.variable_name_list y address = None \/
                         WebAssemblyFile.variable_name_list y address = Some []) ->
  DebugSession.getVariablelist_loop (pre ++ post) address =
  DebugSession.getVariablelist_loop post address.
Proof.
  induction pre as [|y pre IH]; simpl; intros H; [reflexivity|].
  destruct (H y (or_introl eq_refl)) as [-> | ->];
    apply IH; intros z Hz; apply H; right; exact Hz.
Qed.

(** X13: [getVariablelistFromAddress] answers with the list of the first
    registered module whose list at the address is not empty, skipping the
    modules that have no list or an empty one; so a list it returns is
    never empty, and it returns [undefined] exactly when every module has
    no list or an empty one. *)
Theorem getVariablelistFromAddress_first_not_empty session (address : option JS.number) :
  (forall pre x post v vs,
      DebugSession.sources session = (pre ++ x :: post)%list ->
      (forall y, In y pre -> WebAssemblyFile.variable_name_list y address = None \/
                             WebAssemblyFile.variable_name_list y address = Some []) ->
      WebAssemblyFile.variable_name_list x address = Some (v :: vs) ->
      DebugSession.getVariablelistFromAddress session address = Some (v :: vs)) /\
  (forall list, DebugSession.getVariablelistFromAddress session address = Some list ->
                list <> [] /\
                exists x, In x (DebugSession.sources session) /\
                          WebAssemblyFile.variable_name_list x address = Some list) /\
  (DebugSession.getVariablelistFromAddress session address = None <->
   forall y, In y (DebugSession.sources session) ->
             WebAssemblyFile.variable_name_list y address = None \/
             WebAssemblyFile.variable_name_list y address = Some []).
Proof.
  unfold DebugSession.getVariablelistFromAddress. split; [|split].
  - intros pre x post v vs Hsources Hpre Hx.
    rewrite Hsources, (getVariablelist_loop_app _ _ _ Hpre). simpl. rewrite Hx. reflexivity.
  - intros list. induction (DebugSession.sources session) as [|y ys IH]; simpl; [discriminate|].
    destruct (WebAssemblyFile.variable_name_list y address) as [[|v vs]|] eqn:Hy.
    + intros H. destruct (IH H) as (Hne & x & Hx & Hlist). split; [exact Hne|]. eauto.
    + intros [= <-]. split; [discriminate|]. exists y. auto.
    + intros H. destruct (IH H) as (Hne & x & Hx & Hlist). split; [exact Hne|]. eauto.
  - induction (DebugSession.sources session) as [|y ys IH]; simpl.
    + split; [intros _ y []|reflexivity].
    + destruct (WebAssemblyFile.variable_name_list y address) as [[|v vs]|] eqn:Hy.
      * rewrite IH. split.
        -- intros H z [<-|Hz]; [right; exact Hy|apply H; exact Hz].
        -- intros H z Hz. apply H. right. exact Hz.
      * split; [discriminate|]. intros H.
        destruct (H y (or_introl eq_refl)) as [H'|H']; rewrite H' in Hy; discriminate Hy.
      * rewrite IH. split.
        -- intros H z [<-|Hz]; [left; exact Hy|apply H; exact Hz].
        -- intros H z Hz. apply H. right. exact Hz.
Qed.

(** A reset frees every module once, in registration order, and
    leaves a registry that answers [undefined] to every question. *)
Theorem reset_forgets_every_module session :
  let '(ids, session') := DebugSession.reset session in
  ids = map WebAssemblyFile.scriptID (DebugSession.sources session) /\
  List.length ids = List.length (DebugSession.sources session) /\
  DebugSession.sources session' = [] /\
  (forall loc, DebugSession.findFileFromLocation session' loc = None) /\
  (forall file line, DebugSession.findAddressFromFileLocation session' file line = None) /\
  (forall address, DebugSession.getVariablelistFromAddress session' address = None) /\
  (forall expr address state,
      DebugSession.getVariableValue session' expr address state = None).
Proof.
  simpl. split; [reflexivity|]. split; [apply length_map|]. repeat split.
Qed.

End WhichModule.

(** ** Variables of a paused session *)

Section PausedVariables.
Context {WasmValueVector : Type}.
Implicit Types (env : Cmd.Env WasmValueVector)
               (m : DebugSessionManager.t WasmValueVector)
               (this : PausedSessionState.t WasmValueVector)
               (debugSession : DebugSession.t WasmValueVector)
               (frame : RuntimeStackFrame.t WasmValueVector)
               (fx : Effects).

Lemma selectedFrame_some env this fx frame :
  JS.array_get (PausedSessionState.stackFrames this)
               (PausedSessionState.selectedFrameIndex this) = Some frame ->
  PausedSessionState.selectedFrame env this fx =
  {| Cmd.completion := Normal frame; Cmd.state := this; Cmd.effects := fx |}.
Proof.
  intros H. unfold PausedSessionState.selectedFrame.
  rewrite bind_eval. cbn [Cmd.get Cmd.completion Cmd.state Cmd.effects].
  rewrite H. reflexivity.
Qed.

Lemma paused_same m this :
  DebugSessionManager.sessionState m = DebugSessionManager.Paused this ->
  DebugSessionManager.set_sessionState (DebugSessionManager.Paused this) m = m.
Proof. intros H. destruct m as [s b st]. simpl in H. subst st. reflexivity. Qed.

(** The loop of [listVariable] copies the list it was given. *)
Lemma copy_variables (varlist : list Variable_.t) :
  map (fun v => {| Variable_.name := Variable_.name v;
                   Variable_.type := Variable_.type v |}) varlist = varlist.
Proof.
  induction varlist as [|[name type] varlist IH]; simpl; [|rewrite IH]; reflexivity.
Qed.

Lemma getVariablelist_loop_none (xs : list (WebAssemblyFile.t WasmValueVector))
      (address : option JS.number) :
  (forall y, In y xs -> WebAssemblyFile.variable_name_list y address = None \/
                        WebAssemblyFile.variable_name_list y address = Some []) ->
  DebugSession.getVariablelist_loop xs address = None.
Proof.
  intros H. rewrite <- (app_nil_r xs). rewrite (getVariablelist_loop_app _ _ _ H).
  reflexivity.
Qed.

(** X14: what [listVariable] lists on a paused session with a focused
    frame.  When some module has variables at the frame's instruction
    address, it returns the variables of the first such module, in the
    module's order, and writes nothing; when no module has any, it returns
    the empty list after [not available.].  Either way it issues no request
    and leaves the session as it is. *)
Theorem listVariable_lists_the_first_module env m fx this frame :
  DebugSessionManager.sessionState m = DebugSessionManager.Paused this ->
  JS.array_get (PausedSessionState.stackFrames this)
               (PausedSessionState.selectedFrameIndex this) = Some frame ->
  let address := IRuntimeStackFrame.instruction (RuntimeStackFrame.stack frame) in
  let silent (y : WebAssemblyFile.t WasmValueVector) :=
    WebAssemblyFile.variable_name_list y address = None \/
    WebAssemblyFile.variable_name_list y address = Some [] in
  (forall pre x post v vs,
      DebugSession.sources (DebugSessionManager.session m) = (pre ++ x :: post)%list ->
      (forall y, In y pre -> silent y) ->
      WebAssemblyFile.variable_name_list x address = Some (v :: vs) ->
      DebugSessionManager.listVariable env m fx =
      {| Cmd.completion := Normal (v :: vs); Cmd.state := m; Cmd.effects := fx |}) /\
  ((forall y, In y (DebugSession.sources (DebugSessionManager.session m)) -> silent y) ->
   DebugSessionManager.listVariable env m fx =
   {| Cmd.completion := Normal []; Cmd.state := m;
      Cmd.effects := Cmd.with_console [console_log "not available."] fx |}).
Proof.
  intros Hpaused Hframe address silent.
  assert (Hlist : DebugSessionManager.listVariable env m fx =
                  match DebugSession.getVariablelistFromAddress
                          (DebugSessionManager.session m) address with
                  | Some varlist =>
                      {| Cmd.completion := Normal varlist; Cmd.state := m; Cmd.effects := fx |}
                  | None =>
                      {| Cmd.completion := Normal []; Cmd.state := m;
                         Cmd.effects := Cmd.with_console [console_log "not available."] fx |}
                  end).
  { unfold DebugSessionManager.listVariable.
    rewrite (dispatch_paused env m fx _ _ this Hpaused). cbv zeta.
    unfold PausedSessionState.listVariable.
    rewrite bind_eval, (selectedFrame_some env this fx frame Hframe).
    cbn [Cmd.completion Cmd.state Cmd.effects]. fold address.
    destruct (DebugSession.getVariablelistFromAddress _ address) as [varlist|].
    - cbn [Cmd.ret Cmd.completion Cmd.state Cmd.effects].
      rewrite copy_variables, (paused_same m this Hpaused). reflexivity.
    - rewrite bind_eval. cbn [Cmd.log Cmd.emit Cmd.ret Cmd.completion Cmd.state Cmd.effects].
      rewrite (paused_same m this Hpaused). reflexivity. }
  rewrite Hlist. unfold DebugSession.getVariablelistFromAddress. split.
  - intros pre x post v vs Hsources Hpre Hx.
    rewrite Hsources, (getVariablelist_loop_app _ _ _ Hpre). simpl. rewrite Hx. reflexivity.
  - intros Hsilent. rewrite (getVariablelist_loop_none _ _ Hsilent). reflexivity.
Qed.

Lemma getVariableValue_loop_none (xs : list (WebAssemblyFile.t WasmValueVector))
      (expr : string) (address : option JS.number) state :
  (forall y, In y xs ->
             WebAssemblyFile.get_variable_info y expr
               (WebAssemblyDebugState.locals state) (WebAssemblyDebugState.globals state)
               (WebAssemblyDebugState.stacks state) address = None) ->
  DebugSession.getVariableValue_loop xs expr address state = None.
Proof.
  induction xs as [|y xs IH]; simpl; intros H; [reflexivity|].
  rewrite (H y (or_introl eq_refl)). apply IH. intros z Hz. apply H. right. exact Hz.
Qed.

(** With no module that resolves the expression, no memory is read. *)
Lemma dumpVariable_unresolved_issues debugSession (expr : string) :
  (forall address state,
      DebugSession.getVariableValue debugSession expr address state = None) ->
  issues (fun _ => True) runtime_only (PausedSessionState.dumpVariable debugSession expr).
Proof.
  intros Hnone.
  unfold PausedSessionState.dumpVariable, PausedSessionState.selectedFrame.
  apply issues_bind; [issues_go|intros this].
  apply issues_bind; [repeat issues_go|intros frame].
  apply issues_bind.
  - destruct (RuntimeStackFrame.state frame); [issues_go|].
    apply issues_bind;
      [apply createWasmValueStore_issues_when; intros ?; exact Logic.I|intros st].
    apply issues_bind; [|intros _; issues_go].
    apply cache_state_issues_when. trivial.
  - intros state. rewrite Hnone. repeat issues_go.
Qed.

(** X15: [dumpVariable] of an expression no module resolves.  It never
    reads memory: the only requests it can issue are the
    [Runtime.getProperties] of a store that is not built yet.  On a focused
    frame whose store is built it issues no request at all, prints
    [not available.] and returns [undefined], leaving the session as it
    is. *)
Theorem dumpVariable_unresolved env m fx this (expr : string) :
  DebugSessionManager.sessionState m = DebugSessionManager.Paused this ->
  (forall y address locals globals stacks,
      In y (DebugSession.sources (DebugSessionManager.session m)) ->
      WebAssemblyFile.get_variable_info y expr locals globals stacks address = None) ->
  let o := DebugSessionManager.dumpVariable expr env m fx in
  (exists new, requests (Cmd.effects o) = (requests fx ++ new)%list /\
               Forall runtime_only new /\
               forall id expression, ~ In (Debugger_evaluateOnCallFrame id expression) new) /\
  (forall frame st,
      JS.array_get (PausedSessionState.stackFrames this)
                   (PausedSessionState.selectedFrameIndex this) = Some frame ->
      RuntimeStackFrame.state frame = Some st ->
      o = {| Cmd.completion := Normal None; Cmd.state := m;
             Cmd.effects := Cmd.with_console [console_log "not available."] fx |}).
Proof.
  intros Hpaused Hunresolved o.
  assert (Hnone : forall address state,
             DebugSession.getVariableValue (DebugSessionManager.session m) expr address state
             = None).
  { intros address state. apply getVariableValue_loop_none. intros y Hy.
    apply Hunresolved. exact Hy. }
  subst o. unfold DebugSessionManager.dumpVariable.
  rewrite (dispatch_paused env m fx _ _ this Hpaused). cbv zeta. split.
  - destruct (dumpVariable_unresolved_issues _ expr Hnone env this fx Logic.I)
      as (_ & new & Hnew & Hall).
    exists new. cbn [Cmd.effects]. split; [exact Hnew|]. split; [exact Hall|].
    intros id expression Hin. rewrite Forall_forall in Hall. exact (Hall _ Hin).
  - intros frame st Hframe Hstate.
    unfold PausedSessionState.dumpVariable.
    rewrite bind_eval. cbn [Cmd.get Cmd.completion Cmd.state Cmd.effects].
    rewrite bind_eval, (selectedFrame_some env this fx frame Hframe).
    cbn [Cmd.completion Cmd.state Cmd.effects].
    rewrite bind_eval, Hstate. cbn [Cmd.ret Cmd.completion Cmd.state Cmd.effects].
    rewrite Hnone, bind_eval.
    cbn [Cmd.log Cmd.emit Cmd.ret Cmd.completion Cmd.state Cmd.effects].
    rewrite (paused_same m this Hpaused). reflexivity.
Qed.

End PausedVariables.

(** The first module has no list and the second an empty one: the third
    answers. *)
Lemma listVariable_lists_the_first_module_witness :
  DebugSessionManager.listVariable (Examples.env Examples.rejecting)
    MoreExamples.paused_in_third no_effects =
  {| Cmd.completion := Normal [MoreExamples.argc; MoreExamples.argv];
     Cmd.state := MoreExamples.paused_in_third;
     Cmd.effects := no_effects |}.
Proof.
  destruct (listVariable_lists_the_first_module
              (Examples.env Examples.rejecting) MoreExamples.paused_in_third no_effects
              _ _ eq_refl eq_refl) as (Hfirst & _).
  apply (Hfirst [Examples.silent_module "1"; MoreExamples.listing "2" []]
                (MoreExamples.listing "3" [MoreExamples.argc; MoreExamples.argv]) []
                MoreExamples.argc [MoreExamples.argv] eq_refl).
  - intros y [<-|[<-|[]]]; [left|right]; reflexivity.
  - reflexivity.
Defined.

(** The module resolves [x] only; [y] is not available. *)
Lemma dumpVariable_unresolved_witness :
  DebugSessionManager.sessionState Examples.paused_in_two_frames =
    DebugSessionManager.Paused Examples.two_frames /\
  DebugSessionManager.dumpVariable "y" (Examples.env Examples.resolving)
    Examples.paused_in_two_frames no_effects =
  {| Cmd.completion := Normal None; Cmd.state := Examples.paused_in_two_frames;
     Cmd.effects := Cmd.with_console [console_log "not available."] no_effects |}.
Proof.
  split; [reflexivity|].
  assert (Hunresolved :
            forall (y : WebAssemblyFile.t unit) address locals globals stacks,
              In y (DebugSession.sources
                      (DebugSessionManager.session Examples.paused_in_two_frames)) ->
              WebAssemblyFile.get_variable_info y "y" locals globals stacks address = None).
  { intros y address locals globals stacks [<-|[]]. reflexivity. }
  destruct (dumpVariable_unresolved
              (Examples.env Examples.resolving) Examples.paused_in_two_frames no_effects
              Examples.two_frames "y" eq_refl Hunresolved) as (_ & Hbuilt).
  exact (Hbuilt _ Examples.store eq_refl eq_refl).
Defined.

(** ** The value store of a frame *)

Lemma bind_normal {WasmValueVector S A B : Type}
      (c : Cmd.t (WasmValueVector := WasmValueVector) S A) (k : A -> Cmd.t S B)
      (env : Cmd.Env WasmValueVector) (s : S) (fx : Effects) (b : B) :
  Cmd.completion ((x <- c ;; k x) env s fx) = Normal b ->
  exists a, Cmd.completion (c env s fx) = Normal a /\
            Cmd.completion (k a env (Cmd.state (c env s fx)) (Cmd.effects (c env s fx)))
            = Normal b.
Proof.
  rewrite bind_eval. destruct (Cmd.completion (c env s fx)) as [a|e]; [|discriminate].
  intros H. exists a. split; [reflexivity|exact H].
Qed.

Lemma defined_normal {WasmValueVector S A : Type} (x : option A)
      (env : Cmd.Env WasmValueVector) (s : S) (fx : Effects) (a : A) :
  Cmd.completion (Cmd.defined x env s fx) = Normal a -> x = Some a.
Proof. destruct x; simpl; [intros [= ->]; reflexivity|discriminate]. Qed.

Section ValueStore.
Context {WasmValueVector : Type}.
Implicit Types (env : Cmd.Env WasmValueVector)
               (m : DebugSessionManager.t WasmValueVector)
               (this : PausedSessionState.t WasmValueVector)
               (debugSession : DebugSession.t WasmValueVector)
               (fx : Effects).

(** A command that keeps every state and issues requests that satisfy [P]. *)
Lemma issues_state {A : Type} (P : Request -> Prop)
      (c : Cmd.t (PausedSessionState.t WasmValueVector) A) env this fx :
  (forall start, issues (fun s => s = start) P c) ->
  Cmd.state (c env this fx) = this /\
  exists new, requests (Cmd.effects (c env this fx)) = (requests fx ++ new)%list /\
              Forall P new.
Proof. intros H. exact (H this env this fx eq_refl). Qed.

(** X16: the scope chain [createWasmValueStore] relies on.  Building the
    store of a frame talks to the Runtime domain only and changes nothing
    in the paused state.  It reads the scope chain at positions 0, 1 and 2:
    with an empty chain it throws a [TypeError] before any request, with a
    chain it starts by asking for the properties of scope 0, and it can
    only complete when the chain has at least three scopes. *)
Theorem createWasmValueStore_reads_three_scopes env this fx (frame : CallFrame) :
  let o := PausedSessionState.createWasmValueStore frame env this fx in
  Cmd.state o = this /\
  (exists new, requests (Cmd.effects o) = (requests fx ++ new)%list /\
               Forall runtime_only new) /\
  (scopeChain frame = [] ->
   o = {| Cmd.completion := Throw (TypeError "Cannot read properties of undefined");
          Cmd.state := this; Cmd.effects := fx |}) /\
  (forall scope0 rest,
      scopeChain frame = scope0 :: rest ->
      exists more,
        requests (Cmd.effects o) =
          (requests fx ++ Runtime_getProperties (objectId (object scope0)) :: more)%list) /\
  (forall store, Cmd.completion o = Normal store -> 3 <= List.length (scopeChain frame)).
Proof.
  intros o.
  destruct (issues_state runtime_only (PausedSessionState.createWasmValueStore frame)
              env this fx
              (fun start => createWasmValueStore_issues_when _ _ frame (fun _ => Logic.I)))
    as (Hstate & Hnew).
  split; [exact Hstate|]. split; [exact Hnew|]. subst o. split; [|split].
  - intros Hchain. unfold PausedSessionState.createWasmValueStore.
    rewrite bind_eval. cbn [Cmd.ask Cmd.completion Cmd.state Cmd.effects].
    rewrite bind_eval, Hchain. reflexivity.
  - intros scope0 rest Hchain. unfold PausedSessionState.createWasmValueStore.
    rewrite bind_eval. cbn [Cmd.ask Cmd.completion Cmd.state Cmd.effects].
    rewrite bind_eval, Hchain.
    cbn [nth_error Cmd.defined Cmd.ret Cmd.completion Cmd.state Cmd.effects].
    rewrite bind_eval. cbn [Cmd.request Cmd.completion Cmd.state Cmd.effects].
    destruct (Cmd.gateway env (requests fx) _) as [wasmStackObject|e].
    + match goal with
      | |- context [Cmd.effects (?k env this ?fx')] =>
          assert (Hk : issues (fun _ => True) (fun _ => True) k) by repeat issues_go;
          destruct (Hk env this fx' Logic.I) as (_ & more & Hmore & _)
      end.
      exists more. rewrite Hmore. cbn [Cmd.issue requests].
      rewrite <- app_assoc. reflexivity.
    + exists []. reflexivity.
  - intros store Hdone. unfold PausedSessionState.createWasmValueStore in Hdone.
    repeat (apply bind_normal in Hdone;
            let a := fresh "a" in
            let Ha := fresh "Ha" in
            destruct Hdone as (a & Ha & Hdone)).
    repeat match goal with
           | H : Cmd.completion (Cmd.defined (nth_error (scopeChain frame) _) _ _ _) = _ |- _ =>
               apply defined_normal in H
           end.
    match goal with
    | H : nth_error (scopeChain frame) 2 = Some _ |- _ =>
        assert (Hlt : 2 < List.length (scopeChain frame))
          by (apply nth_error_Some; rewrite H; discriminate)
    end.
    exact Hlt.
Qed.

End ValueStore.

Section StoreCache.
Context {WasmValueVector : Type}.
Implicit Types (env : Cmd.Env WasmValueVector)
               (m : DebugSessionManager.t WasmValueVector)
               (this : PausedSessionState.t WasmValueVector)
               (debugSession : DebugSession.t WasmValueVector)
               (frame : RuntimeStackFrame.t WasmValueVector)
               (fx : Effects).

Lemma nth_error_update_frame (n k : nat)
      (g : RuntimeStackFrame.t WasmValueVector -> RuntimeStackFrame.t WasmValueVector)
      (frames : list (RuntimeStackFrame.t WasmValueVector)) :
  nth_error (PausedSessionState.update_frame n g frames) k =
  if Nat.eqb k n then option_map g (nth_error frames k) else nth_error frames k.
Proof.
  revert n k. induction frames as [|f frames IH]; intros [|n] [|k]; simpl;
    try reflexivity; try (destruct (Nat.eqb k n); reflexivity).
  apply IH.
Qed.

(** The rest of [dumpVariable], once the store is at hand, changes nothing
    in the paused state. *)
Lemma dumpVariable_tail_state debugSession (expr : string) frame state env this fx :
  Cmd.state
    (match DebugSession.getVariableValue debugSession expr
             (IRuntimeStackFrame.instruction (RuntimeStackFrame.stack frame)) state with
     | None => Cmd.log not_available ;; Cmd.ret None
     | Some wasmVariable =>
         result <- PausedSessionState.evaluateMemory
                     (VariableInfo.address wasmVariable)
                     (VariableInfo.byte_size wasmVariable) ;;
         Cmd.ret (VariableInfo.print wasmVariable result)
     end env this fx) = this.
Proof.
  match goal with
  | |- Cmd.state (?c env this fx) = this =>
      assert (H : issues (fun s => s = this) (fun _ => True) c)
  end.
  { destruct (DebugSession.getVariableValue _ _ _ _); [|repeat issues_go].
    apply issues_bind; [apply evaluateMemory_issues_when; trivial|intros result].
    issues_go. }
  exact (proj1 (H env this fx eq_refl)).
Qed.

(** A first [dumpVariable] on a frame stores the store it built on the
    frame, whatever comes of the variable afterwards. *)
Lemma dumpVariable_caches env this fx debugSession (expr : string) frame st :
  JS.array_get (PausedSessionState.stackFrames this)
               (PausedSessionState.selectedFrameIndex this) = Some frame ->
  RuntimeStackFrame.state frame = None ->
  Cmd.completion (PausedSessionState.createWasmValueStore
                    (RuntimeStackFrame.frame frame) env this fx) = Normal st ->
  exists n,
    JS.array_index (PausedSessionState.selectedFrameIndex this) = Some n /\
    Cmd.state (PausedSessionState.dumpVariable debugSession expr env this fx) =
    {| PausedSessionState.stackFrames :=
         PausedSessionState.update_frame n (RuntimeStackFrame.set_state st)
                                         (PausedSessionState.stackFrames this);
       PausedSessionState.selectedFrameIndex := PausedSessionState.selectedFrameIndex this |}.
Proof.
  intros Hframe Hstate Hbuilt.
  assert (Hindex : exists n, JS.array_index (PausedSessionState.selectedFrameIndex this)
                             = Some n).
  { unfold JS.array_get in Hframe.
    destruct (JS.array_index _) as [n|]; [eauto|discriminate]. }
  destruct Hindex as (n & Hn). exists n. split; [exact Hn|].
  destruct (issues_state (fun _ => True)
              (PausedSessionState.createWasmValueStore (RuntimeStackFrame.frame frame))
              env this fx
              (fun start => createWasmValueStore_issues_when _ _ _ (fun _ => Logic.I)))
    as (Hsame & _).
  unfold PausedSessionState.dumpVariable.
  rewrite bind_eval. cbn [Cmd.get Cmd.completion Cmd.state Cmd.effects].
  rewrite bind_eval, (selectedFrame_some env this fx frame Hframe).
  cbn [Cmd.completion Cmd.state Cmd.effects].
  rewrite bind_eval, Hstate.
  rewrite !bind_eval, Hbuilt, Hsame.
  unfold PausedSessionState.cache_state at 1 2 3.
  rewrite !bind_eval. cbn [Cmd.get Cmd.completion Cmd.state Cmd.effects].
  rewrite Hn. cbn [Cmd.put Cmd.ret Cmd.completion Cmd.state Cmd.effects].
  apply dumpVariable_tail_state.
Qed.

(** X17: the store of a frame is built once.  On a focused frame without a
    store, when building it completes, [dumpVariable] leaves the store on
    that frame (and only there), whatever comes of the variable afterwards;
    on a focused frame that has its store, [dumpVariable] issues at most
    one request and never a [Runtime.getProperties]. *)
Theorem dumpVariable_builds_the_store_once env m fx this frame (expr : string) :
  DebugSessionManager.sessionState m = DebugSessionManager.Paused this ->
  JS.array_get (PausedSessionState.stackFrames this)
               (PausedSessionState.selectedFrameIndex this) = Some frame ->
  let o := DebugSessionManager.dumpVariable expr env m fx in
  (forall st,
      RuntimeStackFrame.state frame = None ->
      Cmd.completion (PausedSessionState.createWasmValueStore
                        (RuntimeStackFrame.frame frame) env this fx) = Normal st ->
      exists this' n,
        DebugSessionManager.sessionState (Cmd.state o) = DebugSessionManager.Paused this' /\
        PausedSessionState.selectedFrameIndex this' =
          PausedSessionState.selectedFrameIndex this /\
        JS.array_get (PausedSessionState.stackFrames this')
                     (PausedSessionState.selectedFrameIndex this') =
          Some (RuntimeStackFrame.set_state st frame) /\
        JS.array_index (PausedSessionState.selectedFrameIndex this) = Some n /\
        forall k, k <> n ->
                  nth_error (PausedSessionState.stackFrames this') k =
                  nth_error (PausedSessionState.stackFrames this) k) /\
  (forall st,
      RuntimeStackFrame.state frame = Some st ->
      exists new,
        requests (Cmd.effects o) = (requests fx ++ new)%list /\
        List.length new <= 1 /\
        forall objectId, ~ In (Runtime_getProperties objectId) new).
Proof.
  intros Hpaused Hframe o. subst o. unfold DebugSessionManager.dumpVariable.
  rewrite (dispatch_paused env m fx _ _ this Hpaused). cbv zeta.
  cbn [Cmd.state Cmd.effects DebugSessionManager.set_sessionState
       DebugSessionManager.sessionState].
  split.
  - intros st Hstate Hbuilt.
    destruct (dumpVariable_caches env this fx (DebugSessionManager.session m) expr
                                  frame st Hframe Hstate Hbuilt) as (n & Hn & Hthis').
    eexists. exists n. split; [reflexivity|]. rewrite Hthis'.
    cbn [PausedSessionState.stackFrames PausedSessionState.selectedFrameIndex].
    split; [reflexivity|]. unfold JS.array_get in *. rewrite Hn in *.
    split; [|split; [reflexivity|]].
    + rewrite nth_error_update_frame, Nat.eqb_refl, Hframe. reflexivity.
    + intros k Hk. rewrite nth_error_update_frame.
      destruct (Nat.eqb_spec k n); [contradiction|reflexivity].
  - intros st Hstate.
    destruct (DebugSession.getVariableValue (DebugSessionManager.session m) expr
                (IRuntimeStackFrame.instruction (RuntimeStackFrame.stack frame)) st)
      as [v|] eqn:Hv.
    + destruct (dumpVariable_resolved env this fx _ expr frame st v Hframe Hstate Hv)
        as (frame0 & _ & Hfx).
      rewrite Hfx. eexists. split; [reflexivity|]. split; [simpl; lia|].
      intros objectId [H|[]]. discriminate H.
    + exists []. split; [|split; [simpl; lia|intros objectId []]].
      unfold PausedSessionState.dumpVariable.
      rewrite bind_eval. cbn [Cmd.get Cmd.completion Cmd.state Cmd.effects].
      rewrite bind_eval, (selectedFrame_some env this fx frame Hframe).
      cbn [Cmd.completion Cmd.state Cmd.effects].
      rewrite bind_eval, Hstate. cbn [Cmd.ret Cmd.completion Cmd.state Cmd.effects].
      rewrite Hv, bind_eval. cbn. rewrite app_nil_r. reflexivity.
Qed.

End StoreCache.

Lemma dumpVariable_builds_the_store_once_witness :
  let env := Examples.env MoreExamples.scoped in
  let frame := DebugSessionManager.stackFrame_of Examples.one_module
                 MoreExamples.scoped_frame 0 in
  let o := DebugSessionManager.dumpVariable "x" env MoreExamples.paused_unbuilt no_effects in
  RuntimeStackFrame.state frame = None /\
  Cmd.completion o = Normal (Some "x = 1") /\
  exists this',
    DebugSessionManager.sessionState (Cmd.state o) = DebugSessionManager.Paused this' /\
    JS.array_get (PausedSessionState.stackFrames this')
                 (PausedSessionState.selectedFrameIndex this') =
      Some (RuntimeStackFrame.set_state Examples.store frame).
Proof.
  intros env frame o. split; [reflexivity|]. split; [reflexivity|].
  destruct (dumpVariable_builds_the_store_once
              env MoreExamples.paused_unbuilt no_effects
              (PausedSessionState.new [frame]) frame "x" eq_refl eq_refl) as (Hbuild & _).
  destruct (Hbuild Examples.store eq_refl eq_refl) as (this' & n & Hstate & _ & Hget & _).
  exists this'. split; [exact Hstate|exact Hget].
Defined.

(** ** Showing the source *)



Section ShowLine.
Context {WasmValueVector : Type}.
Implicit Types (env : Cmd.Env WasmValueVector)
               (m : DebugSessionManager.t WasmValueVector)
               (this : PausedSessionState.t WasmValueVector)
               (fx : Effects).



End ShowLine.


(** ** Navigation and the breakpoints *)

Section NavigationAndBreakPoints.
Context {WasmValueVector : Type}.
Implicit Types (env : Cmd.Env WasmValueVector)
               (m : DebugSessionManager.t WasmValueVector)
               (fx : Effects).

(** The request of [setBreakPoint], however it is answered. *)
Lemma setBreakPoint_request env m fx (location : string) :
  let fileInfo := JS.split ":"%char location in
  let debugfilename := nth 0 fileInfo EmptyString in
  let debugline := JS.Number (nth 1 fileInfo EmptyString) in
  let wasmLocation :=
    DebugSession.findAddressFromFileLocation
      (DebugSessionManager.session m) debugfilename debugline in
  JS.includes ":"%char location = true ->
  Cmd.effects (DebugSessionManager.setBreakPoint location env m fx) =
  Cmd.issue (Debugger_setBreakpoint
               (option_map WasmLocation.scriptId wasmLocation)
               (option_map WasmLocation.line wasmLocation)
               (option_map WasmLocation.column wasmLocation)) fx.
Proof.
  intros fileInfo debugfilename debugline wasmLocation Hsep.
  pose proof (setBreakPoint_resolved env m fx location) as Hresolved.
  pose proof (setBreakPoint_rejected env m fx location) as Hrejected.
  cbv zeta in Hresolved, Hrejected.
  fold fileInfo debugfilename debugline wasmLocation in Hresolved, Hrejected.
  destruct (Cmd.gateway env (requests fx)
              (Debugger_setBreakpoint
                 (option_map WasmLocation.scriptId wasmLocation)
                 (option_map WasmLocation.line wasmLocation)
                 (option_map WasmLocation.column wasmLocation))) as [bp|e] eqn:Hreply.
  - rewrite (Hresolved bp Hsep eq_refl). reflexivity.
  - rewrite (Hrejected e Hsep eq_refl). reflexivity.
Qed.

(** X19: a page navigation and the breakpoints.  In any session state
    [onLoad] frees the modules in registration order and empties the module
    list, keeps every breakpoint record and the session state, and issues
    no request (the gateway is not told to remove anything).  Afterwards
    the records are still listed, and a [setBreakPoint] with a [:] sends a
    request whose script id, line and column are all [undefined], until a
    module is loaded again. *)
Theorem onLoad_keeps_the_breakPoints env m fx :
  let o := DebugSessionManager.onLoad env m fx in
  let m' := Cmd.state o in
  Cmd.completion o = Normal tt /\
  DebugSession.sources (DebugSessionManager.session m') = [] /\
  DebugSessionManager.breakPoints m' = DebugSessionManager.breakPoints m /\
  DebugSessionManager.sessionState m' = DebugSessionManager.sessionState m /\
  freed (Cmd.effects o) =
    (freed fx ++ map WebAssemblyFile.scriptID
                     (DebugSession.sources (DebugSessionManager.session m)))%list /\
  requests (Cmd.effects o) = requests fx /\
  (forall env' fx' location,
      Cmd.completion (DebugSessionManager.getBreakPointsList location env' m' fx') =
      Cmd.completion (DebugSessionManager.getBreakPointsList location env' m fx')) /\
  (forall env' fx' location,
      JS.includes ":"%char location = true ->
      requests (Cmd.effects (DebugSessionManager.setBreakPoint location env' m' fx')) =
      (requests fx' ++ [Debugger_setBreakpoint None None None])%list).
Proof.
  cbv zeta. rewrite onLoad_outcome. cbn [Cmd.completion Cmd.state Cmd.effects].
  repeat (split; [reflexivity|]). split.
  - intros env' fx' location. rewrite !getBreakPointsList_outcome. reflexivity.
  - intros env' fx' location Hsep.
    rewrite (setBreakPoint_request env' _ fx' location Hsep). reflexivity.
Qed.

End NavigationAndBreakPoints.

(** ** The line of a location *)

Ltac each_digit d :=
  do 10 (destruct d as [|d]; [reflexivity|]); exfalso; lia.

Lemma is_white_space_digit (d : nat) : d < 10 -> JS.is_white_space (digit d) = false.
Proof. intros H. each_digit d. Qed.

Lemma digit_value_digit (d : nat) :
  d < 10 -> JS.digit_value 10 (digit d) = Some (Z.of_nat d).
Proof. intros H. each_digit d. Qed.

Lemma digit_is_no_sign (d : nat) :
  d < 10 -> Ascii.eqb (digit d) "-"%char = false /\ Ascii.eqb (digit d) "+"%char = false.
Proof. intros H. split; each_digit d. Qed.

Lemma digit_is_no_colon (d : nat) : d < 10 -> Ascii.eqb (digit d) ":"%char = false.
Proof. intros H. each_digit d. Qed.

Lemma digit_is_no_radix (d : nat) :
  d < 10 ->
  (Ascii.eqb (digit d) "x"%char || Ascii.eqb (digit d) "X"%char = false) /\
  (Ascii.eqb (digit d) "o"%char || Ascii.eqb (digit d) "O"%char = false) /\
  (Ascii.eqb (digit d) "b"%char || Ascii.eqb (digit d) "B"%char = false).
Proof. intros H. repeat split; each_digit d. Qed.

Lemma drop_white_space_none (l : list ascii) :
  (forall c, In c l -> JS.is_white_space c = false) -> JS.drop_white_space l = l.
Proof.
  destruct l as [|c l]; simpl; intros H; [reflexivity|].
  rewrite (H c (or_introl eq_refl)). reflexivity.
Qed.

Lemma drop_white_space_all (l : list ascii) :
  forallb JS.is_white_space l = true -> JS.drop_white_space l = [].
Proof.
  induction l as [|c l IH]; simpl; intros H; [reflexivity|].
  apply andb_true_iff in H. destruct H as [Hc Hl]. rewrite Hc. exact (IH Hl).
Qed.

Lemma trim_none (l : list ascii) :
  (forall c, In c l -> JS.is_white_space c = false) -> JS.trim l = l.
Proof.
  intros H. unfold JS.trim. rewrite (drop_white_space_none l H).
  rewrite drop_white_space_none; [apply rev_involutive|].
  intros c Hc. apply H. apply in_rev. exact Hc.
Qed.

(** A blank string is the number [+0]. *)
Lemma Number_blank (s : string) : blank s = true -> JS.Number s = JS.pos_zero.
Proof.
  unfold blank, JS.Number, JS.trim. intros H.
  rewrite (drop_white_space_all _ H). reflexivity.
Qed.

Lemma read_digits_digits (ds : list nat) (acc : Z) (count : nat) :
  Forall (fun d => d < 10) ds ->
  JS.read_digits 10 (map digit ds) acc count =
  (fold_left (fun acc d => (acc * 10 + Z.of_nat d)%Z) ds acc, count + List.length ds, []).
Proof.
  intros H. revert acc count. induction H as [|d ds Hd _ IH]; intros acc count;
    cbn [map JS.read_digits fold_left List.length].
  - rewrite Nat.add_0_r. reflexivity.
  - rewrite (digit_value_digit d Hd), IH, <- Nat.add_succ_comm. reflexivity.
Qed.

Lemma digits_value_nonneg (ds : list nat) (acc : Z) :
  (0 <= acc)%Z -> (0 <= fold_left (fun acc d => (acc * 10 + Z.of_nat d)%Z) ds acc)%Z.
Proof.
  revert acc. induction ds as [|d ds IH]; simpl; intros acc H; [exact H|].
  apply IH. lia.
Qed.

Lemma radix_prefix_digits (ds : list nat) :
  Forall (fun d => d < 10) ds -> JS.radix_prefix (map digit ds) = None.
Proof.
  intros H. destruct H as [|d ds Hd H]; [reflexivity|].
  destruct H as [|d' ds' Hd' _]; [reflexivity|]. cbn [map JS.radix_prefix].
  destruct (digit_is_no_radix d' Hd') as (Hx & Ho & Hb). rewrite Hx, Ho, Hb.
  destruct (Ascii.eqb (digit d) "0"); reflexivity.
Qed.

(** A decimal integer literal is the number nearest to its integer. *)
Lemma Number_digits (ds : list nat) :
  ds <> [] -> Forall (fun d => d < 10) ds ->
  JS.Number (digits_string ds) = JS.of_Z (digits_value ds).
Proof.
  intros Hne Hall. unfold JS.Number, digits_string.
  rewrite list_ascii_of_string_of_list_ascii.
  rewrite trim_none.
  2:{ intros c Hc. apply in_map_iff in Hc. destruct Hc as (d & <- & Hd).
      apply is_white_space_digit. rewrite Forall_forall in Hall. exact (Hall d Hd). }
  pose proof (radix_prefix_digits ds Hall) as Hradix.
  pose proof (read_digits_digits ds 0 0 Hall) as Hread.
  destruct ds as [|d ds]; [contradiction|].
  assert (Hd : d < 10) by (inversion Hall; assumption).
  change (map digit (d :: ds)) with (digit d :: map digit ds) in *.
  cbv beta iota. rewrite Hradix. destruct (digit_is_no_sign d Hd) as (Hminus & Hplus).
  rewrite Hminus, Hplus. unfold JS.unsigned_decimal.
  destruct (list_eq_dec ascii_dec (digit d :: map digit ds)
                        (list_ascii_of_string "Infinity")) as [Heq|_].
  { exfalso. injection Heq as Heq _. clear - Hd Heq.
    do 10 (destruct d as [|d]; [discriminate Heq|]). lia. }
  rewrite Hread. cbn [Nat.add List.length].
  change (JS.read_exponent []) with (Some 0%Z). cbn [Z.of_nat Z.sub Z.opp Z.add].
  fold (digits_value (d :: ds)).
  pose proof (digits_value_nonneg (d :: ds) 0 (Z.le_refl 0)) as Hpos.
  fold (digits_value (d :: ds)) in Hpos.
  unfold JS.decimal_to_number, JS.of_Z, binary_normalize.
  destruct (digits_value (d :: ds)) as [|p|p]; [reflexivity| |lia].
  change (Z.to_pos (10 ^ 0)) with 1%positive. rewrite Pos.mul_1_r. reflexivity.
Qed.

Lemma includes_digits (ds : list nat) :
  Forall (fun d => d < 10) ds -> JS.includes ":"%char (digits_string ds) = false.
Proof.
  unfold digits_string. induction 1 as [|d ds Hd _ IH]; [reflexivity|].
  cbn [map string_of_list_ascii JS.includes].
  rewrite (digit_is_no_colon d Hd), IH. reflexivity.
Qed.

Lemma includes_blank (s : string) : blank s = true -> JS.includes ":"%char s = false.
Proof.
  unfold blank. induction s as [|c s IH]; simpl; intros H; [reflexivity|].
  apply andb_true_iff in H. destruct H as [Hc Hs]. rewrite (IH Hs), orb_false_r.
  destruct (Ascii.eqb_spec c ":"%char) as [->|]; [discriminate Hc|reflexivity].
Qed.

Lemma includes_separator (sep : ascii) (f rest : string) :
  JS.includes sep (f ++ String sep rest) = true.
Proof.
  induction f as [|c f IH]; cbn [String.append JS.includes].
  - rewrite Ascii.eqb_refl. reflexivity.
  - rewrite IH. apply orb_true_r.
Qed.

Section LineOfALocation.
Context {WasmValueVector : Type}.
Implicit Types (env : Cmd.Env WasmValueVector)
               (m : DebugSessionManager.t WasmValueVector)
               (fx : Effects).

(** X20: how the line of a location is read.  In [file:line] with [file]
    free of [:], a line written as a run of decimal digits is the number
    nearest to that integer, and a line that is empty or all white space is
    the number [+0], not a malformed location.  The address is looked up
    with that file and that number, the request carries what the lookup
    found, and when the command completes the reply and the record added
    at the end of the registry both carry that number. *)
Theorem setBreakPoint_line_is_parsed env m fx (file line : string) (n : JS.number) :
  JS.includes ":"%char file = false ->
  (blank line = true /\ n = JS.pos_zero) \/
  (exists ds, ds <> [] /\ Forall (fun d => d < 10) ds /\
              line = digits_string ds /\ n = JS.of_Z (digits_value ds)) ->
  let o := DebugSessionManager.setBreakPoint (file ++ String ":"%char line) env m fx in
  let wasmLocation :=
    DebugSession.findAddressFromFileLocation (DebugSessionManager.session m) file n in
  Cmd.effects o =
    Cmd.issue (Debugger_setBreakpoint
                 (option_map WasmLocation.scriptId wasmLocation)
                 (option_map WasmLocation.line wasmLocation)
                 (option_map WasmLocation.column wasmLocation)) fx /\
  (forall b, Cmd.completion o = Normal b ->
     IBreakPoint.verified b = true /\
     IBreakPoint.line b = Some n /\
     exists x,
       DebugSessionManager.breakPoints (Cmd.state o) =
         (DebugSessionManager.breakPoints m ++ [x])%list /\
       RuntimeBreakPoint.file x = file /\ RuntimeBreakPoint.line x = n).
Proof.
  intros Hfile Hline o wasmLocation.
  assert (Hparsed : JS.includes ":"%char line = false /\ JS.Number line = n).
  { destruct Hline as [[Hblank ->]|(ds & Hne & Hall & -> & ->)].
    - split; [apply includes_blank | apply Number_blank]; exact Hblank.
    - split; [apply includes_digits | apply Number_digits]; assumption. }
  destruct Hparsed as [Hcolon Hnumber].
  assert (Hsplit : JS.split ":"%char (file ++ String ":"%char line) = [file; line]).
  { rewrite (split_piece _ _ _ Hfile), (split_without_separator _ _ Hcolon). reflexivity. }
  pose proof (includes_separator ":"%char file line) as Hsep.
  pose proof (setBreakPoint_request env m fx _ Hsep) as Hrequest.
  pose proof (setBreakPoint_resolved env m fx (file ++ String ":"%char line)) as Hresolved.
  pose proof (setBreakPoint_rejected env m fx (file ++ String ":"%char line)) as Hrejected.
  cbv zeta in Hrequest, Hresolved, Hrejected.
  rewrite Hsplit in Hrequest, Hresolved, Hrejected.
  cbn [nth] in Hrequest, Hresolved, Hrejected.
  rewrite Hnumber in Hrequest, Hresolved, Hrejected.
  fold wasmLocation in Hrequest, Hresolved, Hrejected. fold o in Hrequest.
  split; [exact Hrequest|].
  intros b Hb.
  destruct (Cmd.gateway env (requests fx)
              (Debugger_setBreakpoint
                 (option_map WasmLocation.scriptId wasmLocation)
                 (option_map WasmLocation.line wasmLocation)
                 (option_map WasmLocation.column wasmLocation))) as [bp|e] eqn:Hreply.
  - specialize (Hresolved bp Hsep eq_refl). unfold o in Hb |- *.
    rewrite Hresolved in Hb |- *. cbn [Cmd.completion Cmd.state] in Hb |- *.
    injection Hb as <-. split; [reflexivity|]. split; [reflexivity|].
    eexists. split; [destruct m; reflexivity|]. split; reflexivity.
  - specialize (Hrejected e Hsep eq_refl). unfold o in Hb.
    rewrite Hrejected in Hb. discriminate Hb.
Qed.

End LineOfALocation.

(** A line of two digits, and a location that ends with its [:]. *)
Lemma setBreakPoint_line_is_parsed_witness :
  let env := Examples.env Examples.resolving in
  let digits := DebugSessionManager.setBreakPoint "main.c:42" env
                  DebugSessionManager.new no_effects in
  let empty := DebugSessionManager.setBreakPoint "main.c:" env
                 DebugSessionManager.new no_effects in
  JS.includes ":"%char "main.c" = false /\
  digits_string [4; 2] = "42" /\ blank EmptyString = true /\
  (forall b, Cmd.completion digits = Normal b -> IBreakPoint.line b = Some (JS.of_Z 42)) /\
  (forall b, Cmd.completion empty = Normal b -> IBreakPoint.line b = Some JS.pos_zero).
Proof.
  split; [reflexivity|]. split; [reflexivity|]. split; [reflexivity|]. split.
  - intros b Hb.
    destruct (setBreakPoint_line_is_parsed
                (Examples.env Examples.resolving) DebugSessionManager.new no_effects
                "main.c" "42" (JS.of_Z 42) eq_refl
                (or_intror
                   (ex_intro _ [4; 2]
                      (conj (fun H : [4; 2] = [] => eq_ind [4; 2]
                               (fun l => match l with [] => False | _ :: _ => True end)
                               Logic.I [] H)
                         (conj (Forall_cons 4 (le_S _ _ (le_S _ _ (le_S _ _ (le_S _ _ (le_S _ _ (le_n 5))))))
                                  (Forall_cons 2 (le_S _ _ (le_S _ _ (le_S _ _ (le_S _ _ (le_S _ _ (le_S _ _ (le_S _ _ (le_n 3))))))))
                                     (Forall_nil _)))
                            (conj eq_refl eq_refl))))))
      as (_ & Hdone).
    exact (proj1 (proj2 (Hdone b Hb))).
  - intros b Hb.
    destruct (setBreakPoint_line_is_parsed
                (Examples.env Examples.resolving) DebugSessionManager.new no_effects
                "main.c" EmptyString JS.pos_zero eq_refl
                (or_introl (conj eq_refl eq_refl)))
      as (_ & Hdone).
    exact (proj1 (proj2 (Hdone b Hb))).
Defined.
